(** * Rail abstraction layer and voltage-sweep orchestrator

    A shallow embedding of the board HAL ([boardAbstraction.py], iterations
    Three and Four) and of the sweep loop ([start.py], iteration Five).

    Python [float] is IEEE binary64, embedded as Rocq's primitive [float];
    Python [int] is [Z].  Dictionaries read from the JSON document are
    records of optional fields ([None] is an absent key); the [rails] and
    [workloads] tables are finite maps keyed by name.  Hardware access is a
    log of I/O events answered by a [hardware] oracle, and exceptions are
    explicit results. *)

From Stdlib Require Import ZArith QArith Floats Lia.
From Stdlib Require Qpower Uint63.
From stdpp Require Import base option list strings gmap.

#[local] Set Warnings "-inexact-float".
#[local] Open Scope Z_scope.

(** ** Python numerics *)

Module Py.

(** [float(n)] for an integer [n], also the implicit conversion of
    [n * x] and [n / x]: the nearest binary64, ties to even. *)
Definition float_of_int (n : Z) : float :=
  SF2Prim (binary_normalize prec emax n 0 false).

(** [int(x)]: truncation toward zero; [OverflowError] on an infinity and
    [ValueError] on a NaN are [None]. *)
Definition int (x : float) : option Z :=
  match Prim2SF x with
  | S754_zero _ => Some 0
  | S754_finite s m e =>
      let mag := if 0 <=? e then Z.pos m * 2 ^ e else Z.pos m / 2 ^ (- e) in
      Some (if s then - mag else mag)
  | S754_infinity _ | S754_nan => None
  end.

(** [round(x)] with one argument: the nearest integer, ties to even. *)
Definition round (x : float) : option Z :=
  match Prim2SF x with
  | S754_zero _ => Some 0
  | S754_finite s m e =>
      let mag :=
        if 0 <=? e then Z.pos m * 2 ^ e
        else
          let d := 2 ^ (- e) in
          let q := Z.pos m / d in
          match (2 * (Z.pos m mod d)) ?= d with
          | Lt => q
          | Gt => q + 1
          | Eq => if Z.even q then q else q + 1
          end in
      Some (if s then - mag else mag)
  | S754_infinity _ | S754_nan => None
  end.

(** [x / y]: [ZeroDivisionError] when [y] is a zero of either sign. *)
Definition truediv (x y : float) : option float :=
  if (y =? 0)%float then None else Some (x / y)%float.

(** [2.0 ** e] for an integer [e]; the callers only pass exponents whose
    power of two is a normal binary64. *)
Definition pow2 (e : Z) : float := Z.ldexp 1%float e.

(** [lo <= x <= hi], the chained comparison. *)
Definition between (lo x hi : float) : bool :=
  (lo <=? x)%float && (x <=? hi)%float.

(** The rational a finite binary64 stands for. *)
Definition value (x : float) : option Q :=
  match Prim2SF x with
  | S754_zero _ => Some 0%Q
  | S754_finite s m e =>
      Some ((if s then - inject_Z (Z.pos m) else inject_Z (Z.pos m)) * 2 ^ e)%Q
  | S754_infinity _ | S754_nan => None
  end.

(** [os.path.join(a, b)] on POSIX paths. *)
Definition path_join (a b : string) : string :=
  if String.prefix "/" b then b
  else if String.eqb a "" then b
  else if String.eqb (String.substring (String.length a - 1)%nat 1%nat a) "/"
  then a +:+ b
  else a +:+ "/" +:+ b.

End Py.

(** ** The configuration document *)

Module Config.

(** A JSON string holding a register or an address, with what
    [int(s, 16)] makes of it. *)
Inductive hexstr : Type :=
| hex (n : Z)
| not_hex.

Record Connection : Type := mkConnection {
  bus_id : option Z;
  address : option hexstr;
  regulator_name : option string;
  sysfs_path : option string;
  driver_match : option string;
  search_dir : option string
}.

Record Commands : Type := mkCommands {
  cmd_read_voltage : option hexstr;
  cmd_read_current : option hexstr;
  cmd_set_voltage : option hexstr;
  cmd_voltage_reg : option hexstr;
  cmd_update_reg : option hexstr;
  cmd_update_value : option hexstr
}.

Record Format : Type := mkFormat {
  voltage_mode : option string;
  scale_factor : option float;
  current_mode : option string;
  current_scale_factor : option float;
  unit_div : option float;
  base_v : option float;
  step_v : option float
}.

Record Files : Type := mkFiles {
  file_voltage : option string;
  file_current : option string;
  file_power : option string;
  voltage_div : option float;
  current_div : option float;
  power_div : option float
}.

Record Limits : Type := mkLimits {
  lim_min : option float;
  lim_max : option float;
  lim_nominal : option float
}.

Record RailConfig : Type := mkRailConfig {
  driver_type : option string;
  connection : option Connection;
  commands : option Commands;
  format : option Format;
  files : option Files;
  limits : option Limits;
  read_only : option bool
}.

Record WorkloadJob : Type := mkWorkloadJob {
  target_rail : option string;
  nominal_voltage : option float;
  executable : option string;
  args : option string;
  cwd : option string;
  regex : option string
}.

(** [d.get(key, default)] *)
Definition get {A : Type} (field : option A) (default : A) : A :=
  match field with
  | Some a => a
  | None => default
  end.

(** [c['conf'].get('limits', {})] *)
Definition no_limits : Limits := mkLimits None None None.

End Config.

(** ** Hardware access *)

Module IO.

Inductive io_event : Type :=
| read_word_data (bus addr cmd : Z)
| write_word_data (bus addr cmd value : Z)
| write_byte_data (bus addr reg value : Z)
| file_read (path : string)
| file_write (path : string) (value : Z).

(** What the board answers, given the accesses made so far: the word a
    bus read returns, the number [float(f.read())] parses from a file, and
    whether a write goes through.  [None] and [false] are an I/O fault (or
    text that is no number), raised as an exception. *)
Record hardware : Type := mkHardware {
  hw_read_word : list io_event -> Z -> Z -> Z -> option Z;
  hw_read_file : list io_event -> string -> option float;
  hw_write : list io_event -> io_event -> bool
}.

(** What construction finds on the system: whether [smbus2.SMBus(bus_id)]
    opens, the [microvolts] path [_find_regulator_by_name] returns for a
    regulator name, whether a path exists, and the first [hwmon*] directory
    under a search root whose [name] file contains the driver name. *)
Record system : Type := mkSystem {
  smbus_opens : Z -> bool;
  regulator_by_name : string -> option string;
  path_exists : string -> bool;
  hwmon_matching : string -> string -> option string
}.

(** A computation that may raise ([None]) and appends to the access log. *)
Definition io (A : Type) : Type := list io_event -> option A * list io_event.

Definition ret {A : Type} (a : A) : io A := fun log => (Some a, log).

Definition raise {A : Type} : io A := fun log => (None, log).

Definition bind {A B : Type} (c : io A) (k : A -> io B) : io B :=
  fun log =>
    match c log with
    | (Some a, log') => k a log'
    | (None, log') => (None, log')
    end.

(** [value] or an exception when the lookup, parse or conversion failed. *)
Definition lift {A : Type} (value : option A) : io A :=
  match value with
  | Some a => ret a
  | None => raise
  end.

(** [try: body  except Exception: return fallback] *)
Definition try_except {A : Type} (body : io A) (fallback : A) : list io_event -> A * list io_event :=
  fun log =>
    match body log with
    | (Some a, log') => (a, log')
    | (None, log') => (fallback, log')
    end.

Definition bus_read_word (hw : hardware) (bus addr cmd : Z) : io Z :=
  fun log =>
    (hw_read_word hw log bus addr cmd, log ++ [read_word_data bus addr cmd]).

Definition read_float_file (hw : hardware) (path : string) : io float :=
  fun log => (hw_read_file hw log path, log ++ [file_read path]).

Definition write (hw : hardware) (ev : io_event) : io unit :=
  fun log =>
    ((if hw_write hw log ev then Some tt else None), log ++ [ev]).

End IO.

Declare Scope io_scope.
Delimit Scope io_scope with io.
Notation "x <- c ;; k" := (IO.bind c (fun x => k))
  (at level 100, c at next level, right associativity) : io_scope.
Notation "c ;; k" := (IO.bind c (fun _ => k))
  (at level 100, right associativity) : io_scope.

#[local] Open Scope io_scope.

(** ** [boardAbstraction.py], iteration Four *)

Module IterationFour.
Import Config IO.

(** The controller dictionary [_init_rail_controller] returns: [c_bus] is
    the bus number of the open [SMBus] handle, [None] when the bus could
    not be opened or the driver type has none; [c_paths] holds the
    resolved ['microvolts'] or ['root'] path when discovery found it. *)
Record ctrl : Type := mkCtrl {
  c_name : string;
  c_conf : RailConfig;
  c_type : string;
  c_bus : option Z;
  c_paths : gmap string string
}.

Record BoardHAL : Type := mkBoardHAL {
  rails : gmap string ctrl;
  workloads : gmap string WorkloadJob
}.

Record sample : Type := mkSample {
  voltage_v : float;
  current_a : float;
  power_w : float
}.

(** The truth value of an optional string: absent and empty are false. *)
Definition truthy (s : option string) : option string :=
  match s with
  | Some "" | None => None
  | Some text => Some text
  end.

(** [_init_rail_controller]: [None] is the exception construction fails
    with, a missing [connection] entry or a bus rail without [bus_id].  A
    bus that does not open, a regulator or a monitor that is not found only
    print a warning and leave the handle absent. *)
Definition _init_rail_controller (sys : system) (name : string)
    (conf : RailConfig) : option ctrl :=
  let type := get (driver_type conf) "sysfs_monitor" in
  if String.eqb type "pmbus" || String.eqb type "raw_i2c" then
    conn ← connection conf;
    bus ← bus_id conn;
    Some (mkCtrl name conf type (if smbus_opens sys bus then Some bus else None) ∅)
  else if String.eqb type "sysfs_regulator" then
    conn ← connection conf;
    match truthy (regulator_name conn), truthy (sysfs_path conn) with
    | Some target, _ =>
        match regulator_by_name sys target with
        | Some found_path =>
            Some (mkCtrl name conf type None {["microvolts" := found_path]})
        | None => Some (mkCtrl name conf type None ∅)
        end
    | None, Some path =>
        if path_exists sys path
        then Some (mkCtrl name conf type None {["microvolts" := path]})
        else Some (mkCtrl name conf type None ∅)
    | None, None => Some (mkCtrl name conf type None ∅)
    end
  else if String.eqb type "sysfs_monitor" then
    conn ← connection conf;
    let base_search := get (search_dir conn) "/sys/class/hwmon" in
    match driver_match conn with
    | Some match_name =>
        match hwmon_matching sys base_search match_name with
        | Some hwmon => Some (mkCtrl name conf type None {["root" := hwmon]})
        | None => Some (mkCtrl name conf type None ∅)
        end
    | None => Some (mkCtrl name conf type None ∅)
    end
  else Some (mkCtrl name conf type None ∅).

(** [int(s, 16)] of a dictionary entry: [KeyError] on an absent key,
    [ValueError] on a string that is no hexadecimal number. *)
Definition int16 (entry : option hexstr) : io Z :=
  match entry with
  | Some (hex n) => ret n
  | Some not_hex | None => raise
  end.

Definition _decode_linear11 (raw_word : Z) : float :=
  let exp := Z.land (Z.shiftr raw_word 11) 0x1F in
  let exp := if 15 <? exp then exp - 32 else exp in
  let mant := Z.land raw_word 0x7FF in
  let mant := if 1023 <? mant then mant - 2048 else mant in
  (Py.float_of_int mant * Py.pow2 exp)%float.

Definition _decode_linear16 (raw_word : Z) (fixed_exp : Z) : float :=
  (Py.float_of_int raw_word * Py.pow2 fixed_exp)%float.

(** [raw / scale] where [scale] came from [fmt.get(key)]: a missing key
    gives [None], and dividing by it raises [TypeError]. *)
Definition div_by_entry (raw : Z) (scale : option float) : io float :=
  scale <- lift scale ;;
  lift (Py.truediv (Py.float_of_int raw) scale).

Definition read_pmbus (hw : hardware) (c : ctrl) (bus : Z) : io sample :=
  conn <- lift (connection (c_conf c)) ;;
  addr <- int16 (address conn) ;;
  cmds <- lift (commands (c_conf c)) ;;
  fmt <- lift (format (c_conf c)) ;;
  reg_v <- int16 (cmd_read_voltage cmds) ;;
  raw_v <- bus_read_word hw bus addr reg_v ;;
  v <- (if bool_decide (voltage_mode fmt = Some "linear16_fixed")
        then div_by_entry raw_v (scale_factor fmt)
        else ret (_decode_linear16 raw_v (-12))) ;;
  i <- (match cmd_read_current cmds with
        | Some entry =>
            reg_i <- int16 (Some entry) ;;
            raw_i <- bus_read_word hw bus addr reg_i ;;
            if bool_decide (current_mode fmt = Some "linear11")
            then ret (_decode_linear11 raw_i)
            else if bool_decide (current_mode fmt = Some "linear16_fixed")
            then div_by_entry raw_i (current_scale_factor fmt)
            else ret 0%float
        | None => ret 0%float
        end) ;;
  ret (mkSample v i (v * i)%float).

(** One [if key in f_map: with open(join(root, f_map[key])) ...] block. *)
Definition read_scaled_file (hw : hardware) (root : string)
    (name : option string) (divisor : float) (default : float) : io float :=
  match name with
  | Some file =>
      raw <- read_float_file hw (Py.path_join root file) ;;
      lift (Py.truediv raw divisor)
  | None => ret default
  end.

Definition read_sysfs_monitor (hw : hardware) (c : ctrl) (root : string) : io sample :=
  f_map <- lift (files (c_conf c)) ;;
  let v_div := get (voltage_div f_map) 1%float in
  let c_div := get (current_div f_map) 1%float in
  let p_div := get (power_div f_map) 1%float in
  v <- read_scaled_file hw root (file_voltage f_map) v_div 0%float ;;
  i <- read_scaled_file hw root (file_current f_map) c_div 0%float ;;
  p <- read_scaled_file hw root (file_power f_map) p_div (v * i)%float ;;
  ret (mkSample v i p).

Definition read_sysfs_regulator (hw : hardware) (c : ctrl) (path : string) : io sample :=
  fmt <- lift (format (c_conf c)) ;;
  let unit_div := get (unit_div fmt) 1000000%float in
  raw <- read_float_file hw path ;;
  v <- lift (Py.truediv raw unit_div) ;;
  ret (mkSample v 0%float 0%float).

(** [c['type'] == driver and handle]: the handle when both hold. *)
Definition driver_handle {A : Type} (c : ctrl) (driver : string)
    (handle : option A) : option A :=
  if String.eqb (c_type c) driver then handle else None.

(** The runtime handle the rail's driver works through is absent: the bus
    was not opened, or the path was not resolved.  A driver type the HAL
    does not know has no handle at all. *)
Definition handle_absent (c : ctrl) : bool :=
  if String.eqb (c_type c) "pmbus" || String.eqb (c_type c) "raw_i2c"
  then match c_bus c with None => true | Some _ => false end
  else if String.eqb (c_type c) "sysfs_monitor"
  then match c_paths c !! "root" with None => true | Some _ => false end
  else if String.eqb (c_type c) "sysfs_regulator"
  then match c_paths c !! "microvolts" with None => true | Some _ => false end
  else true.

(** The [try] block of [read_telemetry]: the [if]/[elif] chain on the
    driver type and the handle, then the [return] of the dictionary, which
    still holds the initial [0.0] values when no branch was taken. *)
Definition read_telemetry_try (hw : hardware) (c : ctrl) : io sample :=
  match driver_handle c "pmbus" (c_bus c) with
  | Some bus => read_pmbus hw c bus
  | None =>
  match driver_handle c "sysfs_monitor" (c_paths c !! "root") with
  | Some root => read_sysfs_monitor hw c root
  | None =>
  match driver_handle c "sysfs_regulator" (c_paths c !! "microvolts") with
  | Some path => read_sysfs_regulator hw c path
  | None => ret (mkSample 0 0 0)
  end end end.

(** [read_telemetry]: [None] is Python's [None]. *)
Definition read_telemetry (hw : hardware) (hal : BoardHAL) (rail_name : string)
    : list io_event -> option sample * list io_event :=
  match rails hal !! rail_name with
  | None => fun log => (None, log)
  | Some c =>
      try_except (s <- read_telemetry_try hw c ;; ret (Some s)) None
  end.

(** The register value of the PMBus branch.  Only the fixed-scale branch
    binds [scale]; the other branch reads the unbound local and raises
    [UnboundLocalError]. *)
Definition pmbus_raw_val (fmt : Format) (voltage_v : float) : io Z :=
  if bool_decide (voltage_mode fmt = Some "linear16_fixed") then
    scale <- lift (scale_factor fmt) ;;
    lift (Py.int (voltage_v * scale)%float)
  else raise.

Definition write_pmbus (hw : hardware) (c : ctrl) (bus : Z) (voltage_v : float) : io bool :=
  conn <- lift (connection (c_conf c)) ;;
  addr <- int16 (address conn) ;;
  cmds <- lift (commands (c_conf c)) ;;
  cmd <- int16 (cmd_set_voltage cmds) ;;
  fmt <- lift (format (c_conf c)) ;;
  raw_val <- pmbus_raw_val fmt voltage_v ;;
  write hw (write_word_data bus addr cmd raw_val) ;;
  ret true.

(** [f.write(str(raw_val))]: the event carries the integer whose decimal
    text is written. *)
Definition write_sysfs_regulator (hw : hardware) (c : ctrl) (path : string)
    (voltage_v : float) : io bool :=
  fmt <- lift (format (c_conf c)) ;;
  let unit_div := get (unit_div fmt) 1000000%float in
  raw_val <- lift (Py.int (voltage_v * unit_div)%float) ;;
  write hw (file_write path raw_val) ;;
  ret true.

(** [0] below [base], else [int(round((voltage_v - base) / step))]. *)
Definition vid_code (voltage_v base step : float) : io Z :=
  if (voltage_v <? base)%float then ret 0
  else
    x <- lift (Py.truediv (voltage_v - base)%float step) ;;
    lift (Py.round x).

Definition write_raw_i2c (hw : hardware) (c : ctrl) (bus : Z) (voltage_v : float) : io bool :=
  conn <- lift (connection (c_conf c)) ;;
  addr <- int16 (address conn) ;;
  cmds <- lift (commands (c_conf c)) ;;
  reg <- int16 (cmd_voltage_reg cmds) ;;
  fmt <- lift (format (c_conf c)) ;;
  match base_v fmt, step_v fmt with
  | Some base, Some step =>
      vid <- vid_code voltage_v base step ;;
      write hw (write_byte_data bus addr reg vid) ;;
      match cmd_update_reg cmds with
      | Some entry =>
          up_reg <- int16 (Some entry) ;;
          up_val <- int16 (Some (get (cmd_update_value cmds) (hex 1))) ;;
          write hw (write_byte_data bus addr up_reg up_val) ;;
          ret true
      | None => ret true
      end
  | _, _ => ret false
  end.

(** The [try] block of [set_voltage]; falling out of the chain reaches the
    final [return False]. *)
Definition set_voltage_try (hw : hardware) (c : ctrl) (voltage_v : float) : io bool :=
  match driver_handle c "pmbus" (c_bus c) with
  | Some bus => write_pmbus hw c bus voltage_v
  | None =>
  match driver_handle c "sysfs_regulator" (c_paths c !! "microvolts") with
  | Some path => write_sysfs_regulator hw c path voltage_v
  | None =>
  match driver_handle c "raw_i2c" (c_bus c) with
  | Some bus => write_raw_i2c hw c bus voltage_v
  | None => ret false
  end end end.

(** The bounds check: [lim.get('min', 0.0) <= voltage_v <= lim.get('max', 99.0)]
    on [lim = c['conf'].get('limits', {})]. *)
Definition within_limits (conf : RailConfig) (voltage_v : float) : bool :=
  let lim := get (limits conf) no_limits in
  Py.between (get (lim_min lim) 0%float) voltage_v (get (lim_max lim) 99%float).

Definition set_voltage (hw : hardware) (hal : BoardHAL) (rail_name : string)
    (voltage_v : float) : list io_event -> bool * list io_event :=
  match rails hal !! rail_name with
  | None => fun log => (false, log)
  | Some c =>
      if negb (within_limits (c_conf c) voltage_v) then fun log => (false, log)
      else try_except (set_voltage_try hw c voltage_v) false
  end.

End IterationFour.

(** ** [boardAbstraction.py], iteration Three *)

Module IterationThree.
Import Config IO.

Record ctrl : Type := mkCtrl {
  c_name : string;
  c_conf : RailConfig;
  c_type : string;
  c_bus : option Z;
  c_hwmon_path : option string;
  c_regulator_path : option string
}.

Record BoardHAL : Type := mkBoardHAL {
  rails : gmap string ctrl;
  workloads : gmap string WorkloadJob
}.

Definition int16 (entry : option hexstr) : io Z :=
  match entry with
  | Some (hex n) => ret n
  | Some not_hex | None => raise
  end.

Definition write_bus (hw : hardware) (c : ctrl) (bus : Z) (voltage_v : float) : io bool :=
  conn <- lift (connection (c_conf c)) ;;
  addr <- int16 (address conn) ;;
  cmds <- lift (commands (c_conf c)) ;;
  cmd <- int16 (cmd_set_voltage cmds) ;;
  fmt <- lift (format (c_conf c)) ;;
  scale <- lift (scale_factor fmt) ;;
  raw_val <- lift (Py.int (voltage_v * scale)%float) ;;
  write hw (write_word_data bus addr cmd raw_val) ;;
  ret true.

Definition write_regulator (hw : hardware) (path : string) (voltage_v : float) : io bool :=
  microvolts <- lift (Py.int (voltage_v * 1000000)%float) ;;
  write hw (file_write path microvolts) ;;
  ret true.

(** The [try] block: [pmbus] and [raw_i2c] share the word write; the
    [else] branch refuses any other driver type. *)
Definition set_voltage_try (hw : hardware) (c : ctrl) (voltage_v : float) : io bool :=
  match (if String.eqb (c_type c) "pmbus" || String.eqb (c_type c) "raw_i2c"
         then c_bus c else None) with
  | Some bus => write_bus hw c bus voltage_v
  | None =>
  match (if String.eqb (c_type c) "sysfs_regulator" then c_regulator_path c else None) with
  | Some path => write_regulator hw path voltage_v
  | None => ret false
  end end.

Definition within_limits (conf : RailConfig) (voltage_v : float) : bool :=
  let limits := get (limits conf) no_limits in
  let min_v := get (lim_min limits) 0%float in
  let max_v := get (lim_max limits) 99%float in
  Py.between min_v voltage_v max_v.

Definition set_voltage (hw : hardware) (hal : BoardHAL) (rail_name : string)
    (voltage_v : float) : list io_event -> bool * list io_event :=
  match rails hal !! rail_name with
  | None => fun log => (false, log)
  | Some c =>
      if get (read_only (c_conf c)) true then fun log => (false, log)
      else if negb (within_limits (c_conf c) voltage_v) then fun log => (false, log)
      else try_except (set_voltage_try hw c voltage_v) false
  end.

End IterationThree.

#[local] Close Scope io_scope.

(** ** Python control flow for [start.py] *)

Module Flow.
Import Config.

(** *** Completions

    A statement ends normally, by [break], by [return] or by raising; the
    local variables and everything recorded so far survive all four.
    [OutOfFuel] is not Python's: it marks a run of the model cut short,
    and [run_workload_sweep] is shown never to produce it. *)

Inductive exn : Type :=
| KeyboardInterrupt
| UnboundLocalError (variable : string)
| KeyError (key : string)
| OtherError.

(** [except Exception] catches everything but [KeyboardInterrupt]. *)
Definition is_Exception (e : exn) : bool :=
  match e with
  | KeyboardInterrupt => false
  | _ => true
  end.

Definition is_KeyboardInterrupt (e : exn) : bool :=
  match e with
  | KeyboardInterrupt => true
  | _ => false
  end.

Inductive completion (A : Type) : Type :=
| Normal (a : A)
| Break
| Return
| Raise (e : exn)
| OutOfFuel.
#[global] Arguments Normal {A} a.
#[global] Arguments Break {A}.
#[global] Arguments Return {A}.
#[global] Arguments Raise {A} e.
#[global] Arguments OutOfFuel {A}.

(** One line of [self.log_data]: a telemetry sample, its timestamp and,
    once the step is over, the step's accuracy. *)
Record row : Type := mkRow {
  r_sample : IterationFour.sample;
  r_timestamp : float;
  r_accuracy : option float
}.

Inductive message : Type :=
| WorkloadNotFound
| NoNominalVoltage
| StartingSweep
| WarmupComplete
| StepBanner (step_count : Z) (current_v : float)
| AbortingSweep
| AccuracyNotFound
| Result (status : string)
| Crash (returncode : Z)
| ExecutionException
| FineModeActive
| SafetyLimitReached
| TestInterrupted
| Resetting.

Inductive event : Type :=
| Print (m : message)
| WarmUp (full_cmd : string)
| SetVoltage (rail : string) (voltage_v : float)
| RunWorkload (full_cmd : string)
| SaveCsv (workload : string) (voltage : float) (data : list row)
| SummaryRow (workload : string) (voltage accuracy : float) (status : string)
    (duration : float) (log_data : list row).

(** The local variables of [run_workload_sweep] that the loop assigns,
    [self.log_data], and the record of what the run did.  [status] and
    [duration] are unbound ([None]) until their first assignment. *)
Record locals : Type := mkLocals {
  current_v : float;
  step_count : Z;
  accuracy_found : float;
  status : option string;
  duration : option float;
  log_data : list row;
  trace : list event
}.

Definition M (A : Type) : Type := locals -> completion A * locals.

Definition ret {A : Type} (a : A) : M A := fun st => (Normal a, st).

Definition bind {A B : Type} (c : M A) (k : A -> M B) : M B :=
  fun st =>
    match c st with
    | (Normal a, st') => k a st'
    | (Break, st') => (Break, st')
    | (Return, st') => (Return, st')
    | (Raise e, st') => (Raise e, st')
    | (OutOfFuel, st') => (OutOfFuel, st')
    end.

Definition break {A : Type} : M A := fun st => (Break, st).
Definition return_ {A : Type} : M A := fun st => (Return, st).
Definition raise {A : Type} (e : exn) : M A := fun st => (Raise e, st).

Definition get_locals : M locals := fun st => (Normal st, st).

Definition emit (ev : event) : M unit :=
  fun st =>
    (Normal tt,
     mkLocals (current_v st) (step_count st) (accuracy_found st) (status st)
       (duration st) (log_data st) (trace st ++ [ev])).

Definition set_current_v (v : float) : M unit :=
  fun st =>
    (Normal tt,
     mkLocals v (step_count st) (accuracy_found st) (status st) (duration st)
       (log_data st) (trace st)).

Definition set_step_count (n : Z) : M unit :=
  fun st =>
    (Normal tt,
     mkLocals (current_v st) n (accuracy_found st) (status st) (duration st)
       (log_data st) (trace st)).

Definition set_accuracy_found (a : float) : M unit :=
  fun st =>
    (Normal tt,
     mkLocals (current_v st) (step_count st) a (status st) (duration st)
       (log_data st) (trace st)).

Definition set_status (s : string) : M unit :=
  fun st =>
    (Normal tt,
     mkLocals (current_v st) (step_count st) (accuracy_found st) (Some s)
       (duration st) (log_data st) (trace st)).

Definition set_duration (d : float) : M unit :=
  fun st =>
    (Normal tt,
     mkLocals (current_v st) (step_count st) (accuracy_found st) (status st)
       (Some d) (log_data st) (trace st)).

Definition set_log_data (l : list row) : M unit :=
  fun st =>
    (Normal tt,
     mkLocals (current_v st) (step_count st) (accuracy_found st) (status st)
       (duration st) l (trace st)).

(** [d[key]]: [KeyError] on an absent key. *)
Definition key {A : Type} (name : string) (field : option A) : M A :=
  match field with
  | Some a => ret a
  | None => raise (KeyError name)
  end.

(** Reading a local: [UnboundLocalError] before its first assignment. *)
Definition local {A : Type} (name : string) (var : locals -> option A) : M A :=
  fun st =>
    match var st with
    | Some a => (Normal a, st)
    | None => (Raise (UnboundLocalError name), st)
    end.

(** [try: body  except <caught>: handler] *)
Definition try_except {A : Type} (body : M A) (caught : exn -> bool)
    (handler : M A) : M A :=
  fun st =>
    match body st with
    | (Raise e, st') => if caught e then handler st' else (Raise e, st')
    | r => r
    end.

(** [try: body  finally: final].  The [finally] block runs however the
    body ended; ending abruptly itself, it replaces the body's outcome. *)
Definition try_finally {A : Type} (body : M A) (final : M unit) : M A :=
  fun st =>
    match body st with
    | (OutOfFuel, st') => (OutOfFuel, st')
    | (c, st') =>
        match final st' with
        | (Normal _, st'') => (c, st'')
        | (Break, st'') => (Break, st'')
        | (Return, st'') => (Return, st'')
        | (Raise e, st'') => (Raise e, st'')
        | (OutOfFuel, st'') => (OutOfFuel, st'')
        end
    end.

(** [while cond: body], unrolled at most [fuel] times. *)
Fixpoint while (fuel : nat) (cond : locals -> bool) (body : M unit) : M unit :=
  match fuel with
  | O => fun st => (OutOfFuel, st)
  | S fuel' =>
      fun st =>
        if cond st then
          match body st with
          | (Normal _, st') => while fuel' cond body st'
          | (Break, st') => (Normal tt, st')
          | r => r
          end
        else (Normal tt, st)
  end.

End Flow.

Declare Scope sweep_scope.
Delimit Scope sweep_scope with sweep.
Notation "x <- c ;; k" := (Flow.bind c (fun x => k))
  (at level 100, c at next level, right associativity) : sweep_scope.
Notation "c ;; k" := (Flow.bind c (fun _ => k))
  (at level 100, right associativity) : sweep_scope.

(** ** [start.py], iteration Five: the sweep orchestrator *)

Module Sweep.
Import Config Flow.
#[local] Open Scope sweep_scope.

(** *** The environment of a run *)

(** Where Ctrl-C arrives within a step: inside the call of
    [hal.set_voltage], during the settle delay, while the workload runs
    (inside the inner [try]), or while the sampler is joined (inside the
    inner [finally]). *)
Inductive point : Type :=
| at_set_voltage
| at_settle
| at_run
| at_join.

#[global] Instance point_eq_dec : EqDecision point.
Proof. solve_decision. Defined.

(** What [re.search] and [float(match.group(1))] make of the output. *)
Inductive extraction : Type :=
| no_match
| matched (accuracy : float)
| bad_capture.

(** [subprocess.run]: the process ran and exited, after [seconds] of wall
    clock, or the call itself raised (executable or directory missing). *)
Inductive run_result : Type :=
| Exited (returncode : Z) (output : extraction) (seconds : float)
| Failed.

Record step_world : Type := mkStepWorld {
  set_ok : bool;
  interrupt : option point;
  run : run_result;
  collected : list row
}.

(** The collaborators of one run: the warm-up execution ([Some e] when it
    raises), each step by its number, and the result of the final reset. *)
Record world : Type := mkWorld {
  warmup : option exn;
  steps : Z -> step_world;
  reset_ok : bool
}.

(** *** The step-size policy *)

Definition fine_threshold (min_v : float) : float := (min_v + 0.02)%float.
Definition fine_step : float := 0.001%float.

(** [if current_v <= fine_threshold: current_step = fine_step
     else: current_step = coarse_step] *)
Definition current_step (min_v coarse_step current_v : float) : float :=
  if (current_v <=? fine_threshold min_v)%float then fine_step else coarse_step.

(** [current_v -= current_step] *)
Definition next_voltage (min_v coarse_step current_v : float) : float :=
  (current_v - current_step min_v coarse_step current_v)%float.

(** [current_v >= (min_v - 0.0001)] *)
Definition loop_condition (min_v : float) (st : locals) : bool :=
  (min_v - 0.0001 <=? current_v st)%float.

(** *** One iteration of the loop *)

(** [self.hal.set_voltage(rail, v)] as the orchestrator sees it. *)
Definition hal_set_voltage (w : step_world) (rail : string) (v : float) : M bool :=
  emit (SetVoltage rail v) ;;
  if bool_decide (interrupt w = Some at_set_voltage) then raise KeyboardInterrupt
  else ret (set_ok w).

(** [time.sleep(1.0)] *)
Definition settle (w : step_world) : M unit :=
  if bool_decide (interrupt w = Some at_settle) then raise KeyboardInterrupt
  else ret tt.

(** The body of the inner [try]. *)
Definition run_model (job : WorkloadJob) (full_cmd : string) (w : step_world) : M unit :=
  emit (RunWorkload full_cmd) ;;
  if bool_decide (interrupt w = Some at_run) then raise KeyboardInterrupt
  else
    match run w with
    | Failed => raise OtherError
    | Exited returncode output seconds =>
        set_duration seconds ;;
        custom_regex <- key "regex" (regex job) ;;
        match output with
        | matched a => set_accuracy_found a
        | no_match => emit (Print AccuracyNotFound) ;; set_accuracy_found 0
        | bad_capture => raise OtherError
        end ;;
        if bool_decide (returncode = 0) || bool_decide (returncode = -6) then
          set_status "SUCCESS" ;;
          (if bool_decide (returncode = -6)
           then set_status "SUCCESS (GUI Ignored)" else ret tt) ;;
          st <- get_locals ;;
          emit (Print (Result (default "" (status st))))
        else emit (Print (Crash returncode))
    end.

(** [for row in self.log_data: row['accuracy'] = accuracy_found] *)
Definition annotate (accuracy : float) (data : list row) : list row :=
  map (fun r => mkRow (r_sample r) (r_timestamp r) (Some accuracy)) data.

(** [_save_csv]: nothing is written for an empty list. *)
Definition _save_csv (workload : string) (voltage : float) (data : list row) : M unit :=
  match data with
  | [] => ret tt
  | _ => emit (SaveCsv workload voltage data)
  end.

(** [update_master_summary]: one row appended to the cumulative summary; the
    averages are taken over [self.log_data], which the event carries.  The
    append to the file is taken to go through. *)
Definition update_master_summary (workload : string)
    (voltage accuracy : float) (status : string) (duration : float) : M unit :=
  st <- get_locals ;;
  emit (SummaryRow workload voltage accuracy status duration (log_data st)).

(** The inner [finally]: the sampler is stopped and joined, the samples it
    appended are annotated and saved, the summary row is written.  The
    arguments of [update_master_summary] are read left to right. *)
Definition persist (workload_name : string) (w : step_world) : M unit :=
  if bool_decide (interrupt w = Some at_join) then raise KeyboardInterrupt
  else
    set_log_data (collected w) ;;
    st <- get_locals ;;
    set_log_data (annotate (accuracy_found st) (log_data st)) ;;
    st <- get_locals ;;
    _save_csv workload_name (current_v st) (log_data st) ;;
    status <- local "status" status ;;
    duration <- local "duration" duration ;;
    update_master_summary workload_name (current_v st) (accuracy_found st)
      status duration.

(** The statements after the inner [try]. *)
Definition step_down (min_v coarse_step : float) : M unit :=
  st <- get_locals ;;
  (if (current_v st <=? fine_threshold min_v)%float
   then emit (Print FineModeActive) else ret tt) ;;
  set_current_v (next_voltage min_v coarse_step (current_v st)) ;;
  set_step_count (step_count st + 1) ;;
  if 500 <? step_count st + 1
  then emit (Print SafetyLimitReached) ;; break
  else ret tt.

Definition loop_body (w : world) (job : WorkloadJob)
    (workload_name rail full_cmd : string) (min_v coarse_step : float) : M unit :=
  st <- get_locals ;;
  let sw := steps w (step_count st) in
  emit (Print (StepBanner (step_count st) (current_v st))) ;;
  set_accuracy_found 0 ;;
  ok <- hal_set_voltage sw rail (current_v st) ;;
  if negb ok then emit (Print AbortingSweep) ;; break
  else
    settle sw ;;
    set_log_data [] ;;
    try_finally
      (try_except (run_model job full_cmd sw) is_Exception
         (emit (Print ExecutionException) ;; break))
      (persist workload_name sw) ;;
    step_down min_v coarse_step.

(** Steps the safety check leaves room for, counting from [step_count]. *)
Definition fuel_for (step_count : Z) : nat := Z.to_nat (501 - step_count).

(** [current_v = nominal_v; step_count = 0; while ...] *)
Definition sweep_loop (w : world) (job : WorkloadJob)
    (workload_name rail full_cmd : string)
    (nominal_v min_v coarse_step : float) : M unit :=
  set_current_v nominal_v ;;
  set_step_count 0 ;;
  while (fuel_for 0) (loop_condition min_v)
    (loop_body w job workload_name rail full_cmd min_v coarse_step).

(** The outer [finally]. *)
Definition reset (rail : string) (nominal_v : float) : M unit :=
  emit (Print Resetting) ;;
  emit (SetVoltage rail nominal_v).

(** [try: <loop>  except KeyboardInterrupt: print  finally: <reset>] *)
Definition guarded_sweep (w : world) (job : WorkloadJob)
    (workload_name rail full_cmd : string)
    (nominal_v min_v coarse_step : float) : M unit :=
  try_finally
    (try_except
       (sweep_loop w job workload_name rail full_cmd nominal_v min_v coarse_step)
       is_KeyboardInterrupt
       (emit (Print TestInterrupted)))
    (reset rail nominal_v).

(** The warm-up execution, outside any [try]. *)
Definition warm_up (w : world) (full_cmd : string) : M unit :=
  emit (WarmUp full_cmd) ;;
  match warmup w with
  | Some e => raise e
  | None => emit (Print WarmupComplete)
  end.

(** The nominal voltage: the job's override, else the rail's. *)
Definition nominal_of (hal : IterationFour.BoardHAL) (job : WorkloadJob)
    (rail : string) : M float :=
  match nominal_voltage job with
  | Some v => ret v
  | None =>
      match IterationFour.rails hal !! rail with
      | Some c =>
          lim <- key "limits" (limits (IterationFour.c_conf c)) ;;
          ret (get (lim_nominal lim) 0.85%float)
      | None => emit (Print NoNominalVoltage) ;; return_
      end
  end.

Definition run_workload_sweep (hal : IterationFour.BoardHAL) (w : world)
    (workload_name : string) (steps : Z) (step_size_v : float) : M unit :=
  match IterationFour.workloads hal !! workload_name with
  | None => emit (Print WorkloadNotFound) ;; return_
  | Some job =>
      let rail := get (target_rail job) "VCCINT" in
      nominal_v <- nominal_of hal job rail ;;
      executable <- key "executable" (executable job) ;;
      args <- key "args" (args job) ;;
      let full_cmd := executable +:+ " " +:+ args in
      cwd <- key "cwd" (cwd job) ;;
      emit (Print StartingSweep) ;;
      warm_up w full_cmd ;;
      c <- key rail (IterationFour.rails hal !! rail) ;;
      lim <- key "limits" (limits (IterationFour.c_conf c)) ;;
      let min_v := get (lim_min lim) 0.55%float in
      guarded_sweep w job workload_name rail full_cmd nominal_v min_v step_size_v
  end.

(** The locals of a fresh call: nothing is bound yet. *)
Definition fresh : locals := mkLocals 0 0 0 None None [] [].

(** The [(rail, volts)] arguments of the [set_voltage] calls of a trace. *)
Definition set_voltage_calls (tr : list event) : list (string * float) :=
  omap (fun ev =>
          match ev with
          | SetVoltage rail v => Some (rail, v)
          | _ => None
          end) tr.

(** The status column of the summary rows of a trace, with the voltage. *)
Definition summary_statuses (tr : list event) : list (float * string) :=
  omap (fun ev =>
          match ev with
          | SummaryRow _ v _ status _ _ => Some (v, status)
          | _ => None
          end) tr.

(** *** Vocabulary of the properties *)

(** The voltage of step [k]: [k] decrements below the nominal voltage. *)
Definition voltage_at (nominal_v min_v coarse_step : float) (k : nat) : float :=
  Nat.iter k (next_voltage min_v coarse_step) nominal_v.

(** The numbers of the steps a trace began, from its step banners. *)
Definition step_numbers (tr : list event) : list Z :=
  omap (fun ev =>
          match ev with
          | Print (StepBanner n _) => Some n
          | _ => None
          end) tr.

(** Nothing but the voltage and the cap can stop the sweep: through step
    500 every write succeeds, nobody interrupts, the workload runs and its
    accuracy, when found, parses; the first run exits with a success code,
    so that [status] is bound from then on. *)
Definition unhindered (w : world) : Prop :=
  forall k : Z, 0 <= k <= 500 ->
    set_ok (steps w k) = true
    /\ interrupt (steps w k) = None
    /\ exists returncode output seconds,
         run (steps w k) = Exited returncode output seconds
         /\ output <> bad_capture
         /\ (k = 0 -> returncode = 0 \/ returncode = -6).

(** A computation that leaves [step_count] alone and completes. *)
Definition steady {A : Type} (c : M A) : Prop :=
  forall st, step_count (c st).2 = step_count st /\ (c st).1 <> OutOfFuel.

(** A computation the model runs to its end. *)
Definition completes {A : Type} (c : M A) : Prop :=
  forall st, (c st).1 <> OutOfFuel.

(** A computation that completes and, when it ends normally, has counted
    one more step without passing the cap. *)
Definition advances {A : Type} (c : M A) : Prop :=
  forall st,
    (c st).1 <> OutOfFuel
    /\ (forall a, (c st).1 = Normal a ->
          step_count (c st).2 = step_count st + 1 /\ step_count (c st).2 <= 500).

End Sweep.

(** ** The linear11 wire format *)

Module Linear11.

(** The packing the format prescribes: the exponent as a 5-bit
    two's-complement field in bits 11-15, the mantissa as an 11-bit
    two's-complement field in bits 0-10. *)
Definition pack (exponent mantissa : Z) : Z :=
  Z.lor (Z.shiftl (exponent mod 32) 11) (mantissa mod 2048).

(** The decoded word stands for exactly [mantissa * 2 ^ exponent]. *)
Definition decodes_exactly (exponent mantissa : Z) : bool :=
  match Py.value (IterationFour._decode_linear11 (pack exponent mantissa)) with
  | Some q => Qeq_bool q (inject_Z mantissa * 2 ^ exponent)
  | None => false
  end.

Definition exponents : list Z := seqZ (-16) 32.
Definition mantissas : list Z := seqZ (-1024) 2048.

End Linear11.

(** ** Concrete boards and runs *)

Module Demo.
Import Config IO.

(** A board that answers every read with zero and accepts every write. *)
Definition quiet : hardware :=
  mkHardware (fun _ _ _ _ => Some 0) (fun _ _ => Some 0%float) (fun _ _ => true).

Definition pmbus_commands : Commands :=
  mkCommands (Some (hex 0x8B)) (Some (hex 0x8C)) (Some (hex 0x21)) None None None.

Definition fixed_format : Format :=
  mkFormat (Some "linear16_fixed") (Some 4096%float) (Some "linear11") None None None None.

(** The same format without a voltage mode: the generic scaled branch. *)
Definition generic_format : Format :=
  mkFormat None (Some 4096%float) (Some "linear11") None None None None.

Definition vid_format : Format :=
  mkFormat None None None None None (Some 0.6%float) (Some 0.005%float).

Definition core_limits : Limits :=
  mkLimits (Some 0.55%float) (Some 1%float) (Some 0.85%float).

Definition vccint_conf : RailConfig :=
  mkRailConfig (Some "pmbus") (Some (mkConnection (Some 4) (Some (hex 0x13)) None None None None))
    (Some pmbus_commands) (Some fixed_format) None (Some core_limits) None.

(** [vccint_conf] flagged read-only. *)
Definition locked_conf : RailConfig :=
  mkRailConfig (Some "pmbus") (Some (mkConnection (Some 4) (Some (hex 0x13)) None None None None))
    (Some pmbus_commands) (Some fixed_format) None (Some core_limits) (Some true).

Definition generic_conf : RailConfig :=
  mkRailConfig (Some "pmbus") (Some (mkConnection (Some 4) (Some (hex 0x14)) None None None None))
    (Some pmbus_commands) (Some generic_format) None (Some core_limits) None.

Definition vid_conf : RailConfig :=
  mkRailConfig (Some "raw_i2c") (Some (mkConnection (Some 2) (Some (hex 0x40)) None None None None))
    (Some (mkCommands None None None (Some (hex 0x00)) None None))
    (Some vid_format) None (Some core_limits) None.

Definition monitor_conf : RailConfig :=
  mkRailConfig (Some "sysfs_monitor") (Some (mkConnection None None None None (Some "ina226") None)) None None
    (Some (mkFiles (Some "in1_input") (Some "curr1_input") None
             (Some 1000%float) (Some 1000%float) None))
    (Some core_limits) (Some false).

(** A rail that declares no limits at all. *)
Definition unlimited_conf : RailConfig :=
  mkRailConfig (Some "pmbus") (Some (mkConnection (Some 4) (Some (hex 0x15)) None None None None))
    (Some pmbus_commands) (Some fixed_format) None None None.

(** A rail that declares a maximum only. *)
Definition capped_conf : RailConfig :=
  mkRailConfig (Some "pmbus") (Some (mkConnection (Some 4) (Some (hex 0x16)) None None None None))
    (Some pmbus_commands) (Some fixed_format) None
    (Some (mkLimits None (Some 1%float) None)) None.

Definition squeezenet : WorkloadJob :=
  mkWorkloadJob (Some "VCCINT") None (Some "./run.sh") (Some "squeezenet")
    (Some "/home/root/models") (Some "accuracy: ([0-9.]+)").

(** The iteration-Four board: [VCCINT] and [LOCKED] on an open PMBus,
    [VGEN] with the generic format, [VCORE] on an open raw I2C bus, [VCCAUX]
    whose bus could not be opened, and a monitor whose sensor was found. *)
Definition board4 : IterationFour.BoardHAL :=
  IterationFour.mkBoardHAL
    (<["VCCINT" := IterationFour.mkCtrl "VCCINT" vccint_conf "pmbus" (Some 4) ∅]>
     (<["LOCKED" := IterationFour.mkCtrl "LOCKED" locked_conf "pmbus" (Some 4) ∅]>
     (<["VGEN" := IterationFour.mkCtrl "VGEN" generic_conf "pmbus" (Some 4) ∅]>
     (<["VCORE" := IterationFour.mkCtrl "VCORE" vid_conf "raw_i2c" (Some 2) ∅]>
     (<["VCCAUX" := IterationFour.mkCtrl "VCCAUX" vccint_conf "pmbus" None ∅]>
     (<["VFREE" := IterationFour.mkCtrl "VFREE" unlimited_conf "pmbus" (Some 4) ∅]>
     (<["VCAP" := IterationFour.mkCtrl "VCAP" capped_conf "pmbus" (Some 4) ∅]>
     (<["SENSE" := IterationFour.mkCtrl "SENSE" monitor_conf "sysfs_monitor" None
                     {["root" := "/sys/class/hwmon/hwmon0"]}]> ∅))))))))
    {["SqueezeNet" := squeezenet]}.

(** The iteration-Three board: [VCCINT] declared writable, [LOCKED]
    flagged read-only, and a writable monitor rail. *)
Definition writable_conf : RailConfig :=
  mkRailConfig (Some "pmbus") (Some (mkConnection (Some 4) (Some (hex 0x13)) None None None None))
    (Some pmbus_commands) (Some fixed_format) None (Some core_limits) (Some false).

Definition board3 : IterationThree.BoardHAL :=
  IterationThree.mkBoardHAL
    (<["VCCINT" := IterationThree.mkCtrl "VCCINT" writable_conf "pmbus" (Some 4) None None]>
     (<["LOCKED" := IterationThree.mkCtrl "LOCKED" locked_conf "pmbus" (Some 4) None None]>
     (<["SENSE" := IterationThree.mkCtrl "SENSE" monitor_conf "sysfs_monitor" None
                     (Some "/sys/class/hwmon/hwmon0") None]> ∅)))
    {["SqueezeNet" := squeezenet]}.

(** A step that goes well: the write succeeds, nobody interrupts, the
    workload exits 0 and prints an accuracy of 0.923; one sample is taken. *)
Definition good_step : Sweep.step_world :=
  Sweep.mkStepWorld true None
    (Sweep.Exited 0 (Sweep.matched 0.923%float) 12.5%float)
    [Flow.mkRow (IterationFour.mkSample 0.85 2 1.7) 1000%float None].

Definition with_run (r : Sweep.run_result) : Sweep.step_world :=
  Sweep.mkStepWorld true None r [].

(** Every step goes well. *)
Definition calm : Sweep.world :=
  Sweep.mkWorld None (fun _ => good_step) true.

(** Step [k] differs from a good step. *)
Definition except_at (k : Z) (sw : Sweep.step_world) : Sweep.world :=
  Sweep.mkWorld None (fun n => if n =? k then sw else good_step) true.

(** The workload exits with code 1 at step [k]. *)
Definition crash_at (k : Z) : Sweep.world :=
  except_at k (with_run (Sweep.Exited 1 Sweep.no_match 3%float)).

(** The voltage write fails at step [k]. *)
Definition write_fails_at (k : Z) : Sweep.world :=
  except_at k (Sweep.mkStepWorld false None Sweep.Failed []).

(** Ctrl-C arrives while the workload of step [k] runs. *)
Definition interrupted_at (k : Z) : Sweep.world :=
  except_at k (Sweep.mkStepWorld true (Some Sweep.at_run) Sweep.Failed []).

(** The world a run on [board4] lives in: whatever [w] says, the write of
    step [k] goes through only when the HAL's [set_voltage] accepts the
    voltage of that step on the rail [VCCINT] (nominal 0.85 V, minimum
    0.55 V). *)
Definition on_board (w : Sweep.world) (step_size_v : float) : Sweep.world :=
  Sweep.mkWorld (Sweep.warmup w)
    (fun k =>
       let sw := Sweep.steps w k in
       let v := Sweep.voltage_at 0.85 0.55 step_size_v (Z.to_nat k) in
       Sweep.mkStepWorld
         (Sweep.set_ok sw
          && (IterationFour.set_voltage quiet board4 "VCCINT" v []).1)
         (Sweep.interrupt sw) (Sweep.run sw) (Sweep.collected sw))
    (Sweep.reset_ok w).

(** The trace and the outcome of a sweep of [SqueezeNet] on [board4]. *)
Definition sweep_of (w : Sweep.world) (step_size_v : float)
    : Flow.completion unit * Flow.locals :=
  Sweep.run_workload_sweep board4 (on_board w step_size_v) "SqueezeNet" 27
    step_size_v Sweep.fresh.

End Demo.

(** ** Kinds of hardware access *)

Module Access.
Import IO.

Definition is_read (ev : io_event) : bool :=
  match ev with
  | read_word_data _ _ _ | file_read _ => true
  | write_word_data _ _ _ _ | write_byte_data _ _ _ _ | file_write _ _ => false
  end.

Definition is_write (ev : io_event) : bool :=
  match ev with
  | write_word_data _ _ _ _ | write_byte_data _ _ _ _ | file_write _ _ => true
  | read_word_data _ _ _ | file_read _ => false
  end.

(** A computation that appends at most [n] accesses to the log, all of one
    kind, however it ends. *)
Definition touches {A : Type} (kind : io_event -> bool) (n : nat) (c : io A) : Prop :=
  forall log : list io_event,
    exists evs : list io_event,
      (c log).2 = log ++ evs
      /\ forallb kind evs = true
      /\ (length evs <= n)%nat.

End Access.

(** ** Further boards *)

Module Bench.
Import Config IO.

(** A board that answers reads but refuses every write. *)
Definition stuck : hardware :=
  mkHardware (fun _ _ _ _ => Some 0) (fun _ _ => Some 0%float) (fun _ _ => false).

(** A system on which no bus opens and nothing is found. *)
Definition bare : system :=
  mkSystem (fun _ => false) (fun _ => None) (fun _ => false) (fun _ _ => None).

(** A system on which bus 4 opens, the regulator [vcc_core] is found and
    the first monitor directory belongs to the [ina226] driver. *)
Definition lab : system :=
  mkSystem (fun bus => bus =? 4)
    (fun target =>
       if String.eqb target "vcc_core"
       then Some "/sys/class/regulator/regulator.3/microvolts" else None)
    (fun _ => false)
    (fun root driver =>
       if String.eqb driver "ina226" then Some (Py.path_join root "hwmon0") else None).

(** A raw I2C rail whose regulator latches the staged code on a write of
    the update register, with the default update value. *)
Definition latched_conf : RailConfig :=
  mkRailConfig (Some "raw_i2c")
    (Some (mkConnection (Some 2) (Some (hex 0x40)) None None None None))
    (Some (mkCommands None None None (Some (hex 0x00)) (Some (hex 0x01)) None))
    (Some Demo.vid_format) None (Some Demo.core_limits) None.

(** The same rail with an update register that is no hexadecimal number. *)
Definition mistyped_conf : RailConfig :=
  mkRailConfig (Some "raw_i2c")
    (Some (mkConnection (Some 2) (Some (hex 0x40)) None None None None))
    (Some (mkCommands None None None (Some (hex 0x00)) (Some not_hex) None))
    (Some Demo.vid_format) None (Some Demo.core_limits) None.

Definition regulator_conf : RailConfig :=
  mkRailConfig (Some "sysfs_regulator")
    (Some (mkConnection None None (Some "vcc_core") None None None)) None
    (Some (mkFormat None None None None None None None)) None
    (Some Demo.core_limits) None.

(** A monitor rail whose sensor was found but whose configuration has no
    [files] entry. *)
Definition fileless_conf : RailConfig :=
  mkRailConfig (Some "sysfs_monitor")
    (Some (mkConnection None None None None (Some "ina226") None)) None None None
    (Some Demo.core_limits) None.

Definition board : IterationFour.BoardHAL :=
  IterationFour.mkBoardHAL
    (<["VLATCH" := IterationFour.mkCtrl "VLATCH" latched_conf "raw_i2c" (Some 2) ∅]>
     (<["VTYPO" := IterationFour.mkCtrl "VTYPO" mistyped_conf "raw_i2c" (Some 2) ∅]>
     (<["VREG" := IterationFour.mkCtrl "VREG" regulator_conf "sysfs_regulator" None
                    {["microvolts" := "/sys/class/regulator/regulator.3/microvolts"]}]>
     (<["SBARE" := IterationFour.mkCtrl "SBARE" fileless_conf "sysfs_monitor" None
                     {["root" := "/sys/class/hwmon/hwmon1"]}]>
      (IterationFour.rails Demo.board4)))))
    (IterationFour.workloads Demo.board4).

End Bench.

(** ** The linear16 wire format *)

Module Linear16.

(** The two bytes of the 16-bit word a bus read returns. *)
Definition bytes : list Z := seqZ 0 256.

Definition word (high low : Z) : Z := 256 * high + low.

(** [int(x)] is [raw]; the power of two of [int] is taken by a shift. *)
Definition int_is (x : float) (raw : Z) : bool :=
  match Prim2SF x with
  | S754_zero _ => raw =? 0
  | S754_finite s m e =>
      let mag := if 0 <=? e then Z.shiftl (Z.pos m) e else Z.shiftr (Z.pos m) (- e) in
      (if s then - mag else mag) =? raw
  | S754_infinity _ | S754_nan => false
  end.

(** [x] stands for exactly [raw / 4096]: its mantissa and exponent satisfy
    [m * 2 ^ e * 4096 = raw], written without a division. *)
Definition is_4096th (x : float) (raw : Z) : bool :=
  match Prim2SF x with
  | S754_zero _ => raw =? 0
  | S754_finite false m e => (e <=? 0) && (Z.pos m * 4096 =? Z.shiftl raw (- e))
  | _ => false
  end.

(** The decoded word stands for exactly [raw / 4096], and the quotient the
    fixed-scale read computes at a scale factor of 4096, scaled and truncated
    as a write with that scale factor encodes it, gives [raw] back.  [x] is
    [float(raw)], by the primitive conversion of a machine integer, and the
    product is [_decode_linear16 raw (-12)] unfolded. *)
Definition round_trips (raw : Z) : bool :=
  let x := PrimFloat.of_uint63 (Uint63.of_Z raw) in
  is_4096th (x * Py.pow2 (-12))%float raw
  && match Py.truediv x 4096%float with
     | Some v => int_is (v * 4096)%float raw
     | None => false
     end.

End Linear16.

(** ** Construction of the HAL *)

Module Construction.
Import Config IO IterationFour.

(** The parsed configuration document: the board selected, the boards by
    name, the workloads.  A JSON object whose order matters is kept as the
    list of its items. *)
Record BoardConfig : Type := mkBoardConfig {
  board_label : option string;
  board_rails : option (list (string * RailConfig))
}.

Record FullConfig : Type := mkFullConfig {
  selected_board : option string;
  boards : option (gmap string BoardConfig);
  cfg_workloads : option (gmap string WorkloadJob)
}.

(** [for r_name, r_conf in self.config['rails'].items():
       self.rails[r_name] = self._init_rail_controller(r_name, r_conf)] *)
Fixpoint init_rails (sys : system) (items : list (string * RailConfig))
    (rails : gmap string ctrl) : option (gmap string ctrl) :=
  match items with
  | [] => Some rails
  | (r_name, r_conf) :: rest =>
      c ← _init_rail_controller sys r_name r_conf;
      init_rails sys rest (<[r_name := c]> rails)
  end.

(** [BoardHAL.__init__] once the document is loaded: [None] is the
    exception construction ends with ([ValueError] for a board that is not
    selected or not listed, [KeyError] for a missing entry, or what
    [_init_rail_controller] raised). *)
Definition __init__ (sys : system) (full_config : FullConfig) : option BoardHAL :=
  board_name ← truthy (selected_board full_config);
  listed ← boards full_config;
  config ← listed !! board_name;
  let workloads := get (cfg_workloads full_config) ∅ in
  items ← board_rails config;
  rails ← init_rails sys items ∅;
  Some (mkBoardHAL rails workloads).

(** What a controller holds after construction: its own name and
    declared driver type; a bus handle only on a bus rail, for the declared
    bus, which opened; a path only under the key its driver type reads. *)
Definition well_formed (sys : system) (name : string) (c : ctrl) : Prop :=
  c_name c = name
  /\ c_type c = get (driver_type (c_conf c)) "sysfs_monitor"
  /\ (forall bus, c_bus c = Some bus ->
        (c_type c = "pmbus" \/ c_type c = "raw_i2c")
        /\ smbus_opens sys bus = true
        /\ exists conn, connection (c_conf c) = Some conn /\ bus_id conn = Some bus)
  /\ (forall k path, c_paths c !! k = Some path ->
        (k = "microvolts" /\ c_type c = "sysfs_regulator")
        \/ (k = "root" /\ c_type c = "sysfs_monitor")).

(** A document that selects a board of three rails. *)
Definition document : FullConfig :=
  mkFullConfig (Some "zcu102")
    (Some {["zcu102" :=
              mkBoardConfig (Some "ZCU102")
                (Some [("VCCINT", Demo.vccint_conf);
                       ("VREG", Bench.regulator_conf);
                       ("SENSE", Demo.monitor_conf)])]})
    (Some {["SqueezeNet" := Demo.squeezenet]}).

End Construction.

(** ** Vocabulary of the sweep's schedule *)

Module Schedule.
Import Config Flow Sweep.

(** A computation that makes no [set_voltage] call, begins no step, and
    leaves the voltage and the step counter alone. *)
Definition silent {A : Type} (c : M A) : Prop :=
  forall st,
    set_voltage_calls (trace (c st).2) = set_voltage_calls (trace st)
    /\ step_numbers (trace (c st).2) = step_numbers (trace st)
    /\ current_v (c st).2 = current_v st
    /\ step_count (c st).2 = step_count st.

(** A computation that is silent but for the end of a step: when it ends
    normally the voltage has been stepped down once and the step counted. *)
Definition steps_down {A : Type} (min_v coarse_step : float) (c : M A) : Prop :=
  forall st,
    set_voltage_calls (trace (c st).2) = set_voltage_calls (trace st)
    /\ step_numbers (trace (c st).2) = step_numbers (trace st)
    /\ (forall a, (c st).1 = Normal a ->
          current_v (c st).2 = next_voltage min_v coarse_step (current_v st)
          /\ step_count (c st).2 = step_count st + 1).

(** The events that are neither a [set_voltage] call nor a step banner. *)
Definition is_quiet (ev : event) : bool :=
  match ev with
  | SetVoltage _ _ | Print (StepBanner _ _) => false
  | _ => true
  end.

(** The [set_voltage] calls of the first [n] steps of the schedule. *)
Definition scheduled (rail : string) (nominal_v min_v coarse_step : float)
    (first n : nat) : list (string * float) :=
  map (fun k => (rail, voltage_at nominal_v min_v coarse_step k)) (seq first n).

End Schedule.

(** ** [start.py], iteration Five: the sampler thread *)

Module Sampler.
Import IO.

(** [_monitor_loop]: one iteration for each time the loop found the stop
    event unset; [ticks] holds the clock reading of each.  A sample that was
    read is stamped and appended to [self.log_data]; [None] is skipped. *)
Fixpoint _monitor_loop (hw : hardware) (hal : IterationFour.BoardHAL)
    (rail_name : string) (ticks : list float) (log_data : list Flow.row)
    (log : list io_event) : list Flow.row * list io_event :=
  match ticks with
  | [] => (log_data, log)
  | now :: later =>
      match IterationFour.read_telemetry hw hal rail_name log with
      | (Some data, log') =>
          _monitor_loop hw hal rail_name later
            (log_data ++ [Flow.mkRow data now None]) log'
      | (None, log') => _monitor_loop hw hal rail_name later log_data log'
      end
  end.

End Sampler.

(** ** [monitor.py]: the console monitor *)

Module Monitor.
Import IO.

(** What the monitor prints. *)
Inductive shown : Type :=
| Banner
| Reading (rail : string) (data : IterationFour.sample)
| Unavailable (rail : string)
| Timestamp
| Blank
| Stopped.

(** [for rail in self.hal.config['rails']: ...]: a rail that gives no data
    is passed over. *)
Fixpoint show_all (hw : hardware) (hal : IterationFour.BoardHAL)
    (configured : list string) (log : list io_event) : list shown * list io_event :=
  match configured with
  | [] => ([], log)
  | rail :: others =>
      let (data, log') := IterationFour.read_telemetry hw hal rail log in
      let (lines, log'') := show_all hw hal others log' in
      (match data with
       | Some s => Reading rail s :: lines
       | None => lines
       end, log'')
  end.

(** The [while True] loop.  [rounds] is the number of iterations before
    Ctrl-C arrives in the sleep that ends each; the result tells whether the
    loop was left by the interrupt rather than by [break]. *)
Fixpoint rounds_of (hw : hardware) (hal : IterationFour.BoardHAL)
    (configured : list string) (target_rail : option string) (rounds : nat)
    (log : list io_event) : bool * list shown * list io_event :=
  match rounds with
  | O => (true, [], log)
  | S rounds' =>
      match IterationFour.truthy target_rail with
      | Some rail =>
          match IterationFour.read_telemetry hw hal rail log with
          | (Some s, log') =>
              let '(interrupted, lines, log'') :=
                rounds_of hw hal configured target_rail rounds' log' in
              (interrupted, Reading rail s :: lines, log'')
          | (None, log') => (false, [Unavailable rail], log')
          end
      | None =>
          let (block, log') := show_all hw hal configured log in
          let '(interrupted, lines, log'') :=
            rounds_of hw hal configured target_rail rounds' log' in
          (interrupted, Timestamp :: block ++ Blank :: lines, log'')
      end
  end.

(** [monitor_loop]: [configured] holds the rail names of the board's
    configuration, in order. *)
Definition monitor_loop (hw : hardware) (hal : IterationFour.BoardHAL)
    (configured : list string) (target_rail : option string) (rounds : nat)
    (log : list io_event) : list shown * list io_event :=
  let '(interrupted, lines, log') :=
    rounds_of hw hal configured target_rail rounds log in
  (Banner :: lines ++ (if interrupted then [Stopped] else []), log').

End Monitor.

(** * Properties *)

(** ** Binary64 comparison *)

Lemma SFcompare_Lt_swap (a b : spec_float) :
  SFcompare a b = Some Lt -> SFcompare b a = Some Gt.
Proof.
  destruct a as [sa|sa| |sa ma ea], b as [sb|sb| |sb mb eb]; simpl;
    repeat match goal with s : bool |- _ => destruct s end;
    try congruence.
  all: rewrite (Z.compare_antisym ea eb); destruct (ea ?= eb); simpl; try congruence.
  all: change (Pos.compare_cont Eq mb ma) with (Pos.compare mb ma);
       change (Pos.compare_cont Eq ma mb) with (Pos.compare ma mb);
       rewrite (Pos.compare_antisym ma mb);
       destruct (ma ?= mb)%positive; simpl; congruence.
Qed.

(** [x < y] rules out [y <= x], also on infinities and NaN. *)
Lemma ltb_leb_false (x y : float) :
  (x <? y)%float = true -> (y <=? x)%float = false.
Proof.
  rewrite ltb_spec, leb_spec. unfold SFltb, SFleb.
  destruct (SFcompare (Prim2SF x) (Prim2SF y)) as [[]|] eqn:E; try discriminate.
  intros _. now rewrite (SFcompare_Lt_swap _ _ E).
Qed.

Lemma between_false_outside (lo x hi : float) :
  (x <? lo)%float = true \/ (hi <? x)%float = true ->
  Py.between lo x hi = false.
Proof.
  unfold Py.between. intros [H | H]; apply ltb_leb_false in H; rewrite H.
  - reflexivity.
  - apply andb_false_r.
Qed.

(** ** The safety envelope of [set_voltage] *)

Section Envelope.
Import Config IO.
Variable hw : hardware.

(** C1. In both iterations of the HAL, a request below the rail's minimum
    or above its maximum is refused and leaves the access log as it was: no
    read and no write reaches the hardware. *)
Theorem set_voltage_out_of_bounds (rail_name : string) (voltage_v : float)
    (log : list io_event) :
  (forall (hal : IterationFour.BoardHAL) (c : IterationFour.ctrl),
      IterationFour.rails hal !! rail_name = Some c ->
      let lim := get (limits (IterationFour.c_conf c)) no_limits in
      (voltage_v <? get (lim_min lim) 0)%float = true \/
      (get (lim_max lim) 99 <? voltage_v)%float = true ->
      IterationFour.set_voltage hw hal rail_name voltage_v log = (false, log))
  /\
  (forall (hal : IterationThree.BoardHAL) (c : IterationThree.ctrl),
      IterationThree.rails hal !! rail_name = Some c ->
      let lim := get (limits (IterationThree.c_conf c)) no_limits in
      (voltage_v <? get (lim_min lim) 0)%float = true \/
      (get (lim_max lim) 99 <? voltage_v)%float = true ->
      IterationThree.set_voltage hw hal rail_name voltage_v log = (false, log)).
Proof.
  split; intros hal c Hc lim Hout; subst lim.
  - unfold IterationFour.set_voltage. rewrite Hc.
    unfold IterationFour.within_limits. cbv zeta.
    now rewrite (between_false_outside _ _ _ Hout).
  - unfold IterationThree.set_voltage. rewrite Hc.
    destruct (get (read_only (IterationThree.c_conf c)) true); [reflexivity|].
    unfold IterationThree.within_limits. cbv zeta.
    now rewrite (between_false_outside _ _ _ Hout).
Qed.

End Envelope.

Lemma set_voltage_out_of_bounds_witness :
  IterationFour.set_voltage Demo.quiet Demo.board4 "VCCINT" 1.5%float [] = (false, [])
  /\ IterationThree.set_voltage Demo.quiet Demo.board3 "VCCINT" 0.5%float [] = (false, []).
Proof.
  split.
  - eapply (proj1 (set_voltage_out_of_bounds Demo.quiet "VCCINT" 1.5%float [])).
    + vm_compute. reflexivity.
    + right. vm_compute. reflexivity.
  - eapply (proj2 (set_voltage_out_of_bounds Demo.quiet "VCCINT" 0.5%float [])).
    + vm_compute. reflexivity.
    + left. vm_compute. reflexivity.
Defined.




(** ** Telemetry reads without a handle *)

Lemma driver_handle_other {A : Type} (c : IterationFour.ctrl) (driver : string)
    (handle : option A) :
  IterationFour.c_type c <> driver ->
  IterationFour.driver_handle c driver handle = None.
Proof.
  intros Hne. unfold IterationFour.driver_handle.
  now destruct (String.eqb_spec (IterationFour.c_type c) driver).
Qed.

(** With no handle to read through, no branch of the chain is taken. *)
Lemma read_telemetry_try_default (hw : IO.hardware) (c : IterationFour.ctrl)
    (log : list IO.io_event) :
  IterationFour.c_type c = "raw_i2c" \/ IterationFour.handle_absent c = true ->
  IterationFour.read_telemetry_try hw c log
  = (Some (IterationFour.mkSample 0 0 0), log).
Proof.
  unfold IterationFour.read_telemetry_try, IterationFour.handle_absent,
    IterationFour.driver_handle.
  intros [Hraw | Habsent].
  - rewrite Hraw. reflexivity.
  - destruct (String.eqb_spec (IterationFour.c_type c) "pmbus") as [E|_].
    { rewrite E in *. simpl in *. now destruct (IterationFour.c_bus c). }
    destruct (String.eqb_spec (IterationFour.c_type c) "raw_i2c") as [E|_].
    { rewrite E in *. reflexivity. }
    simpl in Habsent.
    destruct (String.eqb_spec (IterationFour.c_type c) "sysfs_monitor") as [E|_].
    { rewrite E in *. simpl.
      now destruct (IterationFour.c_paths c !! "root"). }
    destruct (String.eqb_spec (IterationFour.c_type c) "sysfs_regulator") as [E|_].
    { now destruct (IterationFour.c_paths c !! "microvolts"). }
    reflexivity.
Qed.

(** C4, as the code has it.  On a [raw_i2c] rail, and on a rail whose handle
    is absent, [read_telemetry] touches no hardware and returns a sample whose
    voltage, current and power are all [0.0].  It returns [None] only for a
    rail it does not know or, on a rail of another driver type whose handle
    is present, when its [try] block raises; a missing configuration entry
    suffices: a monitor rail with a resolved root and no [files] entry gives
    [None] before anything is read. *)
Theorem read_telemetry_without_handle (hw : IO.hardware)
    (hal : IterationFour.BoardHAL) (rail_name : string) (log : list IO.io_event) :
  (forall c : IterationFour.ctrl,
     IterationFour.rails hal !! rail_name = Some c ->
     IterationFour.c_type c = "raw_i2c" \/ IterationFour.handle_absent c = true ->
     IterationFour.read_telemetry hw hal rail_name log
     = (Some (IterationFour.mkSample 0 0 0), log))
  /\ (forall log' : list IO.io_event,
        IterationFour.read_telemetry hw hal rail_name log = (None, log') ->
        IterationFour.rails hal !! rail_name = None
        \/ exists c : IterationFour.ctrl,
             IterationFour.rails hal !! rail_name = Some c
             /\ IterationFour.c_type c <> "raw_i2c"
             /\ IterationFour.handle_absent c = false
             /\ IterationFour.read_telemetry_try hw c log = (None, log'))
  /\ (forall (c : IterationFour.ctrl) (root : string),
        IterationFour.rails hal !! rail_name = Some c ->
        IterationFour.c_type c = "sysfs_monitor" ->
        IterationFour.c_paths c !! "root" = Some root ->
        Config.files (IterationFour.c_conf c) = None ->
        IterationFour.read_telemetry hw hal rail_name log = (None, log)).
Proof.
  split; [|split].
  - intros c Hc Hno. unfold IterationFour.read_telemetry. rewrite Hc.
    unfold IO.try_except, IO.bind.
    now rewrite (read_telemetry_try_default hw c log Hno).
  - intros log'. unfold IterationFour.read_telemetry.
    destruct (IterationFour.rails hal !! rail_name) as [c|]; [|now left].
    unfold IO.try_except, IO.bind, IO.ret.
    destruct (IterationFour.read_telemetry_try hw c log) as [[s|] log1] eqn:Htry;
      [discriminate|].
    intros [= <-]. right. exists c. split; [reflexivity|].
    split; [|split; [|exact Htry]].
    + intros Hraw.
      rewrite (read_telemetry_try_default hw c log (or_introl Hraw)) in Htry.
      discriminate.
    + destruct (IterationFour.handle_absent c) eqn:Habsent; [|reflexivity].
      rewrite (read_telemetry_try_default hw c log (or_intror Habsent)) in Htry.
      discriminate.
  - intros c root Hc Htype Hroot Hfiles.
    unfold IterationFour.read_telemetry. rewrite Hc.
    unfold IO.try_except, IO.bind, IterationFour.read_telemetry_try,
      IterationFour.driver_handle, IterationFour.read_sysfs_monitor, IO.lift.
    rewrite Htype, Hroot, Hfiles. reflexivity.
Qed.

Lemma read_telemetry_without_handle_witness :
  IterationFour.read_telemetry Demo.quiet Demo.board4 "VCORE" []
  = (Some (IterationFour.mkSample 0 0 0), [])
  /\ IterationFour.read_telemetry Demo.quiet Demo.board4 "VCCAUX" []
     = (Some (IterationFour.mkSample 0 0 0), [])
  /\ IterationFour.read_telemetry Demo.quiet Bench.board "SBARE" [] = (None, []).
Proof.
  split; [|split].
  - eapply (proj1 (read_telemetry_without_handle Demo.quiet Demo.board4 "VCORE" [])).
    + vm_compute. reflexivity.
    + left. reflexivity.
  - eapply (proj1 (read_telemetry_without_handle Demo.quiet Demo.board4 "VCCAUX" [])).
    + vm_compute. reflexivity.
    + right. reflexivity.
  - eapply (proj2 (proj2 (read_telemetry_without_handle Demo.quiet Bench.board
                             "SBARE" []))).
    + vm_compute. reflexivity.
    + reflexivity.
    + reflexivity.
    + reflexivity.
Defined.

(** Construction on a system where no bus opens and nothing is found leaves
    every controller it returns without a handle. *)
Lemma nothing_found_absent (sys : IO.system) (name : string)
    (conf : Config.RailConfig) (c : IterationFour.ctrl) :
  (forall bus, IO.smbus_opens sys bus = false) ->
  (forall target, IO.regulator_by_name sys target = None) ->
  (forall path, IO.path_exists sys path = false) ->
  (forall root driver, IO.hwmon_matching sys root driver = None) ->
  IterationFour._init_rail_controller sys name conf = Some c ->
  IterationFour.handle_absent c = true.
Proof.
  intros Hbus Hreg Hpath Hmon. unfold IterationFour._init_rail_controller.
  set (type := Config.get (Config.driver_type conf) "sysfs_monitor").
  unfold IterationFour.handle_absent.
  destruct (String.eqb type "pmbus" || String.eqb type "raw_i2c") eqn:Ebus.
  { destruct (Config.connection conf) as [conn|]; [simpl|discriminate].
    destruct (Config.bus_id conn) as [bus|]; [simpl|discriminate].
    rewrite Hbus. intros [= <-]. simpl. fold type. now rewrite Ebus. }
  destruct (String.eqb type "sysfs_regulator") eqn:Ereg.
  { destruct (Config.connection conf) as [conn|]; [simpl|discriminate].
    destruct (IterationFour.truthy (Config.regulator_name conn)) as [target|].
    - rewrite Hreg. intros [= <-]. simpl. fold type.
      rewrite Ebus, Ereg. now destruct (String.eqb type "sysfs_monitor").
    - destruct (IterationFour.truthy (Config.sysfs_path conn)) as [path|];
        rewrite ?Hpath; intros [= <-]; simpl; fold type;
        rewrite Ebus, Ereg; now destruct (String.eqb type "sysfs_monitor"). }
  destruct (String.eqb type "sysfs_monitor") eqn:Emon.
  { destruct (Config.connection conf) as [conn|]; [simpl|discriminate].
    destruct (Config.driver_match conn) as [driver|]; rewrite ?Hmon;
      intros [= <-]; simpl; fold type; now rewrite Ebus, Emon. }
  intros [= <-]. simpl. fold type. now rewrite Ebus, Emon, Ereg.
Qed.

(** With no handle to write through, the chain of [set_voltage] falls
    through to the final [return False]. *)
Lemma set_voltage_try_no_handle (hw : IO.hardware) (c : IterationFour.ctrl)
    (voltage_v : float) (log : list IO.io_event) :
  IterationFour.handle_absent c = true ->
  IterationFour.set_voltage_try hw c voltage_v log = (Some false, log).
Proof.
  unfold IterationFour.set_voltage_try, IterationFour.handle_absent,
    IterationFour.driver_handle.
  intros Habsent.
  destruct (String.eqb_spec (IterationFour.c_type c) "pmbus") as [E|_].
  { rewrite E in *. simpl in *. now destruct (IterationFour.c_bus c). }
  destruct (String.eqb_spec (IterationFour.c_type c) "raw_i2c") as [E|_].
  { rewrite E in *. simpl in *. now destruct (IterationFour.c_bus c). }
  simpl in Habsent.
  destruct (String.eqb_spec (IterationFour.c_type c) "sysfs_monitor") as [E|_].
  { rewrite E in *. reflexivity. }
  destruct (String.eqb_spec (IterationFour.c_type c) "sysfs_regulator") as [E|_].
  { now destruct (IterationFour.c_paths c !! "microvolts"). }
  reflexivity.
Qed.

(** X13. On a system where no bus opens and nothing is found, every
    controller [_init_rail_controller] returns has no handle, and a HAL that
    holds it answers without touching the hardware: [read_telemetry] with the
    sample of zeros, [set_voltage] with [False], whatever the voltage. *)
Theorem init_rail_controller_nothing_found (sys : IO.system) (name : string)
    (conf : Config.RailConfig) (c : IterationFour.ctrl) :
  (forall bus, IO.smbus_opens sys bus = false) ->
  (forall target, IO.regulator_by_name sys target = None) ->
  (forall path, IO.path_exists sys path = false) ->
  (forall root driver, IO.hwmon_matching sys root driver = None) ->
  IterationFour._init_rail_controller sys name conf = Some c ->
  IterationFour.handle_absent c = true
  /\ forall (hw : IO.hardware) (hal : IterationFour.BoardHAL) (rail_name : string)
            (log : list IO.io_event),
       IterationFour.rails hal !! rail_name = Some c ->
       IterationFour.read_telemetry hw hal rail_name log
       = (Some (IterationFour.mkSample 0 0 0), log)
       /\ forall voltage_v : float,
            IterationFour.set_voltage hw hal rail_name voltage_v log = (false, log).
Proof.
  intros Hbus Hreg Hpath Hmon Hinit.
  assert (Habsent : IterationFour.handle_absent c = true)
    by (eapply nothing_found_absent; eassumption).
  split; [exact Habsent|].
  intros hw hal rail_name log Hc. split.
  - unfold IterationFour.read_telemetry. rewrite Hc.
    unfold IO.try_except, IO.bind.
    now rewrite (read_telemetry_try_default hw c log (or_intror Habsent)).
  - intros voltage_v. unfold IterationFour.set_voltage. rewrite Hc.
    destruct (negb _); [reflexivity|].
    unfold IO.try_except.
    now rewrite (set_voltage_try_no_handle hw c voltage_v log Habsent).
Qed.

Lemma init_rail_controller_nothing_found_witness :
  IterationFour.handle_absent
    (IterationFour.mkCtrl "VCCINT" Demo.vccint_conf "pmbus" None ∅) = true
  /\ IterationFour.read_telemetry Demo.quiet Demo.board4 "VCCAUX" []
     = (Some (IterationFour.mkSample 0 0 0), [])
  /\ IterationFour.set_voltage Demo.quiet Demo.board4 "VCCAUX" 0.85%float [] = (false, []).
Proof.
  pose proof (init_rail_controller_nothing_found Bench.bare "VCCAUX" Demo.vccint_conf
                (IterationFour.mkCtrl "VCCAUX" Demo.vccint_conf "pmbus" None ∅)
                (fun _ => eq_refl) (fun _ => eq_refl) (fun _ => eq_refl)
                (fun _ _ => eq_refl) eq_refl) as [Habsent Hrail].
  split; [exact Habsent|].
  destruct (Hrail Demo.quiet Demo.board4 "VCCAUX" [] eq_refl) as [Hread Hset].
  split; [exact Hread | apply Hset].
Defined.

(** C4 as stated fails: the [raw_i2c] rail [VCORE] and the rail [VCCAUX],
    whose bus is not open, both get a sample, not [None]. *)
Lemma read_telemetry_absent_counterexample :
  (exists c, IterationFour.rails Demo.board4 !! "VCORE" = Some c
             /\ IterationFour.c_type c = "raw_i2c"
             /\ fst (IterationFour.read_telemetry Demo.quiet Demo.board4 "VCORE" [])
                <> None)
  /\ (exists c, IterationFour.rails Demo.board4 !! "VCCAUX" = Some c
                /\ IterationFour.c_bus c = None
                /\ fst (IterationFour.read_telemetry Demo.quiet Demo.board4 "VCCAUX" [])
                   <> None).
Proof.
  split; eexists; (split; [vm_compute; reflexivity|]);
    (split; [reflexivity|]); vm_compute; discriminate.
Qed.

(** ** PMBus writes *)

(** C5, as the code has it.  An in-bounds request on a [pmbus] rail with an
    open bus, whose format declares the fixed-scale voltage mode and a scale
    factor, writes [int(v * scale)], the product truncated toward zero, as
    one word to the [set_voltage] register and succeeds when the bus accepts
    the write. *)
Theorem set_voltage_pmbus_fixed_scale (hw : IO.hardware)
    (hal : IterationFour.BoardHAL) (rail_name : string)
    (c : IterationFour.ctrl) (bus addr cmd raw_val : Z)
    (conn : Config.Connection) (cmds : Config.Commands) (fmt : Config.Format)
    (scale voltage_v : float) (log : list IO.io_event) :
  IterationFour.rails hal !! rail_name = Some c ->
  IterationFour.c_type c = "pmbus" ->
  IterationFour.c_bus c = Some bus ->
  IterationFour.within_limits (IterationFour.c_conf c) voltage_v = true ->
  Config.connection (IterationFour.c_conf c) = Some conn ->
  Config.address conn = Some (Config.hex addr) ->
  Config.commands (IterationFour.c_conf c) = Some cmds ->
  Config.cmd_set_voltage cmds = Some (Config.hex cmd) ->
  Config.format (IterationFour.c_conf c) = Some fmt ->
  Config.voltage_mode fmt = Some "linear16_fixed" ->
  Config.scale_factor fmt = Some scale ->
  Py.int (voltage_v * scale)%float = Some raw_val ->
  IO.hw_write hw log (IO.write_word_data bus addr cmd raw_val) = true ->
  IterationFour.set_voltage hw hal rail_name voltage_v log
  = (true, log ++ [IO.write_word_data bus addr cmd raw_val]).
Proof.
  intros Hc Htype Hbus Hin Hconn Haddr Hcmds Hcmd Hfmt Hmode Hscale Hint Hok.
  unfold IterationFour.set_voltage. rewrite Hc, Hin. simpl.
  unfold IO.try_except, IterationFour.set_voltage_try,
    IterationFour.driver_handle.
  rewrite Htype, Hbus. simpl.
  unfold IterationFour.write_pmbus, IterationFour.pmbus_raw_val, IO.bind,
    IO.lift, IO.ret, IO.write, IterationFour.int16.
  rewrite Hconn, Haddr, Hcmds, Hcmd, Hfmt, Hmode, Hscale. simpl.
  now rewrite Hint, Hok.
Qed.

Lemma set_voltage_pmbus_fixed_scale_witness :
  IterationFour.set_voltage Demo.quiet Demo.board4 "VCCINT" 0.85%float []
  = (true, [] ++ [IO.write_word_data 4 0x13 0x21 3481]).
Proof.
  eapply (set_voltage_pmbus_fixed_scale Demo.quiet Demo.board4 "VCCINT"
            (IterationFour.mkCtrl "VCCINT" Demo.vccint_conf "pmbus" (Some 4) ∅)
            4 0x13 0x21 3481 (Config.mkConnection (Some 4) (Some (Config.hex 0x13)) None None None None)
            Demo.pmbus_commands Demo.fixed_format 4096%float 0.85%float []);
    vm_compute; reflexivity.
Defined.

(** C5 as stated fails: at 0.85 V and scale 4096 the word written is 3481,
    while [round(0.85 * 4096)] is 3482. *)
Lemma set_voltage_round_counterexample :
  IterationFour.set_voltage Demo.quiet Demo.board4 "VCCINT" 0.85%float []
  = (true, [IO.write_word_data 4 0x13 0x21 3481])
  /\ Py.round (0.85 * 4096)%float = Some 3482.
Proof. split; vm_compute; reflexivity. Qed.

(** X5. Under the generic scaled mode the write branch reads [scale] before
    any assignment to it: whatever the voltage and the hardware, the request
    on such a PMBus rail fails and nothing is written. *)
Lemma set_voltage_generic_mode_fails (hw : IO.hardware)
    (hal : IterationFour.BoardHAL) (rail_name : string)
    (c : IterationFour.ctrl) (bus : Z) (fmt : Config.Format)
    (voltage_v : float) (log : list IO.io_event) :
  IterationFour.rails hal !! rail_name = Some c ->
  IterationFour.c_type c = "pmbus" ->
  IterationFour.c_bus c = Some bus ->
  Config.format (IterationFour.c_conf c) = Some fmt ->
  Config.voltage_mode fmt <> Some "linear16_fixed" ->
  IterationFour.set_voltage hw hal rail_name voltage_v log = (false, log).
Proof.
  intros Hc Htype Hbus Hfmt Hmode.
  unfold IterationFour.set_voltage. rewrite Hc.
  destruct (IterationFour.within_limits _ _); [simpl|reflexivity].
  unfold IO.try_except, IterationFour.set_voltage_try,
    IterationFour.driver_handle.
  rewrite Htype, Hbus. simpl.
  unfold IterationFour.write_pmbus, IterationFour.pmbus_raw_val, IO.bind,
    IO.lift, IO.ret, IO.raise, IterationFour.int16.
  rewrite Hfmt. rewrite bool_decide_eq_false_2 by exact Hmode.
  destruct (Config.connection _) as [conn|]; [|reflexivity].
  destruct (Config.address conn) as [[addr|]|]; try reflexivity.
  destruct (Config.commands _) as [cmds|]; [|reflexivity].
  destruct (Config.cmd_set_voltage cmds) as [[cmd|]|]; reflexivity.
Qed.

Lemma set_voltage_generic_mode_fails_witness :
  IterationFour.set_voltage Demo.quiet Demo.board4 "VGEN" 0.85%float [] = (false, []).
Proof.
  apply (set_voltage_generic_mode_fails Demo.quiet Demo.board4 "VGEN"
           (IterationFour.mkCtrl "VGEN" Demo.generic_conf "pmbus" (Some 4) ∅)
           4 Demo.generic_format 0.85%float []);
    try reflexivity.
  discriminate.
Defined.

(** The raw I2C path on the board [VCORE] (base 0.60 V, step 0.005 V):
    0.65 V is staged as code 10, and a voltage below the base as code 0. *)
Lemma vid_write_examples :
  IterationFour.set_voltage Demo.quiet Demo.board4 "VCORE" 0.65%float []
  = (true, [IO.write_byte_data 2 0x40 0x00 10])
  /\ IterationFour.set_voltage Demo.quiet Demo.board4 "VCORE" 0.55%float []
     = (true, [IO.write_byte_data 2 0x40 0x00 0]).
Proof. split; vm_compute; reflexivity. Qed.

(** ** Refused writes *)

(** C6, as the code has it.  Iteration Three refuses, without any I/O, every
    rail flagged read-only and every rail that carries no flag (the flag
    defaults to read-only); iteration Four does not read the flag.  Both
    iterations refuse, without any I/O, every request on a rail whose driver
    type is none of [pmbus], [raw_i2c] and [sysfs_regulator]. *)
Theorem set_voltage_refused (hw : IO.hardware) (rail_name : string)
    (voltage_v : float) (log : list IO.io_event) :
  (forall (hal : IterationThree.BoardHAL) (c : IterationThree.ctrl),
      IterationThree.rails hal !! rail_name = Some c ->
      Config.read_only (IterationThree.c_conf c) <> Some false ->
      IterationThree.set_voltage hw hal rail_name voltage_v log = (false, log))
  /\
  (forall (hal : IterationThree.BoardHAL) (c : IterationThree.ctrl),
      IterationThree.rails hal !! rail_name = Some c ->
      IterationThree.c_type c <> "pmbus" ->
      IterationThree.c_type c <> "raw_i2c" ->
      IterationThree.c_type c <> "sysfs_regulator" ->
      IterationThree.set_voltage hw hal rail_name voltage_v log = (false, log))
  /\
  (forall (hal : IterationFour.BoardHAL) (c : IterationFour.ctrl),
      IterationFour.rails hal !! rail_name = Some c ->
      IterationFour.c_type c <> "pmbus" ->
      IterationFour.c_type c <> "raw_i2c" ->
      IterationFour.c_type c <> "sysfs_regulator" ->
      IterationFour.set_voltage hw hal rail_name voltage_v log = (false, log)).
Proof.
  split; [|split].
  - intros hal c Hc Hro. unfold IterationThree.set_voltage. rewrite Hc.
    destruct (Config.read_only _) as [[|]|]; try reflexivity. congruence.
  - intros hal c Hc Hp Hr Hs. unfold IterationThree.set_voltage. rewrite Hc.
    destruct (Config.get _ true); [reflexivity|].
    destruct (negb _); [reflexivity|].
    unfold IO.try_except, IterationThree.set_voltage_try.
    destruct (String.eqb_spec (IterationThree.c_type c) "pmbus"); [done|].
    destruct (String.eqb_spec (IterationThree.c_type c) "raw_i2c"); [done|].
    destruct (String.eqb_spec (IterationThree.c_type c) "sysfs_regulator"); [done|].
    reflexivity.
  - intros hal c Hc Hp Hr Hs. unfold IterationFour.set_voltage. rewrite Hc.
    destruct (negb _); [reflexivity|].
    unfold IO.try_except, IterationFour.set_voltage_try.
    now rewrite !driver_handle_other.
Qed.

Lemma set_voltage_refused_witness :
  IterationThree.set_voltage Demo.quiet Demo.board3 "LOCKED" 0.85%float [] = (false, [])
  /\ IterationThree.set_voltage Demo.quiet Demo.board3 "SENSE" 0.85%float [] = (false, [])
  /\ IterationFour.set_voltage Demo.quiet Demo.board4 "SENSE" 0.85%float [] = (false, []).
Proof.
  pose proof (set_voltage_refused Demo.quiet "LOCKED" 0.85%float []) as (Hlocked & _ & _).
  pose proof (set_voltage_refused Demo.quiet "SENSE" 0.85%float []) as (_ & Hthree & Hfour).
  split; [|split].
  - eapply Hlocked; [vm_compute; reflexivity | discriminate].
  - eapply Hthree; [vm_compute; reflexivity | discriminate ..].
  - eapply Hfour; [vm_compute; reflexivity | discriminate ..].
Defined.

(** C6 as stated fails on iteration Four: the rail [LOCKED] is flagged
    read-only, and the in-bounds request is written to the bus and succeeds. *)
Lemma set_voltage_read_only_counterexample :
  (exists c, IterationFour.rails Demo.board4 !! "LOCKED" = Some c
             /\ Config.read_only (IterationFour.c_conf c) = Some true)
  /\ IterationFour.set_voltage Demo.quiet Demo.board4 "LOCKED" 0.85%float []
     = (true, [IO.write_word_data 4 0x13 0x21 3481]).
Proof.
  split; [eexists; split|]; vm_compute; reflexivity.
Qed.

(** ** The linear11 decoder *)

Lemma linear11_all_pairs :
  forallb (fun e => forallb (Linear11.decodes_exactly e) Linear11.mantissas)
    Linear11.exponents = true.
Proof. vm_compute. reflexivity. Qed.

(** C9. For every exponent in [-16, 15] and mantissa in [-1024, 1023],
    [_decode_linear11] applied to the packed word returns the binary64 that
    stands for exactly [mantissa * 2 ^ exponent]. *)
Theorem decode_linear11_inverts_pack (exponent mantissa : Z) :
  -16 <= exponent <= 15 ->
  -1024 <= mantissa <= 1023 ->
  exists q : Q,
    Py.value (IterationFour._decode_linear11 (Linear11.pack exponent mantissa))
    = Some q
    /\ (q == inject_Z mantissa * 2 ^ exponent)%Q.
Proof.
  intros He Hm.
  pose proof linear11_all_pairs as Hall.
  rewrite forallb_forall in Hall.
  assert (Hine : In exponent Linear11.exponents).
  { apply list_elem_of_In, elem_of_seqZ. lia. }
  specialize (Hall _ Hine). rewrite forallb_forall in Hall.
  assert (Hinm : In mantissa Linear11.mantissas).
  { apply list_elem_of_In, elem_of_seqZ. lia. }
  specialize (Hall _ Hinm). unfold Linear11.decodes_exactly in Hall.
  destruct (Py.value _) as [q|]; [|discriminate].
  exists q. split; [reflexivity|]. now apply Qeq_bool_iff.
Qed.

Lemma decode_linear11_inverts_pack_witness :
  exists q : Q,
    Py.value (IterationFour._decode_linear11 (Linear11.pack (-3) (-517))) = Some q
    /\ (q == inject_Z (-517) * 2 ^ (-3))%Q.
Proof.
  apply (decode_linear11_inverts_pack (-3) (-517)); lia.
Defined.

(** ** The sweep: step counting and termination *)

Section SweepTermination.
Import Config Flow Sweep.
#[local] Open Scope sweep_scope.

Lemma steady_ret {A : Type} (a : A) : steady (ret a).
Proof. intros st. now split. Qed.

Lemma steady_raise {A : Type} (e : exn) : steady (@raise A e).
Proof. intros st. now split. Qed.

Lemma steady_break {A : Type} : steady (@break A).
Proof. intros st. now split. Qed.

Lemma steady_return {A : Type} : steady (@return_ A).
Proof. intros st. now split. Qed.

Lemma steady_get_locals : steady get_locals.
Proof. intros st. now split. Qed.

Lemma steady_emit (ev : event) : steady (emit ev).
Proof. intros st. now split. Qed.

Lemma steady_set_current_v (v : float) : steady (set_current_v v).
Proof. intros st. now split. Qed.

Lemma steady_set_accuracy_found (a : float) : steady (set_accuracy_found a).
Proof. intros st. now split. Qed.

Lemma steady_set_status (s : string) : steady (set_status s).
Proof. intros st. now split. Qed.

Lemma steady_set_duration (d : float) : steady (set_duration d).
Proof. intros st. now split. Qed.

Lemma steady_set_log_data (l : list row) : steady (set_log_data l).
Proof. intros st. now split. Qed.

Lemma steady_key {A : Type} (name : string) (field : option A) :
  steady (key name field).
Proof. destruct field; intros st; now split. Qed.

Lemma steady_local {A : Type} (name : string) (var : locals -> option A) :
  steady (local name var).
Proof. intros st. unfold local. destruct (var st); now split. Qed.

Lemma steady_bind {A B : Type} (c : M A) (k : A -> M B) :
  steady c -> (forall a, steady (k a)) -> steady (bind c k).
Proof.
  intros Hc Hk st. unfold bind. destruct (Hc st) as [Hc1 Hc2].
  destruct (c st) as [[a| | |e|] st1]; simpl in *;
    try (split; [assumption | discriminate]).
  - destruct (Hk a st1) as [H1 H2]. split; [congruence | exact H2].
  - contradiction.
Qed.

Lemma steady_try_except {A : Type} (body : M A) (caught : exn -> bool)
    (handler : M A) :
  steady body -> steady handler -> steady (try_except body caught handler).
Proof.
  intros Hb Hh st. unfold try_except. destruct (Hb st) as [Hb1 Hb2].
  destruct (body st) as [[a| | |e|] st1]; simpl in *; try (split; assumption).
  destruct (caught e); simpl; [|split; assumption].
  destruct (Hh st1) as [H1 H2]. split; [congruence | exact H2].
Qed.

Lemma steady_try_finally {A : Type} (body : M A) (final : M unit) :
  steady body -> steady final -> steady (try_finally body final).
Proof.
  intros Hb Hf st. unfold try_finally. destruct (Hb st) as [Hb1 Hb2].
  destruct (body st) as [[a| | |e|] st1]; simpl in *; try contradiction.
  all: destruct (Hf st1) as [H1 H2];
    destruct (final st1) as [[[]| | |e'|] st2]; simpl in *;
    (split; [congruence | try discriminate; try contradiction]).
Qed.

Lemma advances_bind {A B : Type} (c : M A) (k : A -> M B) :
  steady c -> (forall a, advances (k a)) -> advances (bind c k).
Proof.
  intros Hc Hk st. unfold bind. destruct (Hc st) as [Hc1 Hc2].
  destruct (c st) as [[a| | |e|] st1]; simpl in *;
    try (split; [discriminate | intros ? ?; discriminate]).
  - destruct (Hk a st1) as [H1 H2]. rewrite <- Hc1.
    split; [exact H1 | exact H2].
  - now destruct Hc2.
Qed.

Lemma advances_abrupt {A : Type} (c : M A) :
  steady c -> (forall st a, (c st).1 <> Normal a) -> advances c.
Proof.
  intros Hc Hab st. split; [apply Hc|]. intros a Ha. now apply Hab in Ha.
Qed.

End SweepTermination.

Create HintDb steady discriminated.
#[local] Hint Resolve steady_ret steady_raise steady_break steady_get_locals
  steady_emit steady_set_current_v steady_set_accuracy_found steady_set_status
  steady_set_duration steady_set_log_data steady_key steady_local
  steady_return : steady.

Ltac steady_cases :=
  repeat first
    [ progress auto with steady
    | apply steady_bind; [|intros ?]
    | apply steady_try_except
    | apply steady_try_finally
    | match goal with
      | |- Sweep.steady (if ?b then _ else _) => destruct b
      | |- Sweep.steady (match ?x with _ => _ end) => destruct x
      end ].

Section SweepLoop.
Import Config Flow Sweep.
#[local] Open Scope sweep_scope.

Lemma steady_hal_set_voltage (sw : step_world) (rail : string) (v : float) :
  steady (hal_set_voltage sw rail v).
Proof. unfold hal_set_voltage. steady_cases. Qed.

Lemma steady_settle (sw : step_world) : steady (settle sw).
Proof. unfold settle. steady_cases. Qed.

Lemma steady_run_model (job : WorkloadJob) (full_cmd : string) (sw : step_world) :
  steady (run_model job full_cmd sw).
Proof. unfold run_model. steady_cases. Qed.

Lemma steady_persist (workload_name : string) (sw : step_world) :
  steady (persist workload_name sw).
Proof.
  unfold persist, _save_csv, update_master_summary. steady_cases.
Qed.

(** The end of an iteration counts the step, and ends normally only while the
    count has not passed the cap. *)
Lemma advances_step_down (min_v coarse_step : float) :
  advances (step_down min_v coarse_step).
Proof.
  intros st. unfold step_down, bind, get_locals, emit, set_current_v,
    set_step_count, break, ret. simpl.
  destruct (current_v st <=? fine_threshold min_v)%float; simpl;
    destruct (Z.ltb_spec 500 (step_count st + 1)); simpl;
    (split; [discriminate|]); intros a Ha; try discriminate; lia.
Qed.

Lemma advances_loop_body (w : world) (job : WorkloadJob)
    (workload_name rail full_cmd : string) (min_v coarse_step : float) :
  advances (loop_body w job workload_name rail full_cmd min_v coarse_step).
Proof.
  unfold loop_body.
  apply advances_bind; [auto with steady|]. intros st0.
  apply advances_bind; [auto with steady|]. intros _.
  apply advances_bind; [auto with steady|]. intros _.
  apply advances_bind; [apply steady_hal_set_voltage|]. intros ok.
  destruct ok; simpl.
  - apply advances_bind; [apply steady_settle|]. intros _.
    apply advances_bind; [auto with steady|]. intros _.
    apply advances_bind; [|intros _; apply advances_step_down].
    apply steady_try_finally; [|apply steady_persist].
    apply steady_try_except; [apply steady_run_model|]. steady_cases.
  - apply advances_abrupt; [steady_cases|]. intros st a. discriminate.
Qed.

(** A loop whose body counts its steps completes on the fuel the cap leaves
    room for, and it ends as a statement does: it never hands a [break] on. *)
Lemma while_completes (cond : locals -> bool) (body : M unit) :
  advances body ->
  forall (fuel : nat) (st : locals),
    step_count st <= 500 ->
    (fuel_for (step_count st) <= fuel)%nat ->
    (while fuel cond body st).1 <> OutOfFuel
    /\ (while fuel cond body st).1 <> Break.
Proof.
  intros Hbody fuel. unfold fuel_for.
  induction fuel as [|fuel IH]; intros st Hcap Hfuel.
  - lia.
  - simpl. destruct (cond st); [|split; discriminate].
    destruct (Hbody st) as [Hfin Hnormal].
    destruct (body st) as [[[]| | |e|] st1]; simpl in *;
      try (split; discriminate).
    + destruct (Hnormal tt eq_refl) as [Hnext Hle]. apply IH; lia.
    + now destruct Hfin.
Qed.

(** The loop of [run_workload_sweep] completes: it ends normally (the
    condition failed, or a [break] left it), by [return], or by raising. *)
Lemma sweep_loop_completes (w : world) (job : WorkloadJob)
    (workload_name rail full_cmd : string)
    (nominal_v min_v coarse_step : float) (st : locals) :
  (sweep_loop w job workload_name rail full_cmd nominal_v min_v coarse_step st).1
    <> OutOfFuel
  /\ (sweep_loop w job workload_name rail full_cmd nominal_v min_v coarse_step st).1
    <> Break.
Proof.
  unfold sweep_loop, bind, set_current_v, set_step_count. cbv beta iota.
  apply while_completes.
  - apply advances_loop_body.
  - cbn [step_count]. lia.
  - cbn [step_count]. reflexivity.
Qed.

End SweepLoop.

(** ** The reset after the loop *)

Section SweepReset.
Import Config Flow Sweep.

(** C2. However the step loop ends - its condition fails, a [break] leaves
    it after a failed voltage write or at the safety cap, Ctrl-C or any other
    exception escapes it - the sweep goes on to call [set_voltage] once, with
    the nominal voltage, and makes no other call after the loop.  The loop
    itself always ends. *)
Theorem reset_after_every_exit (w : world) (job : WorkloadJob)
    (workload_name rail full_cmd : string)
    (nominal_v min_v coarse_step : float) (st : locals) :
  let loop :=
    sweep_loop w job workload_name rail full_cmd nominal_v min_v coarse_step st in
  let sweep :=
    guarded_sweep w job workload_name rail full_cmd nominal_v min_v coarse_step st in
  loop.1 <> OutOfFuel
  /\ sweep.1 = match loop.1 with
               | Raise KeyboardInterrupt => Normal tt
               | c => c
               end
  /\ exists after : list event,
       trace sweep.2 = trace loop.2 ++ after
       /\ set_voltage_calls after = [(rail, nominal_v)]
       /\ last after = Some (SetVoltage rail nominal_v).
Proof.
  intros loop sweep.
  destruct (sweep_loop_completes w job workload_name rail full_cmd
              nominal_v min_v coarse_step st) as [Hfuel Hbreak].
  fold loop in Hfuel, Hbreak. split; [exact Hfuel|].
  subst sweep. unfold guarded_sweep, try_finally, try_except. fold loop.
  destruct loop as [[[]| | |[]|] st1]; simpl in *;
    try (now destruct Hfuel); try (now destruct Hbreak);
    (split; [reflexivity|]);
    eexists; (split; [rewrite <- ?app_assoc; reflexivity|]);
    split; reflexivity.
Qed.

Lemma steady_completes {A : Type} (c : M A) : steady c -> completes c.
Proof. intros Hc st. apply Hc. Qed.

Lemma completes_bind {A B : Type} (c : M A) (k : A -> M B) :
  completes c -> (forall a, completes (k a)) -> completes (bind c k).
Proof.
  intros Hc Hk st. unfold bind. specialize (Hc st).
  destruct (c st) as [[a| | |e|] st1]; simpl in *; try discriminate.
  - apply Hk.
  - now destruct Hc.
Qed.

Lemma completes_guarded_sweep (w : world) (job : WorkloadJob)
    (workload_name rail full_cmd : string)
    (nominal_v min_v coarse_step : float) :
  completes
    (guarded_sweep w job workload_name rail full_cmd nominal_v min_v coarse_step).
Proof.
  intros st.
  destruct (sweep_loop_completes w job workload_name rail full_cmd
              nominal_v min_v coarse_step st) as [Hfuel _].
  unfold guarded_sweep, try_finally, try_except.
  destruct (sweep_loop _ _ _ _ _ _ _ _ st) as [[[]| | |[]|] st1];
    simpl in *; try discriminate.
  now destruct Hfuel.
Qed.

(** Every call of [run_workload_sweep] ends: it returns, or it raises. *)
Lemma run_workload_sweep_completes (hal : IterationFour.BoardHAL) (w : world)
    (workload_name : string) (steps : Z) (step_size_v : float) :
  completes (run_workload_sweep hal w workload_name steps step_size_v).
Proof.
  unfold run_workload_sweep, nominal_of, warm_up.
  destruct (IterationFour.workloads hal !! workload_name) as [job|];
    [|apply steady_completes; steady_cases].
  repeat first
    [ apply completes_guarded_sweep
    | apply completes_bind; [apply steady_completes; steady_cases | intros ?] ].
Qed.

End SweepReset.

(** The four ways a sweep of [SqueezeNet] ends, run on the model: the HAL
    refuses the voltage of step 48, the first below the minimum; the write of
    step 2 fails; Ctrl-C arrives during step 1; with a step size of zero the
    cap stops the loop after step 500.  Each ends with the call that restores
    0.85 V. *)
Lemma reset_on_each_path :
  let calls := fun r : Flow.completion unit * Flow.locals =>
                 Sweep.set_voltage_calls (Flow.trace r.2) in
  (length (calls (Demo.sweep_of Demo.calm 0.01)) = 50%nat
   /\ last (calls (Demo.sweep_of Demo.calm 0.01)) = Some ("VCCINT", 0.85%float))
  /\ (length (calls (Demo.sweep_of (Demo.write_fails_at 2) 0.01)) = 4%nat
      /\ last (calls (Demo.sweep_of (Demo.write_fails_at 2) 0.01))
         = Some ("VCCINT", 0.85%float))
  /\ (length (calls (Demo.sweep_of (Demo.interrupted_at 1) 0.01)) = 3%nat
      /\ last (calls (Demo.sweep_of (Demo.interrupted_at 1) 0.01))
         = Some ("VCCINT", 0.85%float))
  /\ (length (calls (Demo.sweep_of Demo.calm 0)) = 502%nat
      /\ last (calls (Demo.sweep_of Demo.calm 0)) = Some ("VCCINT", 0.85%float)).
Proof. vm_compute. repeat split. Qed.

(** ** The safety cap *)

Section SafetyCap.
Import Config Flow Sweep.
Variables (w : world) (job : WorkloadJob) (workload_name rail full_cmd : string).
Variables (nominal_v min_v coarse_step : float).

Abbreviation body := (loop_body w job workload_name rail full_cmd min_v coarse_step).

(** One unhindered iteration: it sets the step's voltage once, moves to the
    next voltage, counts the step and leaves by [break] exactly when the
    count passes 500. *)
Lemma loop_body_unhindered (st : locals) (returncode : Z) (output : extraction)
    (seconds : float) :
  regex job <> None ->
  set_ok (steps w (step_count st)) = true ->
  interrupt (steps w (step_count st)) = None ->
  run (steps w (step_count st)) = Exited returncode output seconds ->
  output <> bad_capture ->
  (returncode = 0 \/ returncode = -6) \/ status st <> None ->
  exists evs : list event,
    (body st).1 = (if 500 <? step_count st + 1 then Break else Normal tt)
    /\ current_v (body st).2 = next_voltage min_v coarse_step (current_v st)
    /\ step_count (body st).2 = step_count st + 1
    /\ status (body st).2 <> None
    /\ trace (body st).2 = trace st ++ evs
    /\ step_numbers evs = [step_count st]
    /\ set_voltage_calls evs = [(rail, current_v st)]
    /\ ((500 <? step_count st + 1) = true -> last evs = Some (Print SafetyLimitReached)).
Proof.
  intros Hregex Hset Hint Hrun Hout Hstatus.
  destruct (regex job) as [pattern|] eqn:Hpattern; [clear Hregex|congruence].
  unfold loop_body, hal_set_voltage, settle, run_model, persist, step_down,
    _save_csv, update_master_summary, try_finally, try_except, local, key,
    bind, get_locals, emit, set_current_v, set_step_count,
    set_accuracy_found, set_status, set_duration, set_log_data, ret, raise,
    break.
  cbn [step_count current_v accuracy_found status duration log_data trace fst snd].
  rewrite Hset, Hint, Hrun, Hpattern.
  repeat match goal with
         | |- context [bool_decide (None = Some ?p)] =>
             rewrite (bool_decide_eq_false_2 (None = Some p)) by discriminate
         end.
  cbn [negb fst snd step_count current_v accuracy_found status duration log_data trace].
  assert (Hbound :
            bool_decide (returncode = 0) || bool_decide (returncode = -6) = true
            \/ exists s, status st = Some s).
  { destruct Hstatus as [[-> | ->] | Hs]; [left; reflexivity ..|].
    right. destruct (status st); [eauto|congruence]. }
  destruct output as [|accuracy|]; [| |congruence].
  all: destruct (bool_decide (returncode = 0) || bool_decide (returncode = -6)) eqn:Hrc;
    [destruct (bool_decide (returncode = -6))
    |destruct Hbound as [|[s Hs]]; [discriminate|rewrite Hs]].
  all: cbn [negb fst snd step_count current_v accuracy_found status duration log_data trace].
  all: match goal with |- context [annotate ?a ?l] => destruct (annotate a l) end;
    cbn [negb fst snd step_count current_v accuracy_found status duration log_data trace].
  all: destruct (current_v st <=? fine_threshold min_v)%float;
    cbn [negb fst snd step_count current_v accuracy_found status duration log_data trace].
  all: destruct (500 <? step_count st + 1);
    cbn [negb fst snd step_count current_v accuracy_found status duration log_data trace].
  all: rewrite <- ?app_assoc; eexists; repeat split; try reflexivity; try discriminate.
Qed.

Lemma omap_snoc_none {A B : Type} (f : A -> option B) (l : list A) (x : A) :
  f x = None -> omap f (l ++ [x]) = omap f l.
Proof.
  intros Hx. rewrite omap_app. simpl. rewrite Hx. apply app_nil_r.
Qed.

Lemma last_snoc_inv {A : Type} (l : list A) (x : A) :
  last l = Some x -> exists l', l = l' ++ [x].
Proof.
  intros Hlast. destruct l as [|y l] using rev_ind; [discriminate|].
  rewrite last_snoc in Hlast. injection Hlast as ->. now exists l.
Qed.

(** From step [k] on, an unhindered loop runs the steps [k] to 500 and
    leaves at the cap. *)
Lemma while_unhindered :
  regex job <> None ->
  unhindered w ->
  (forall k : nat, (k <= 500)%nat ->
     (min_v - 0.0001 <=? voltage_at nominal_v min_v coarse_step k)%float = true) ->
  forall (n k : nat) (st : locals),
    (k + n = 501)%nat -> (1 <= n)%nat ->
    step_count st = Z.of_nat k ->
    current_v st = voltage_at nominal_v min_v coarse_step k ->
    k = 0%nat \/ status st <> None ->
    exists evs : list event,
      (while n (loop_condition min_v) body st).1 = Normal tt
      /\ step_count (while n (loop_condition min_v) body st).2 = 501
      /\ trace (while n (loop_condition min_v) body st).2
         = trace st ++ evs ++ [Print SafetyLimitReached]
      /\ step_numbers evs = map Z.of_nat (seq k n)
      /\ set_voltage_calls evs
         = map (fun j => (rail, voltage_at nominal_v min_v coarse_step j)) (seq k n).
Proof.
  intros Hregex Hw Hcond n.
  induction n as [|n IH]; intros k st Hkn Hn Hcount Hv Hstatus; [lia|].
  destruct (Hw (Z.of_nat k)) as (Hset & Hint & rc & out & secs & Hrun & Hout & Hfirst);
    [lia|].
  rewrite <- Hcount in Hset, Hint, Hrun.
  assert (Hrc : (rc = 0 \/ rc = -6) \/ status st <> None).
  { destruct Hstatus as [-> | Hs]; [left; apply Hfirst; reflexivity | right; exact Hs]. }
  destruct (loop_body_unhindered st rc out secs Hregex Hset Hint Hrun Hout Hrc)
    as (evs & Hc & Hv' & Hcount' & Hstatus' & Htrace & Hnum & Hcalls & Hlast).
  assert (Hgo : loop_condition min_v st = true).
  { unfold loop_condition. rewrite Hv. apply Hcond. lia. }
  cbn [while]. rewrite Hgo.
  destruct (body st) as [c st1]. cbn [fst snd] in *. subst c.
  destruct (Z.ltb_spec 500 (step_count st + 1)) as [Hcap | Hcap].
  - assert (n = 0%nat) by lia. subst n.
    destruct (last_snoc_inv _ _ (Hlast eq_refl)) as [evs' ->].
    unfold step_numbers, set_voltage_calls in *.
    rewrite omap_snoc_none in Hnum by reflexivity.
    rewrite omap_snoc_none in Hcalls by reflexivity.
    exists evs'. cbn [fst snd]. split; [reflexivity|]. split; [lia|].
    split; [exact Htrace|]. split.
    + rewrite Hnum, Hcount. reflexivity.
    + rewrite Hcalls, Hv. reflexivity.
  - destruct (IH (S k) st1) as (evs' & Hc1 & Hcount1 & Htrace1 & Hnum1 & Hcalls1);
      [lia | lia | lia | rewrite Hv', Hv; reflexivity | right; exact Hstatus' |].
    exists (evs ++ evs'). repeat split; try assumption.
    + rewrite Htrace1, Htrace. now rewrite <- !app_assoc.
    + unfold step_numbers in *. rewrite omap_app, Hnum, Hnum1, Hcount. reflexivity.
    + unfold set_voltage_calls in *. rewrite omap_app, Hcalls, Hcalls1, Hv. reflexivity.
Qed.

(** C7. A sweep that nothing but the cap can stop - every step through
    step 500 goes through and its voltage stays at or above [min_v - 0.0001]
    - runs the steps numbered 0 to 500, each at its voltage, leaves the loop
    at the safety check, ends normally with [step_count] at 501 and restores
    the nominal voltage as its last action. *)
Theorem safety_cap_halts_sweep (st : locals) :
  regex job <> None ->
  unhindered w ->
  (forall k : nat, (k <= 500)%nat ->
     (min_v - 0.0001 <=? voltage_at nominal_v min_v coarse_step k)%float = true) ->
  let sweep :=
    guarded_sweep w job workload_name rail full_cmd nominal_v min_v coarse_step st in
  sweep.1 = Normal tt
  /\ step_count sweep.2 = 501
  /\ exists evs : list event,
       trace sweep.2
       = trace st ++ evs
         ++ [Print SafetyLimitReached; Print Resetting; SetVoltage rail nominal_v]
       /\ step_numbers evs = map Z.of_nat (seq 0 501)
       /\ set_voltage_calls evs
          = map (fun k => (rail, voltage_at nominal_v min_v coarse_step k))
              (seq 0 501).
Proof.
  intros Hregex Hw Hcond sweep. subst sweep.
  unfold guarded_sweep, sweep_loop, try_finally, try_except, reset, bind,
    set_current_v, set_step_count, emit.
  cbn [current_v step_count accuracy_found status duration log_data trace].
  set (st0 := mkLocals nominal_v 0 (accuracy_found st) (status st) (duration st)
                (log_data st) (trace st)).
  destruct (while_unhindered Hregex Hw Hcond (fuel_for 0) 0%nat st0)
    as (evs & Hc & Hcount & Htrace & Hnum & Hcalls);
    [reflexivity | unfold fuel_for; lia | reflexivity | reflexivity | now left |].
  destruct (while _ _ _ st0) as [c st1]. cbn [fst snd] in *. subst c.
  cbn [fst snd step_count trace].
  split; [reflexivity|]. split; [exact Hcount|].
  exists evs. split; [|split; assumption].
  rewrite Htrace. subst st0. cbn [trace]. now rewrite <- !app_assoc.
Qed.

End SafetyCap.

Lemma safety_cap_halts_sweep_witness :
  (Sweep.guarded_sweep Demo.calm Demo.squeezenet "SqueezeNet" "VCCINT"
     "./run.sh squeezenet" 0.85 0.55 0 Sweep.fresh).1 = Flow.Normal tt.
Proof.
  apply (safety_cap_halts_sweep Demo.calm Demo.squeezenet "SqueezeNet" "VCCINT"
           "./run.sh squeezenet" 0.85 0.55 0 Sweep.fresh).
  - discriminate.
  - intros k Hk. vm_compute. repeat split. exists 0, (Sweep.matched 0.923%float), 12.5%float.
    repeat split; [discriminate | now left].
  - intros k Hk. 
    assert (Hconst : forall n, Sweep.voltage_at 0.85 0.55 0 n = 0.85%float).
    { induction n as [|n IHn]; [reflexivity|].
      change (Sweep.voltage_at 0.85 0.55 0 (S n))
        with (Sweep.next_voltage 0.55 0 (Sweep.voltage_at 0.85 0.55 0 n)).
      rewrite IHn. vm_compute. reflexivity. }
    rewrite Hconst. vm_compute. reflexivity.
Defined.

(** ** The step-size policy *)

(** The mantissas of 0.57 and of [0.55 + 0.02], which share the exponent
    -53: whatever does not exceed the first does not exceed the second. *)
Lemma mantissa_057_threshold (m : positive) :
  match Pos.compare_cont Eq m 5134103575202365 with
  | Gt => false
  | _ => true
  end = true ->
  match Pos.compare_cont Eq m 5134103575202366 with
  | Gt => false
  | _ => true
  end = true.
Proof.
  rewrite !Pos.compare_cont_spec. unfold Pos.switch_Eq.
  destruct (Pos.compare_spec m 5134103575202365) as [E|L|G];
    intros H; try discriminate H; clear H.
  - subst m. vm_compute. reflexivity.
  - assert (L' : (m < 5134103575202366)%positive).
    { apply (Pos.lt_trans _ _ _ L). vm_compute. reflexivity. }
    unfold Pos.lt in L'. rewrite L'. reflexivity.
Qed.

(** Whatever is at or below the binary64 nearest to 0.57 is at or below the
    threshold the code computes, [0.55 + 0.02], which is the next binary64
    above it. *)
Lemma below_057_below_threshold (v : float) :
  (v <=? 0.57)%float = true ->
  (v <=? Sweep.fine_threshold 0.55)%float = true.
Proof.
  rewrite (leb_spec v 0.57), (leb_spec v (Sweep.fine_threshold 0.55)).
  assert (H57 : Prim2SF 0.57 = S754_finite false 5134103575202365 (-53))
    by (vm_compute; reflexivity).
  assert (Hthr : Prim2SF (Sweep.fine_threshold 0.55)
                 = S754_finite false 5134103575202366 (-53))
    by (vm_compute; reflexivity).
  rewrite H57, Hthr. clear H57 Hthr. unfold SFleb, SFcompare.
  generalize (Prim2SF v). intros [s|s| |s m e].
  - intros _. reflexivity.
  - destruct s; intros H; [reflexivity | discriminate H].
  - intros H. discriminate H.
  - destruct s; [intros _; reflexivity|].
    destruct (e ?= -53).
    + apply mantissa_057_threshold.
    + intros _. reflexivity.
    + intros H. discriminate H.
Qed.

(** The sweep from 0.85 V itself: repeated subtraction reaches
    0.5799999999999997, not 0.58; the coarse step from there lands below the
    threshold, and step 28 is the first fine one. *)
Lemma sweep_voltages_near_threshold :
  Sweep.voltage_at 0.85 0.55 0.01 27 = 0.5799999999999997%float
  /\ Sweep.voltage_at 0.85 0.55 0.01 28 = 0.5699999999999997%float
  /\ Sweep.voltage_at 0.85 0.55 0.01 29 = 0.5689999999999997%float
  /\ Sweep.current_step 0.55 0.01 (Sweep.voltage_at 0.85 0.55 0.01 27) = 0.01%float
  /\ Sweep.current_step 0.55 0.01 (Sweep.voltage_at 0.85 0.55 0.01 28) = 0.001%float.
Proof. vm_compute. repeat split. Qed.

(** ** Workload crashes *)

Section Crashes.
Import Config Flow Sweep.
Variables (w : world) (job : WorkloadJob) (workload_name rail full_cmd : string).
Variables (min_v coarse_step : float).

Abbreviation body := (loop_body w job workload_name rail full_cmd min_v coarse_step).

(** X24. A step whose workload exits with a code other than 0 and -6 assigns
    nothing to [status].  With [status] still unbound the step raises
    [UnboundLocalError] and writes no summary row; otherwise its row carries
    the status an earlier step left behind, and the loop goes on. *)
Lemma loop_body_crash (st : locals) (returncode : Z) (output : extraction)
    (seconds : float) :
  regex job <> None ->
  set_ok (steps w (step_count st)) = true ->
  interrupt (steps w (step_count st)) = None ->
  run (steps w (step_count st)) = Exited returncode output seconds ->
  output <> bad_capture ->
  returncode <> 0 ->
  returncode <> -6 ->
  match status st with
  | None =>
      (body st).1 = Raise (UnboundLocalError "status")
      /\ summary_statuses (trace (body st).2) = summary_statuses (trace st)
  | Some s =>
      (body st).1 = (if 500 <? step_count st + 1 then Break else Normal tt)
      /\ summary_statuses (trace (body st).2)
         = summary_statuses (trace st) ++ [(current_v st, s)]
  end.
Proof.
  intros Hregex Hset Hint Hrun Hout Hrc0 Hrc6.
  destruct (regex job) as [pattern|] eqn:Hpattern; [clear Hregex|congruence].
  unfold loop_body, hal_set_voltage, settle, run_model, persist, step_down,
    _save_csv, update_master_summary, try_finally, try_except, local, key,
    bind, get_locals, emit, set_current_v, set_step_count,
    set_accuracy_found, set_status, set_duration, set_log_data, ret, raise,
    break.
  cbn [step_count current_v accuracy_found status duration log_data trace fst snd].
  rewrite Hset, Hint, Hrun, Hpattern.
  repeat match goal with
         | |- context [bool_decide (None = Some ?p)] =>
             rewrite (bool_decide_eq_false_2 (None = Some p)) by discriminate
         end.
  rewrite (bool_decide_eq_false_2 (returncode = 0)) by exact Hrc0.
  rewrite (bool_decide_eq_false_2 (returncode = -6)) by exact Hrc6.
  cbn [orb negb fst snd step_count current_v accuracy_found status duration log_data trace].
  destruct output as [|accuracy|]; [| |congruence].
  all: destruct (status st) as [s|];
    cbn [negb fst snd step_count current_v accuracy_found status duration log_data trace].
  all: match goal with |- context [annotate ?a ?l] => destruct (annotate a l) end;
    cbn [negb fst snd step_count current_v accuracy_found status duration log_data trace].
  all: try (destruct (current_v st <=? fine_threshold min_v)%float;
    cbn [negb fst snd step_count current_v accuracy_found status duration log_data trace];
    destruct (500 <? step_count st + 1);
    cbn [negb fst snd step_count current_v accuracy_found status duration log_data trace]).
  all: split; [reflexivity|].
  all: unfold summary_statuses; rewrite !omap_app; cbn [omap];
    rewrite ?app_nil_r; reflexivity.
Qed.

End Crashes.

Lemma loop_body_crash_witness :
  let st := Flow.mkLocals 0.85 0 0 None None [] [] in
  let r := Sweep.loop_body (Demo.crash_at 0) Demo.squeezenet "SqueezeNet" "VCCINT"
             "./run.sh squeezenet" 0.55 0.01 st in
  r.1 = Flow.Raise (Flow.UnboundLocalError "status")
  /\ Sweep.summary_statuses (Flow.trace r.2) = Sweep.summary_statuses (Flow.trace st).
Proof.
  cbv zeta.
  apply (loop_body_crash (Demo.crash_at 0) Demo.squeezenet "SqueezeNet" "VCCINT"
           "./run.sh squeezenet" 0.55 0.01 (Flow.mkLocals 0.85 0 0 None None [] [])
           1 Sweep.no_match 3%float);
    first [reflexivity | discriminate].
Defined.

(** C3 on the code.  A crash leaves [status] as it was.  When the first
    step's workload exits with code 1, the summary row cannot be written: the
    sweep ends with [UnboundLocalError] and the summary stays empty.  When
    step 1 crashes after a good step 0, its row carries the status of step 0,
    [SUCCESS], and the sweep goes on: step 2 and the steps after it write
    their rows, 48 in all, until the HAL refuses the voltage of step 48, the
    first below the minimum. *)
Lemma crash_status_is_stale :
  let first := Demo.sweep_of (Demo.crash_at 0) 0.01 in
  let second := Demo.sweep_of (Demo.crash_at 1) 0.01 in
  first.1 = Flow.Raise (Flow.UnboundLocalError "status")
  /\ Flow.Print (Flow.Crash 1) ∈ Flow.trace first.2
  /\ Sweep.summary_statuses (Flow.trace first.2) = []
  /\ Sweep.set_voltage_calls (Flow.trace first.2)
     = [("VCCINT", 0.85%float); ("VCCINT", 0.85%float)]
  /\ second.1 = Flow.Normal tt
  /\ Flow.Print (Flow.Crash 1) ∈ Flow.trace second.2
  /\ Sweep.summary_statuses (Flow.trace second.2) !! 1%nat
     = Some (0.84%float, "SUCCESS")
  /\ Sweep.summary_statuses (Flow.trace second.2) !! 2%nat
     = Some (0.83%float, "SUCCESS")
  /\ length (Sweep.summary_statuses (Flow.trace second.2)) = 48%nat
  /\ Sweep.step_numbers (Flow.trace second.2) = seqZ 0 49.
Proof.
  vm_compute. repeat split; try reflexivity.
  - apply list_elem_of_In. vm_compute. tauto.
  - apply list_elem_of_In. vm_compute. tauto.
Qed.

(** ** What the HAL touches *)

Section Touches.
Import Config IO Access.
Variable hw : hardware.

Lemma touches_ret {A : Type} (kind : io_event -> bool) (a : A) :
  touches kind 0 (ret a).
Proof. intros log. exists []. now rewrite app_nil_r. Qed.

Lemma touches_raise {A : Type} (kind : io_event -> bool) :
  touches kind 0 (@raise A).
Proof. intros log. exists []. now rewrite app_nil_r. Qed.

Lemma touches_lift {A : Type} (kind : io_event -> bool) (value : option A) :
  touches kind 0 (lift value).
Proof. destruct value; [apply touches_ret | apply touches_raise]. Qed.

Lemma touches_weaken {A : Type} (kind : io_event -> bool) (n m : nat) (c : io A) :
  (n <= m)%nat -> touches kind n c -> touches kind m c.
Proof.
  intros Hnm Hc log. destruct (Hc log) as (evs & Hlog & Hkind & Hlen).
  exists evs. repeat split; [assumption..|lia].
Qed.

Lemma touches_bind {A B : Type} (kind : io_event -> bool) (n m : nat)
    (c : io A) (k : A -> io B) :
  touches kind n c -> (forall a, touches kind m (k a)) ->
  touches kind (n + m) (bind c k).
Proof.
  intros Hc Hk log. unfold bind.
  destruct (Hc log) as (evs & Hlog & Hkind & Hlen).
  destruct (c log) as [[a|] log1]; simpl in *; subst log1.
  - destruct (Hk a (log ++ evs)) as (evs' & Hlog' & Hkind' & Hlen').
    exists (evs ++ evs'). rewrite Hlog', app_assoc, forallb_app, length_app.
    rewrite Hkind, Hkind'. repeat split. lia.
  - exists evs. repeat split; [assumption|lia].
Qed.

Lemma touches_bus_read_word (bus addr cmd : Z) :
  touches is_read 1 (bus_read_word hw bus addr cmd).
Proof. intros log. exists [read_word_data bus addr cmd]. now repeat split. Qed.

Lemma touches_read_float_file (path : string) :
  touches is_read 1 (read_float_file hw path).
Proof. intros log. exists [file_read path]. now repeat split. Qed.

Lemma touches_write (ev : io_event) :
  is_write ev = true -> touches is_write 1 (write hw ev).
Proof.
  intros Hev log. exists [ev]. unfold write. simpl. rewrite Hev. now repeat split.
Qed.

End Touches.

Ltac touches_steps :=
  lazymatch goal with
  | |- Access.touches ?kind ?n (IO.bind ?c ?k) =>
      first
        [ apply (touches_weaken kind (0 + n) n); [lia|];
          apply (touches_bind kind 0 n c k); [solve [touches_steps] | intros ?; touches_steps]
        | lazymatch n with
          | S ?n' =>
              apply (touches_weaken kind (1 + n') n); [lia|];
              apply (touches_bind kind 1 n' c k);
              [solve [touches_steps] | intros ?; touches_steps]
          end ]
  | |- Access.touches _ _ (if ?b then _ else _) => destruct b; touches_steps
  | |- Access.touches _ _ (match ?x with _ => _ end) => destruct x; touches_steps
  | |- Access.touches ?kind ?n _ =>
      first
        [ apply (touches_weaken kind 0 n); [lia|];
          first [apply touches_ret | apply touches_raise | apply touches_lift]
        | apply (touches_weaken kind 1 n); [lia|];
          first [ apply touches_bus_read_word | apply touches_read_float_file
                | apply touches_write; reflexivity ]
        | idtac ]
  end.

Section HalTouches.
Import Config IO Access.
Variable hw : hardware.

Lemma touches_read_telemetry_try (c : IterationFour.ctrl) :
  touches is_read 3 (IterationFour.read_telemetry_try hw c).
Proof.
  unfold IterationFour.read_telemetry_try, IterationFour.read_pmbus,
    IterationFour.read_sysfs_monitor, IterationFour.read_sysfs_regulator,
    IterationFour.read_scaled_file, IterationFour.div_by_entry,
    IterationFour.int16.
  cbv zeta. touches_steps.
Qed.

Lemma touches_set_voltage_try (c : IterationFour.ctrl) (voltage_v : float) :
  touches is_write 2 (IterationFour.set_voltage_try hw c voltage_v).
Proof.
  unfold IterationFour.set_voltage_try, IterationFour.write_pmbus,
    IterationFour.write_sysfs_regulator, IterationFour.write_raw_i2c,
    IterationFour.pmbus_raw_val, IterationFour.vid_code, IterationFour.int16.
  cbv zeta. touches_steps.
Qed.

End HalTouches.

(** X1. Whatever the rail, the handle and the answers of the hardware,
    [read_telemetry] only reads: it makes at most three accesses, each a bus
    word read or a file read, and never a write. *)
Theorem read_telemetry_only_reads (hw : IO.hardware)
    (hal : IterationFour.BoardHAL) (rail_name : string) (log : list IO.io_event) :
  exists evs : list IO.io_event,
    (IterationFour.read_telemetry hw hal rail_name log).2 = log ++ evs
    /\ forallb Access.is_read evs = true
    /\ (length evs <= 3)%nat.
Proof.
  unfold IterationFour.read_telemetry.
  destruct (IterationFour.rails hal !! rail_name) as [c|].
  - destruct (touches_read_telemetry_try hw c log) as (evs & Hlog & Hkind & Hlen).
    exists evs. unfold IO.try_except, IO.bind, IO.ret.
    destruct (IterationFour.read_telemetry_try hw c log) as [[s|] log1];
      simpl in *; auto.
  - exists []. simpl. rewrite app_nil_r. repeat split. lia.
Qed.

(** X2. Whatever the rail, the request and the answers of the hardware,
    [set_voltage] only writes: it makes at most two accesses, each a bus
    write or a file write, and never a read. *)
Theorem set_voltage_only_writes (hw : IO.hardware)
    (hal : IterationFour.BoardHAL) (rail_name : string) (voltage_v : float)
    (log : list IO.io_event) :
  exists evs : list IO.io_event,
    (IterationFour.set_voltage hw hal rail_name voltage_v log).2 = log ++ evs
    /\ forallb Access.is_write evs = true
    /\ (length evs <= 2)%nat.
Proof.
  unfold IterationFour.set_voltage.
  destruct (IterationFour.rails hal !! rail_name) as [c|].
  - destruct (negb _).
    + exists []. simpl. rewrite app_nil_r. repeat split. lia.
    + destruct (touches_set_voltage_try hw c voltage_v log)
        as (evs & Hlog & Hkind & Hlen).
      exists evs. unfold IO.try_except.
      destruct (IterationFour.set_voltage_try hw c voltage_v log) as [[b|] log1];
        simpl in *; auto.
  - exists []. simpl. rewrite app_nil_r. repeat split. lia.
Qed.

(** ** Successful writes *)

(** A [True] from the [try] block of [set_voltage] comes after a write the
    hardware accepted, the last access made. *)
Lemma set_voltage_try_true_inv (hw : IO.hardware) (c : IterationFour.ctrl)
    (voltage_v : float) (log log' : list IO.io_event) :
  IterationFour.set_voltage_try hw c voltage_v log = (Some true, log') ->
  exists (pre : list IO.io_event) (ev : IO.io_event),
    log' = log ++ pre ++ [ev]
    /\ Access.is_write ev = true
    /\ IO.hw_write hw (log ++ pre) ev = true.
Proof.
  unfold IterationFour.set_voltage_try, IterationFour.write_pmbus,
    IterationFour.write_sysfs_regulator, IterationFour.write_raw_i2c,
    IterationFour.pmbus_raw_val, IterationFour.vid_code, IterationFour.int16,
    IO.bind, IO.lift, IO.ret, IO.raise, IO.write.
  cbv zeta. intros H.
  repeat (case_match; simplify_eq/=).
  all: try match goal with
         | H : IO.hw_write _ ?l ?ev = true
           |- exists pre ev', (?l ++ [?ev]) ++ [?ev2] = _ ++ pre ++ [ev'] /\ _ =>
             fail 1
         | H : IO.hw_write _ ?l ?ev = true
           |- exists pre ev', ?l ++ [?ev] = ?l ++ pre ++ [ev'] /\ _ =>
             exists [], ev; rewrite app_nil_r; repeat split; assumption
         end.
  all: match goal with
       | H : IO.hw_write _ (?l ++ [?ev1]) ?ev2 = true
         |- exists pre ev', (?l ++ [?ev1]) ++ [?ev2] = ?l ++ pre ++ [ev'] /\ _ =>
           exists [ev1], ev2; rewrite <- app_assoc; repeat split; assumption
       end.
Qed.

(** X3. When [set_voltage] reports success the rail is known, the request
    was inside the rail's limits, and the last access the call made is a
    write that the hardware accepted. *)
Theorem set_voltage_success (hw : IO.hardware) (hal : IterationFour.BoardHAL)
    (rail_name : string) (voltage_v : float) (log log' : list IO.io_event) :
  IterationFour.set_voltage hw hal rail_name voltage_v log = (true, log') ->
  exists (c : IterationFour.ctrl) (pre : list IO.io_event) (ev : IO.io_event),
    IterationFour.rails hal !! rail_name = Some c
    /\ IterationFour.within_limits (IterationFour.c_conf c) voltage_v = true
    /\ log' = log ++ pre ++ [ev]
    /\ Access.is_write ev = true
    /\ IO.hw_write hw (log ++ pre) ev = true.
Proof.
  unfold IterationFour.set_voltage.
  destruct (IterationFour.rails hal !! rail_name) as [c|]; [|discriminate].
  destruct (IterationFour.within_limits _ _) eqn:Hlim; [simpl|discriminate].
  unfold IO.try_except.
  destruct (IterationFour.set_voltage_try hw c voltage_v log) as [[[]|] log1] eqn:Htry;
    intros [= <-].
  destruct (set_voltage_try_true_inv _ _ _ _ _ Htry) as (pre & ev & H1 & H2 & H3).
  exists c, pre, ev. repeat split; assumption.
Qed.

Lemma set_voltage_success_witness :
  exists (c : IterationFour.ctrl) (pre : list IO.io_event) (ev : IO.io_event),
    IterationFour.rails Demo.board4 !! "VCORE" = Some c
    /\ IterationFour.within_limits (IterationFour.c_conf c) 0.65%float = true
    /\ [IO.write_byte_data 2 0x40 0x00 10] = [] ++ pre ++ [ev]
    /\ Access.is_write ev = true
    /\ IO.hw_write Demo.quiet ([] ++ pre) ev = true.
Proof.
  apply (set_voltage_success Demo.quiet Demo.board4 "VCORE" 0.65%float []).
  vm_compute. reflexivity.
Defined.

(** X4. On hardware that refuses every write, [set_voltage] reports failure
    for every rail and every voltage: a fault raised by the bus or by the
    file is answered with [False], never passed on and never taken for
    success. *)
Theorem set_voltage_refusing_hardware (hw : IO.hardware)
    (hal : IterationFour.BoardHAL) (rail_name : string) (voltage_v : float)
    (log : list IO.io_event) :
  (forall l ev, IO.hw_write hw l ev = false) ->
  (IterationFour.set_voltage hw hal rail_name voltage_v log).1 = false.
Proof.
  intros Hrefuse.
  destruct (IterationFour.set_voltage hw hal rail_name voltage_v log)
    as [[] log'] eqn:Hset; [|reflexivity].
  unfold IterationFour.set_voltage in Hset.
  destruct (IterationFour.rails hal !! rail_name) as [c|]; [|discriminate].
  destruct (IterationFour.within_limits _ _); [simpl in Hset|discriminate].
  unfold IO.try_except in Hset.
  destruct (IterationFour.set_voltage_try hw c voltage_v log) as [[[]|] log1] eqn:Htry;
    try discriminate.
  destruct (set_voltage_try_true_inv _ _ _ _ _ Htry) as (pre & ev & _ & _ & H3).
  now rewrite Hrefuse in H3.
Qed.

Lemma set_voltage_refusing_hardware_witness :
  (IterationFour.set_voltage Bench.stuck Demo.board4 "VCCINT" 0.85%float []).1 = false.
Proof.
  apply (set_voltage_refusing_hardware Bench.stuck Demo.board4 "VCCINT" 0.85%float []).
  intros l ev. reflexivity.
Defined.

(** ** The raw I2C write *)

Section RawI2C.
Import Config IO.
#[local] Open Scope io_scope.
Variables (hw : hardware) (hal : IterationFour.BoardHAL) (rail_name : string).
Variables (c : IterationFour.ctrl) (bus : Z) (conn : Connection) (cmds : Commands).
Variables (fmt : Format) (addr reg vid : Z) (base step : float).
Variables (voltage_v : float) (log : list io_event).

Hypothesis Hrail : IterationFour.rails hal !! rail_name = Some c.
Hypothesis Htype : IterationFour.c_type c = "raw_i2c".
Hypothesis Hbus : IterationFour.c_bus c = Some bus.
Hypothesis Hlim : IterationFour.within_limits (IterationFour.c_conf c) voltage_v = true.
Hypothesis Hconn : connection (IterationFour.c_conf c) = Some conn.
Hypothesis Haddr : address conn = Some (hex addr).
Hypothesis Hcmds : commands (IterationFour.c_conf c) = Some cmds.
Hypothesis Hreg : cmd_voltage_reg cmds = Some (hex reg).
Hypothesis Hfmt : format (IterationFour.c_conf c) = Some fmt.
Hypothesis Hbase : base_v fmt = Some base.
Hypothesis Hstep : step_v fmt = Some step.
Hypothesis Hvid : IterationFour.vid_code voltage_v base step log = (Some vid, log).

(** The call on such a rail is the staged write and what follows it. *)
Lemma set_voltage_raw_i2c_unfold :
  IterationFour.set_voltage hw hal rail_name voltage_v log
  = try_except
      (write hw (write_byte_data bus addr reg vid) ;;
       match cmd_update_reg cmds with
       | Some entry =>
           up_reg <- IterationFour.int16 (Some entry) ;;
           up_val <- IterationFour.int16 (Some (get (cmd_update_value cmds) (hex 1))) ;;
           write hw (write_byte_data bus addr up_reg up_val) ;;
           ret true
       | None => ret true
       end) false log.
Proof.
  unfold IterationFour.set_voltage. rewrite Hrail, Hlim. simpl.
  unfold try_except, IterationFour.set_voltage_try, IterationFour.driver_handle.
  rewrite Htype, Hbus. simpl.
  unfold IterationFour.write_raw_i2c.
  rewrite Hconn, Hcmds, Hfmt. unfold bind at 1 2 3 4 5. simpl.
  rewrite Haddr, Hreg, Hbase, Hstep. simpl.
  unfold bind at 1 3. rewrite Hvid. reflexivity.
Qed.

(** X6. On a raw I2C rail with an update register the voltage goes out in
    two byte writes, in this order: the VID code to the voltage register,
    then the update value to the update register.  The second write is made
    only when the first was accepted, and the call reports success exactly
    when the second was accepted too. *)
Theorem raw_i2c_stage_then_commit (up_reg up_val : Z) :
  cmd_update_reg cmds = Some (hex up_reg) ->
  get (cmd_update_value cmds) (hex 1) = hex up_val ->
  IterationFour.set_voltage hw hal rail_name voltage_v log
  = if hw_write hw log (write_byte_data bus addr reg vid)
    then (hw_write hw (log ++ [write_byte_data bus addr reg vid])
            (write_byte_data bus addr up_reg up_val),
          log ++ [write_byte_data bus addr reg vid;
                  write_byte_data bus addr up_reg up_val])
    else (false, log ++ [write_byte_data bus addr reg vid]).
Proof.
  intros Hup Hval. rewrite set_voltage_raw_i2c_unfold, Hup, Hval.
  unfold try_except, bind, write, IterationFour.int16, ret.
  destruct (hw_write hw log _); [|reflexivity].
  destruct (hw_write hw (log ++ _) _); now rewrite <- app_assoc.
Qed.

(** X7. When the update register, or the update value, of a raw I2C rail
    is no hexadecimal number, the VID code is still written to the voltage
    register, no update follows, and the call reports failure whether the
    hardware accepted the code or not. *)
Theorem raw_i2c_malformed_update :
  cmd_update_reg cmds = Some not_hex
  \/ (exists up_reg, cmd_update_reg cmds = Some (hex up_reg)
                     /\ cmd_update_value cmds = Some not_hex) ->
  IterationFour.set_voltage hw hal rail_name voltage_v log
  = (false, log ++ [write_byte_data bus addr reg vid]).
Proof.
  intros Hbad. rewrite set_voltage_raw_i2c_unfold.
  unfold try_except, bind, write, IterationFour.int16, ret, raise.
  destruct Hbad as [Hup | (up_reg & Hup & Hval)]; rewrite Hup; [|rewrite Hval; simpl];
    now destruct (hw_write hw log _).
Qed.

End RawI2C.

Lemma raw_i2c_stage_then_commit_witness :
  IterationFour.set_voltage Demo.quiet Bench.board "VLATCH" 0.65%float []
  = (true, [IO.write_byte_data 2 0x40 0x00 10; IO.write_byte_data 2 0x40 0x01 1]).
Proof.
  eapply (raw_i2c_stage_then_commit Demo.quiet Bench.board "VLATCH")
    with (bus := 2) (addr := 0x40) (reg := 0) (vid := 10) (up_reg := 1) (up_val := 1);
    vm_compute; reflexivity.
Defined.

Lemma raw_i2c_malformed_update_witness :
  IterationFour.set_voltage Demo.quiet Bench.board "VTYPO" 0.65%float []
  = (false, [IO.write_byte_data 2 0x40 0x00 10]).
Proof.
  eapply (raw_i2c_malformed_update Demo.quiet Bench.board "VTYPO")
    with (bus := 2) (addr := 0x40) (reg := 0) (vid := 10);
    try (vm_compute; reflexivity).
  left. reflexivity.
Defined.

(** ** The samples [read_telemetry] returns *)

Section Samples.
Import Config IO.
Variables (hw : hardware) (hal : IterationFour.BoardHAL) (rail_name : string).
Variables (c : IterationFour.ctrl) (log : list io_event) (s : IterationFour.sample).

Hypothesis Hrail : IterationFour.rails hal !! rail_name = Some c.

Ltac sample_cases Hread :=
  unfold IterationFour.read_telemetry in Hread; rewrite Hrail in Hread;
  unfold try_except, IterationFour.read_telemetry_try, IterationFour.driver_handle,
    IterationFour.read_pmbus, IterationFour.read_sysfs_monitor,
    IterationFour.read_sysfs_regulator, IterationFour.read_scaled_file,
    IterationFour.div_by_entry, IterationFour.int16,
    bind, lift, ret, raise, bus_read_word, read_float_file in Hread;
  cbv zeta in Hread.

(** X8. The power of a sample read over PMBus, and of one read from a
    monitor that declares no power file, is the product of the sample's
    voltage and current; a PMBus rail without a [read_current] command
    reports a current of zero. *)
Theorem read_telemetry_power_is_product :
  (IterationFour.read_telemetry hw hal rail_name log).1 = Some s ->
  (IterationFour.c_type c = "pmbus" /\ IterationFour.c_bus c <> None)
  \/ (IterationFour.c_type c = "sysfs_monitor"
      /\ IterationFour.c_paths c !! "root" <> None
      /\ forall f_map, files (IterationFour.c_conf c) = Some f_map ->
                       file_power f_map = None) ->
  IterationFour.power_w s
  = (IterationFour.voltage_v s * IterationFour.current_a s)%float
  /\ (IterationFour.c_type c = "pmbus" ->
      forall cmds, commands (IterationFour.c_conf c) = Some cmds ->
                   cmd_read_current cmds = None ->
                   IterationFour.current_a s = 0%float).
Proof.
  intros Hread Hkind. sample_cases Hread.
  destruct Hkind as [[Htype Hbus] | (Htype & Hroot & Hfiles)]; rewrite Htype in *; simpl in *.
  - destruct (IterationFour.c_bus c) as [bus|]; [|contradiction].
    repeat (case_match; simplify_eq/=); (split; [reflexivity|]);
      intros _ cmds' [= <-] Hnone; try reflexivity; congruence.
  - destruct (IterationFour.c_paths c !! "root") as [root|]; [|contradiction].
    split; [|discriminate].
    destruct (files (IterationFour.c_conf c)) as [f_map|] eqn:Hf; [|discriminate].
    rewrite (Hfiles f_map eq_refl) in Hread. simpl in Hread.
    repeat (case_match; simplify_eq/=); reflexivity.
Qed.

(** X9. A sample read from a regulator's [microvolts] file carries the
    number read, divided by the unit divisor (one million unless the format
    declares another), as its voltage, and zero current and power; the file
    is the only access made. *)
Theorem read_telemetry_regulator_sample (path : string) :
  (IterationFour.read_telemetry hw hal rail_name log).1 = Some s ->
  IterationFour.c_type c = "sysfs_regulator" ->
  IterationFour.c_paths c !! "microvolts" = Some path ->
  IterationFour.current_a s = 0%float
  /\ IterationFour.power_w s = 0%float
  /\ (IterationFour.read_telemetry hw hal rail_name log).2 = log ++ [file_read path]
  /\ exists (fmt : Format) (raw : float),
       format (IterationFour.c_conf c) = Some fmt
       /\ hw_read_file hw log path = Some raw
       /\ Py.truediv raw (get (unit_div fmt) 1000000%float)
          = Some (IterationFour.voltage_v s).
Proof.
  intros Hread Htype Hpath.
  assert (Hlog : (IterationFour.read_telemetry hw hal rail_name log).2
                 = (IterationFour.read_telemetry hw hal rail_name log).2) by reflexivity.
  revert Hlog. generalize ((IterationFour.read_telemetry hw hal rail_name log).2) at 1 3.
  intros log'.
  unfold IterationFour.read_telemetry. rewrite Hrail.
  unfold try_except, IterationFour.read_telemetry_try, IterationFour.driver_handle,
    IterationFour.read_sysfs_regulator, bind, lift, ret, raise, read_float_file.
  sample_cases Hread. rewrite Htype, Hpath in *. simpl in *.
  destruct (format (IterationFour.c_conf c)) as [fmt|]; [|discriminate].
  simpl in *.
  destruct (hw_read_file hw log path) as [raw|]; [|discriminate].
  destruct (Py.truediv raw _) as [v|] eqn:Hdiv; [|discriminate].
  simpl in *. injection Hread as <-. intros <-. simpl.
  repeat split. exists fmt, raw. repeat split. exact Hdiv.
Qed.

End Samples.

Lemma read_telemetry_power_is_product_witness :
  exists s,
    (IterationFour.read_telemetry Demo.quiet Demo.board4 "VCCINT" []).1 = Some s
    /\ IterationFour.power_w s
       = (IterationFour.voltage_v s * IterationFour.current_a s)%float.
Proof.
  eexists. split; [vm_compute; reflexivity|].
  refine (proj1 (read_telemetry_power_is_product Demo.quiet Demo.board4 "VCCINT"
                   (IterationFour.mkCtrl "VCCINT" Demo.vccint_conf "pmbus" (Some 4) ∅)
                   [] _ eq_refl eq_refl (or_introl (conj eq_refl _)))).
  discriminate.
Defined.

Lemma read_telemetry_regulator_sample_witness :
  exists s,
    (IterationFour.read_telemetry Demo.quiet Bench.board "VREG" []).1 = Some s
    /\ IterationFour.current_a s = 0%float.
Proof.
  eexists. split; [vm_compute; reflexivity|].
  eapply (proj1 (read_telemetry_regulator_sample Demo.quiet Bench.board "VREG"
                   (IterationFour.mkCtrl "VREG" Bench.regulator_conf "sysfs_regulator" None
                      {["microvolts" := "/sys/class/regulator/regulator.3/microvolts"]})
                   [] _ eq_refl _ eq_refl eq_refl eq_refl)).
Defined.

(** ** The linear16 decoder *)

Lemma linear16_all_words :
  forallb (fun high =>
             forallb (fun low => Linear16.round_trips (Linear16.word high low))
               Linear16.bytes)
    Linear16.bytes = true.
Proof. vm_cast_no_check (eq_refl true). Qed.

(** The conversion of a small natural number is the primitive one. *)
Lemma float_of_int_of_uint63 (n : Z) :
  0 <= n < 65536 ->
  Py.float_of_int n = PrimFloat.of_uint63 (Uint63.of_Z n).
Proof.
  intros Hn. unfold Py.float_of_int.
  rewrite <- (SF2Prim_Prim2SF (PrimFloat.of_uint63 (Uint63.of_Z n))).
  rewrite of_uint63_spec, Uint63.of_Z_spec, Z.mod_small; [reflexivity|].
  change Uint63.wB with 9223372036854775808. lia.
Qed.

Lemma int_is_sound (x : float) (raw : Z) :
  Linear16.int_is x raw = true -> Py.int x = Some raw.
Proof.
  unfold Linear16.int_is, Py.int.
  destruct (Prim2SF x) as [s|s| |s m e]; try discriminate.
  - intros H. apply Z.eqb_eq in H. now subst.
  - cbv zeta. destruct (Z.leb_spec 0 e) as [He|He].
    + rewrite Z.shiftl_mul_pow2 by exact He.
      intros H. apply Z.eqb_eq in H. now rewrite H.
    + rewrite Z.shiftr_div_pow2 by lia.
      intros H. apply Z.eqb_eq in H. now rewrite H.
Qed.

Lemma is_4096th_sound (x : float) (raw : Z) :
  Linear16.is_4096th x raw = true ->
  exists q : Q, Py.value x = Some q /\ (q == inject_Z raw / 4096)%Q.
Proof.
  unfold Linear16.is_4096th, Py.value.
  destruct (Prim2SF x) as [s|s| |[] m e]; try discriminate.
  - intros H. apply Z.eqb_eq in H. subst raw. exists 0%Q. split; reflexivity.
  - intros H. apply andb_prop in H as [He H].
    apply Z.leb_le in He. apply Z.eqb_eq in H.
    rewrite Z.shiftl_mul_pow2 in H by lia.
    eexists. split; [reflexivity|].
    assert (Hpow : (2 ^ e == / inject_Z (2 ^ (- e)))%Q).
    { rewrite Qpower.Zpower_Qpower by lia. rewrite <- Qpower.Qpower_opp.
      now rewrite Z.opp_involutive. }
    rewrite Hpow.
    assert (Hpos : 0 < 2 ^ (- e)) by (apply Z.pow_pos_nonneg; lia).
    assert (Hnz : ~ (inject_Z (2 ^ (- e)) == 0)%Q).
    { intros E. unfold Qeq in E. simpl in E. lia. }
    apply (Qmult_inj_r _ _ (inject_Z (2 ^ (- e)) * 4096)%Q).
    { intros E. apply Qmult_integral in E as [E|E]; [contradiction | discriminate]. }
    transitivity (inject_Z (Z.pos m * 4096)).
    { rewrite inject_Z_mult. field. exact Hnz. }
    rewrite H, inject_Z_mult. field.
Qed.

(** X10. For every 16-bit word, [_decode_linear16] with the default exponent
    returns the binary64 that stands for exactly [raw / 4096]; and on a rail
    with the fixed scale factor 4096, writing back the voltage that was read,
    [int((raw / 4096.0) * 4096)], gives the word that was read. *)
Theorem decode_linear16_round_trip (raw : Z) :
  0 <= raw < 65536 ->
  (exists q : Q,
     Py.value (IterationFour._decode_linear16 raw (-12)) = Some q
     /\ (q == inject_Z raw / 4096)%Q)
  /\ exists v : float,
       Py.truediv (Py.float_of_int raw) 4096%float = Some v
       /\ Py.int (v * 4096)%float = Some raw.
Proof.
  intros Hraw.
  pose proof linear16_all_words as Hall.
  rewrite forallb_forall in Hall.
  assert (Hhigh : In (raw / 256) Linear16.bytes).
  { apply list_elem_of_In, elem_of_seqZ.
    pose proof (Z.div_pos raw 256). pose proof (Z.div_lt_upper_bound raw 256 256). lia. }
  specialize (Hall _ Hhigh). rewrite forallb_forall in Hall.
  assert (Hlow : In (raw mod 256) Linear16.bytes).
  { apply list_elem_of_In, elem_of_seqZ. pose proof (Z.mod_pos_bound raw 256). lia. }
  specialize (Hall _ Hlow). unfold Linear16.word in Hall.
  rewrite <- (Z.div_mod raw 256) in Hall by lia.
  unfold Linear16.round_trips in Hall. cbv zeta in Hall.
  rewrite <- (float_of_int_of_uint63 raw Hraw) in Hall.
  apply andb_prop in Hall as [Hval Hdiv].
  unfold IterationFour._decode_linear16. split.
  - apply is_4096th_sound, Hval.
  - destruct (Py.truediv _ _) as [v|]; [|discriminate].
    exists v. split; [reflexivity|]. apply int_is_sound, Hdiv.
Qed.

Lemma decode_linear16_round_trip_witness :
  exists v : float,
    Py.truediv (Py.float_of_int 3481) 4096%float = Some v
    /\ Py.int (v * 4096)%float = Some 3481.
Proof.
  apply (proj2 (decode_linear16_round_trip 3481 ltac:(lia))).
Defined.

(** ** Construction *)

Section Constructed.
Import Config IO IterationFour Construction.
Variable sys : system.

Lemma no_path_well_formed (name : string) (conf : RailConfig) :
  let type := get (driver_type conf) "sysfs_monitor" in
  well_formed sys name (mkCtrl name conf type None ∅).
Proof.
  repeat split; simpl; discriminate.
Qed.

Lemma init_rail_controller_inv (name : string) (conf : RailConfig) (c : ctrl) :
  _init_rail_controller sys name conf = Some c ->
  c_conf c = conf /\ well_formed sys name c.
Proof.
  unfold _init_rail_controller.
  set (type := get (driver_type conf) "sysfs_monitor").
  pose proof (no_path_well_formed name conf) as Hnone. cbv zeta in Hnone. fold type in Hnone.
  destruct (String.eqb type "pmbus" || String.eqb type "raw_i2c") eqn:Ebus.
  { destruct (connection conf) as [conn|] eqn:Hconn; [simpl|discriminate].
    destruct (bus_id conn) as [bus|] eqn:Hid; [simpl|discriminate].
    destruct (smbus_opens sys bus) eqn:Hopen; intros [= <-];
      (split; [reflexivity|]); [|exact Hnone].
    split; [reflexivity|]. split; [reflexivity|]. split; simpl.
    - intros bus0 [= <-]. split; [|split; [exact Hopen | eauto]].
      apply orb_prop in Ebus as [E|E]; apply String.eqb_eq in E; auto.
    - intros k path. rewrite lookup_empty. discriminate. }
  destruct (String.eqb type "sysfs_regulator") eqn:Ereg.
  { apply String.eqb_eq in Ereg.
    assert (Hfound : forall path,
               c_conf (mkCtrl name conf type None {["microvolts" := path]}) = conf
               /\ well_formed sys name
                    (mkCtrl name conf type None {["microvolts" := path]})).
    { intros path. repeat split; simpl; try discriminate.
      intros k p [-> _]%lookup_singleton_Some. left. auto. }
    destruct (connection conf) as [conn|]; [simpl|discriminate].
    destruct (truthy (regulator_name conn)) as [target|].
    - destruct (regulator_by_name sys target); intros [= <-]; [apply Hfound|].
      split; [reflexivity | exact Hnone].
    - destruct (truthy (sysfs_path conn)) as [path|];
        [destruct (path_exists sys path)|]; intros [= <-];
        try apply Hfound; (split; [reflexivity | exact Hnone]). }
  destruct (String.eqb type "sysfs_monitor") eqn:Emon.
  { apply String.eqb_eq in Emon.
    destruct (connection conf) as [conn|]; [simpl|discriminate].
    destruct (driver_match conn) as [driver|];
      [destruct (hwmon_matching sys _ driver) as [hwmon|]|]; intros [= <-];
      try (split; [reflexivity | exact Hnone]).
    repeat split; simpl; try discriminate.
    intros k p [-> _]%lookup_singleton_Some. right. auto. }
  intros [= <-]. split; [reflexivity | exact Hnone].
Qed.

(** X11. Every controller [_init_rail_controller] returns is well formed:
    it carries the rail's name, configuration and declared driver type; it
    holds a bus handle only for a [pmbus] or [raw_i2c] rail, for the bus the
    configuration names, and only when that bus opened; it holds a path only
    under ['microvolts'] on a regulator rail or under ['root'] on a monitor
    rail. *)
Theorem init_rail_controller_well_formed (name : string) (conf : RailConfig)
    (c : ctrl) :
  _init_rail_controller sys name conf = Some c ->
  c_conf c = conf /\ well_formed sys name c.
Proof. apply init_rail_controller_inv. Qed.

(** The loop over the rails keeps what holds of every controller. *)
Lemma init_rails_invariant (items : list (string * RailConfig))
    (P : string -> ctrl -> Prop) :
  (forall name conf c, (name, conf) ∈ items ->
     _init_rail_controller sys name conf = Some c -> P name c) ->
  forall rails rails',
    (forall name c, rails !! name = Some c -> P name c) ->
    init_rails sys items rails = Some rails' ->
    forall name c, rails' !! name = Some c -> P name c.
Proof.
  induction items as [|[r_name r_conf] rest IH]; intros Hinit rails rails' Hrails; simpl.
  - intros [= <-]. exact Hrails.
  - destruct (_init_rail_controller sys r_name r_conf) as [c0|] eqn:Hc0; [simpl|discriminate].
    apply IH.
    + intros name conf c Hin. apply Hinit. now right.
    + intros name c. destruct (decide (r_name = name)) as [->|Hne].
      * rewrite lookup_insert_eq. intros [= <-]. eapply Hinit; [left|exact Hc0].
      * rewrite lookup_insert_ne by exact Hne. apply Hrails.
Qed.

(** X12. In a HAL that [__init__] built, every rail is one the selected
    board declares, with the configuration declared for it, and its
    controller is well formed; the workloads are the document's, or none. *)
Theorem constructed_hal_well_formed (full_config : FullConfig) (hal : BoardHAL) :
  __init__ sys full_config = Some hal ->
  workloads hal = get (cfg_workloads full_config) ∅
  /\ exists board_name listed config items,
       selected_board full_config = Some board_name
       /\ boards full_config = Some listed
       /\ listed !! board_name = Some config
       /\ board_rails config = Some items
       /\ forall name c, rails hal !! name = Some c ->
            (name, c_conf c) ∈ items /\ well_formed sys name c.
Proof.
  unfold __init__.
  destruct (truthy (selected_board full_config)) as [board_name|] eqn:Hname;
    [simpl|discriminate].
  destruct (boards full_config) as [listed|] eqn:Hlisted; [simpl|discriminate].
  destruct (listed !! board_name) as [config|] eqn:Hconfig; [simpl|discriminate].
  destruct (board_rails config) as [items|] eqn:Hitems; [simpl|discriminate].
  destruct (init_rails sys items ∅) as [rails'|] eqn:Hrails; [simpl|discriminate].
  intros [= <-]. split; [reflexivity|].
  exists board_name, listed, config, items.
  split.
  { unfold truthy in Hname.
    destruct (selected_board full_config) as [[|a s]|]; congruence. }
  split; [reflexivity|]. split; [exact Hconfig|]. split; [exact Hitems|].
  intros name c Hc. split; revert name c Hc.
  - apply (init_rails_invariant items
             (fun name c => (name, c_conf c) ∈ items)) with (rails := ∅);
      [|intros ? ?; rewrite lookup_empty; discriminate|exact Hrails].
    intros name conf c Hin Hc.
    apply init_rail_controller_inv in Hc as [Hc _]. now rewrite Hc.
  - apply (init_rails_invariant items (well_formed sys)) with (rails := ∅);
      [|intros ? ?; rewrite lookup_empty; discriminate|exact Hrails].
    intros name conf c _ Hc. now apply init_rail_controller_inv in Hc as [_ Hc].
Qed.

End Constructed.

Lemma init_rail_controller_well_formed_witness :
  IterationFour.c_conf
    (IterationFour.mkCtrl "VCCINT" Demo.vccint_conf "pmbus" (Some 4) ∅)
  = Demo.vccint_conf
  /\ Construction.well_formed Bench.lab "VCCINT"
       (IterationFour.mkCtrl "VCCINT" Demo.vccint_conf "pmbus" (Some 4) ∅).
Proof.
  apply (init_rail_controller_well_formed Bench.lab "VCCINT" Demo.vccint_conf).
  reflexivity.
Defined.

Lemma constructed_hal_well_formed_witness :
  exists hal,
    Construction.__init__ Bench.lab Construction.document = Some hal
    /\ IterationFour.workloads hal = {["SqueezeNet" := Demo.squeezenet]}.
Proof.
  eexists. split; [reflexivity|].
  apply (proj1 (constructed_hal_well_formed Bench.lab Construction.document _ eq_refl)).
Defined.

(** ** [set_voltage], iteration Three *)

Section ThreeWrites.
Import Config IO.
Variable hw : hardware.

Lemma three_set_voltage_try_inv (c : IterationThree.ctrl) (voltage_v : float)
    (log : list io_event) :
  let r := IterationThree.set_voltage_try hw c voltage_v log in
  (r.2 = log /\ r.1 <> Some true)
  \/ exists ev, r.2 = log ++ [ev]
                /\ Access.is_write ev = true
                /\ (r.1 = Some true -> hw_write hw log ev = true).
Proof.
  unfold IterationThree.set_voltage_try, IterationThree.write_bus,
    IterationThree.write_regulator, IterationThree.int16,
    bind, lift, ret, raise, write.
  cbv zeta.
  repeat (case_match; simplify_eq/=);
    first [ left; split; [reflexivity | discriminate]
          | right; eexists; split; [reflexivity|]; split; [reflexivity|];
            first [discriminate | intros _; assumption] ].
Qed.

(** X14. When iteration Three's [set_voltage] reports success, the rail is
    known and declared writable ([read_only] is present and false), the
    request was inside the limits, and the call made exactly one access: a
    write that the hardware accepted. *)
Theorem three_set_voltage_success (hal : IterationThree.BoardHAL)
    (rail_name : string) (voltage_v : float) (log log' : list io_event) :
  IterationThree.set_voltage hw hal rail_name voltage_v log = (true, log') ->
  exists (c : IterationThree.ctrl) (ev : io_event),
    IterationThree.rails hal !! rail_name = Some c
    /\ read_only (IterationThree.c_conf c) = Some false
    /\ IterationThree.within_limits (IterationThree.c_conf c) voltage_v = true
    /\ log' = log ++ [ev]
    /\ Access.is_write ev = true
    /\ hw_write hw log ev = true.
Proof.
  unfold IterationThree.set_voltage.
  destruct (IterationThree.rails hal !! rail_name) as [c|]; [|discriminate].
  destruct (read_only (IterationThree.c_conf c)) as [[]|] eqn:Hro; simpl; try discriminate.
  destruct (IterationThree.within_limits _ _) eqn:Hlim; [simpl|discriminate].
  unfold try_except.
  destruct (three_set_voltage_try_inv c voltage_v log) as [[Hlog Hno] | (ev & Hlog & Hw & Hok)];
    cbv zeta in *;
    destruct (IterationThree.set_voltage_try hw c voltage_v log) as [[[]|] log1];
    simpl in *; intros [= <-]; try congruence.
  exists c, ev. repeat split; auto.
Qed.

(** X15. Whatever the rail and the hardware, iteration Three's
    [set_voltage] makes at most one access, and that access is a write:
    it never reads the bus or a file. *)
Theorem three_set_voltage_only_writes (hal : IterationThree.BoardHAL)
    (rail_name : string) (voltage_v : float) (log : list io_event) :
  exists evs : list io_event,
    (IterationThree.set_voltage hw hal rail_name voltage_v log).2 = log ++ evs
    /\ forallb Access.is_write evs = true
    /\ (length evs <= 1)%nat.
Proof.
  unfold IterationThree.set_voltage.
  destruct (IterationThree.rails hal !! rail_name) as [c|];
    [|exists []; simpl; rewrite app_nil_r; repeat split; lia].
  destruct (get (read_only _) true);
    [exists []; simpl; rewrite app_nil_r; repeat split; lia|].
  destruct (negb _);
    [exists []; simpl; rewrite app_nil_r; repeat split; lia|].
  unfold try_except.
  destruct (three_set_voltage_try_inv c voltage_v log) as [[Hlog _] | (ev & Hlog & Hw & _)];
    cbv zeta in *;
    destruct (IterationThree.set_voltage_try hw c voltage_v log) as [[b|] log1];
    simpl in *; subst log1.
  1,2: exists []; simpl; rewrite app_nil_r; repeat split; lia.
  1,2: exists [ev]; simpl; rewrite Hw; repeat split; lia.
Qed.

End ThreeWrites.

Lemma three_set_voltage_success_witness :
  exists (c : IterationThree.ctrl) (ev : IO.io_event),
    IterationThree.rails Demo.board3 !! "VCCINT" = Some c
    /\ Config.read_only (IterationThree.c_conf c) = Some false
    /\ IterationThree.within_limits (IterationThree.c_conf c) 0.85%float = true
    /\ [IO.write_word_data 4 0x13 0x21 3481] = [] ++ [ev]
    /\ Access.is_write ev = true
    /\ IO.hw_write Demo.quiet [] ev = true.
Proof.
  apply (three_set_voltage_success Demo.quiet Demo.board3 "VCCINT" 0.85%float []).
  vm_compute. reflexivity.
Defined.

(** ** The sweep: what each step commands *)

Section Silent.
Import Config Flow Sweep Schedule.
#[local] Open Scope sweep_scope.

Lemma silent_ret {A : Type} (a : A) : silent (ret a).
Proof. intros st. now repeat split. Qed.

Lemma silent_raise {A : Type} (e : exn) : silent (@raise A e).
Proof. intros st. now repeat split. Qed.

Lemma silent_break {A : Type} : silent (@break A).
Proof. intros st. now repeat split. Qed.

Lemma silent_return {A : Type} : silent (@return_ A).
Proof. intros st. now repeat split. Qed.

Lemma silent_get_locals : silent get_locals.
Proof. intros st. now repeat split. Qed.

Lemma silent_emit (ev : event) : is_quiet ev = true -> silent (emit ev).
Proof.
  intros Hev st. unfold emit, set_voltage_calls, step_numbers. simpl.
  rewrite !omap_app. simpl.
  destruct ev as [[]| | | | |]; try discriminate; simpl; rewrite ?app_nil_r;
    now repeat split.
Qed.

Lemma silent_set_accuracy_found (a : float) : silent (set_accuracy_found a).
Proof. intros st. now repeat split. Qed.

Lemma silent_set_status (s : string) : silent (set_status s).
Proof. intros st. now repeat split. Qed.

Lemma silent_set_duration (d : float) : silent (set_duration d).
Proof. intros st. now repeat split. Qed.

Lemma silent_set_log_data (l : list row) : silent (set_log_data l).
Proof. intros st. now repeat split. Qed.

Lemma silent_key {A : Type} (name : string) (field : option A) :
  silent (key name field).
Proof. destruct field; intros st; now repeat split. Qed.

Lemma silent_local {A : Type} (name : string) (var : locals -> option A) :
  silent (local name var).
Proof. intros st. unfold local. destruct (var st); now repeat split. Qed.

Lemma silent_bind {A B : Type} (c : M A) (k : A -> M B) :
  silent c -> (forall a, silent (k a)) -> silent (bind c k).
Proof.
  intros Hc Hk st. unfold bind. destruct (Hc st) as (H1 & H2 & H3 & H4).
  destruct (c st) as [[a| | |e|] st1]; simpl in *; try (now repeat split).
  destruct (Hk a st1) as (K1 & K2 & K3 & K4).
  repeat split; congruence.
Qed.

Lemma silent_try_except {A : Type} (body : M A) (caught : exn -> bool)
    (handler : M A) :
  silent body -> silent handler -> silent (try_except body caught handler).
Proof.
  intros Hb Hh st. unfold try_except. destruct (Hb st) as (H1 & H2 & H3 & H4).
  destruct (body st) as [[a| | |e|] st1]; simpl in *; try (now repeat split).
  destruct (caught e); simpl; [|now repeat split].
  destruct (Hh st1) as (K1 & K2 & K3 & K4). repeat split; congruence.
Qed.

Lemma silent_try_finally {A : Type} (body : M A) (final : M unit) :
  silent body -> silent final -> silent (try_finally body final).
Proof.
  intros Hb Hf st. unfold try_finally. destruct (Hb st) as (H1 & H2 & H3 & H4).
  destruct (body st) as [[a| | |e|] st1]; simpl in *; try (now repeat split).
  all: destruct (Hf st1) as (K1 & K2 & K3 & K4);
    destruct (final st1) as [[[]| | |e'|] st2]; simpl in *;
    repeat split; congruence.
Qed.

End Silent.

Create HintDb silent discriminated.
#[local] Hint Resolve silent_ret silent_raise silent_break silent_return
  silent_get_locals silent_set_accuracy_found silent_set_status
  silent_set_duration silent_set_log_data silent_key silent_local : silent.

Ltac silent_cases :=
  repeat first
    [ progress auto with silent
    | apply silent_emit; reflexivity
    | apply silent_bind; [|intros ?]
    | apply silent_try_except
    | apply silent_try_finally
    | match goal with
      | |- Schedule.silent (if ?b then _ else _) => destruct b
      | |- Schedule.silent (match ?x with _ => _ end) => destruct x
      end ].

Section SweepSchedule.
Import Config Flow Sweep Schedule.
#[local] Open Scope sweep_scope.
Variables (w : world) (job : WorkloadJob) (workload_name rail full_cmd : string).
Variables (nominal_v min_v coarse_step : float).

Lemma silent_settle (sw : step_world) : silent (settle sw).
Proof. unfold settle. silent_cases. Qed.

Lemma silent_run_model (sw : step_world) : silent (run_model job full_cmd sw).
Proof. unfold run_model. silent_cases. Qed.

Lemma silent_persist (sw : step_world) : silent (persist workload_name sw).
Proof. unfold persist, _save_csv, update_master_summary. silent_cases. Qed.

Lemma steps_down_bind {A B : Type} (c : M A) (k : A -> M B) :
  silent c -> (forall a, steps_down min_v coarse_step (k a)) ->
  steps_down min_v coarse_step (bind c k).
Proof.
  intros Hc Hk st. unfold bind. destruct (Hc st) as (H1 & H2 & H3 & H4).
  destruct (c st) as [[a| | |e|] st1]; simpl in *;
    try (split; [assumption | split; [assumption | intros ? ?; discriminate]]).
  destruct (Hk a st1) as (K1 & K2 & K3).
  split; [congruence | split; [congruence|]].
  intros b Hb. destruct (K3 b Hb) as [K4 K5]. split; congruence.
Qed.

Lemma steps_down_step_down : steps_down min_v coarse_step (step_down min_v coarse_step).
Proof.
  intros st. unfold step_down, bind, get_locals, emit, set_current_v,
    set_step_count, break, ret, set_voltage_calls, step_numbers. simpl.
  destruct (current_v st <=? fine_threshold min_v)%float; simpl;
    destruct (500 <? step_count st + 1); simpl;
    rewrite ?omap_app; simpl; rewrite ?app_nil_r;
    (split; [reflexivity | split; [reflexivity|]]);
    intros a Ha; try discriminate; split; reflexivity.
Qed.

(** A step from its banner on: one [set_voltage] call, then the rest of the
    step unless the write failed. *)
Lemma step_shape (sw : step_world) (n : Z) (v : float) (rest : M unit) :
  steps_down min_v coarse_step rest ->
  forall st, current_v st = v -> step_count st = n ->
  let r := (emit (Print (StepBanner n v)) ;;
            set_accuracy_found 0 ;;
            ok <- hal_set_voltage sw rail v ;;
            if negb ok then emit (Print AbortingSweep) ;; break else rest) st in
  set_voltage_calls (trace r.2) = set_voltage_calls (trace st) ++ [(rail, v)]
  /\ step_numbers (trace r.2) = step_numbers (trace st) ++ [n]
  /\ (r.1 = Normal tt ->
      current_v r.2 = next_voltage min_v coarse_step v
      /\ step_count r.2 = step_count st + 1).
Proof.
  intros Hrest st Hv Hn.
  unfold hal_set_voltage, bind, get_locals, emit, set_accuracy_found, ret, raise,
    break. cbv zeta. cbn [fst snd].
  destruct (bool_decide (interrupt sw = Some at_set_voltage)); cbn.
  { unfold set_voltage_calls, step_numbers. rewrite !omap_app. simpl.
    rewrite !app_nil_r. split; [reflexivity | split; [reflexivity | discriminate]]. }
  destruct (set_ok sw); cbn.
  - match goal with |- context [rest ?s] => destruct (Hrest s) as (R1 & R2 & R3) end.
    cbn in R1, R2, R3. rewrite R1, R2.
    unfold set_voltage_calls, step_numbers. rewrite !omap_app. simpl.
    rewrite !app_nil_r. split; [reflexivity | split; [reflexivity|]].
    intros Hnormal. destruct (R3 tt Hnormal) as [R4 R5]. split; congruence.
  - unfold set_voltage_calls, step_numbers. rewrite !omap_app. simpl.
    rewrite !app_nil_r. split; [reflexivity | split; [reflexivity | discriminate]].
Qed.

(** One iteration makes one [set_voltage] call, with the voltage the
    iteration began at, under one banner; when it ends normally the voltage
    has been stepped down once and the step counted. *)
Lemma loop_body_step (st : locals) :
  let r := loop_body w job workload_name rail full_cmd min_v coarse_step st in
  set_voltage_calls (trace r.2) = set_voltage_calls (trace st) ++ [(rail, current_v st)]
  /\ step_numbers (trace r.2) = step_numbers (trace st) ++ [step_count st]
  /\ (r.1 = Normal tt ->
      current_v r.2 = next_voltage min_v coarse_step (current_v st)
      /\ step_count r.2 = step_count st + 1).
Proof.
  apply (step_shape (steps w (step_count st)) (step_count st) (current_v st));
    [|reflexivity|reflexivity].
  apply steps_down_bind; [apply silent_settle|]. intros _.
  apply steps_down_bind; [auto with silent|]. intros _.
  apply steps_down_bind; [|intros _; apply steps_down_step_down].
  apply silent_try_finally; [|apply silent_persist].
  apply silent_try_except; [apply silent_run_model|]. silent_cases.
Qed.

(** The loop from step [k] on: it runs some [n] steps, at most its fuel,
    and commands the voltages of the steps [k .. k + n - 1] of the schedule. *)
Lemma while_schedule (fuel : nat) :
  forall (k : nat) (st : locals),
    current_v st = voltage_at nominal_v min_v coarse_step k ->
    step_count st = Z.of_nat k ->
    let r := while fuel (loop_condition min_v)
               (loop_body w job workload_name rail full_cmd min_v coarse_step) st in
    exists n : nat,
      (n <= fuel)%nat
      /\ set_voltage_calls (trace r.2)
         = set_voltage_calls (trace st) ++ scheduled rail nominal_v min_v coarse_step k n
      /\ step_numbers (trace r.2) = step_numbers (trace st) ++ map Z.of_nat (seq k n).
Proof.
  induction fuel as [|fuel IH]; intros k st Hv Hk; cbv zeta.
  { exists 0%nat. unfold scheduled. simpl. rewrite !app_nil_r.
    split; [lia | split; reflexivity]. }
  cbn [while].
  destruct (loop_condition min_v st);
    [|exists 0%nat; unfold scheduled; simpl; rewrite !app_nil_r;
      split; [lia | split; reflexivity]].
  destruct (loop_body_step st) as (Hcalls & Hnums & Hnext). cbv zeta in *.
  rewrite Hv in Hcalls. rewrite Hk in Hnums.
  destruct (loop_body w job workload_name rail full_cmd min_v coarse_step st)
    as [[[]| | |e|] st1]; cbn [fst snd] in *.
  2-5: exists 1%nat; (split; [lia|]); split; assumption.
  destruct (Hnext eq_refl) as [Hv1 Hk1].
  destruct (IH (S k) st1) as (n & Hn & Hc & Hs).
  { rewrite Hv1, Hv. reflexivity. }
  { rewrite Hk1, Hk. lia. }
  cbv zeta in *. exists (S n). split; [lia|].
  rewrite Hc, Hs, Hcalls, Hnums, <- !app_assoc. split; reflexivity.
Qed.

(** The guarded loop commands a prefix of the schedule, at most 501 steps of
    it, and then the nominal voltage. *)
Lemma guarded_sweep_schedule (st : locals) :
  let r := guarded_sweep w job workload_name rail full_cmd nominal_v min_v
             coarse_step st in
  exists n : nat,
    (n <= 501)%nat
    /\ set_voltage_calls (trace r.2)
       = set_voltage_calls (trace st)
         ++ scheduled rail nominal_v min_v coarse_step 0 n ++ [(rail, nominal_v)]
    /\ step_numbers (trace r.2) = step_numbers (trace st) ++ map Z.of_nat (seq 0 n).
Proof.
  cbv zeta.
  set (st0 := mkLocals nominal_v 0 (accuracy_found st) (status st) (duration st)
                (log_data st) (trace st)).
  destruct (while_schedule (fuel_for 0) 0 st0 eq_refl eq_refl) as (n & Hn & Hc & Hs).
  destruct (sweep_loop_completes w job workload_name rail full_cmd nominal_v min_v
              coarse_step st) as [Hfuel _].
  cbv zeta in *. exists n. split; [exact Hn|].
  unfold guarded_sweep, try_finally, try_except.
  change (sweep_loop w job workload_name rail full_cmd nominal_v min_v coarse_step st)
    with (while (fuel_for 0) (loop_condition min_v)
            (loop_body w job workload_name rail full_cmd min_v coarse_step) st0) in *.
  destruct (while (fuel_for 0) (loop_condition min_v)
              (loop_body w job workload_name rail full_cmd min_v coarse_step) st0)
    as [[[]| | |[]|] st1]; cbn [fst snd] in *; try (now destruct Hfuel);
    unfold reset, bind, emit, set_voltage_calls, step_numbers in *; cbn;
    rewrite ?omap_app; cbn; rewrite ?app_nil_r;
    unfold set_voltage_calls, step_numbers in Hc, Hs; rewrite Hc, Hs;
    rewrite <- ?app_assoc; split; reflexivity.
Qed.

End SweepSchedule.

(** ** The step-size policy in the loop *)

Section StepPolicy.
Import Config Flow Sweep.
Variables (w : world) (job : WorkloadJob) (workload_name rail full_cmd : string).

(** What [step_down] leaves behind: the voltage less the step it chose, the
    fine-mode message when it chose the fine step, and the cap's message
    when the counter passed 500. *)
Lemma step_down_result (min_v coarse_step : float) (st : locals) :
  let r := step_down min_v coarse_step st in
  current_v r.2 = next_voltage min_v coarse_step (current_v st)
  /\ trace r.2
     = trace st
       ++ (if (current_v st <=? fine_threshold min_v)%float
           then [Print FineModeActive] else [])
       ++ (if 500 <? step_count st + 1 then [Print SafetyLimitReached] else []).
Proof.
  cbv zeta. unfold step_down, bind, get_locals, emit, set_current_v,
    set_step_count, break, ret. simpl.
  destruct (current_v st <=? fine_threshold min_v)%float; simpl;
    destruct (500 <? step_count st + 1); simpl;
    rewrite <- ?app_assoc, ?app_nil_r; split; reflexivity.
Qed.

(** C8. In the sweep with a minimum of 0.55 V and a coarse step of 0.01 V
    (the one that starts from 0.85 V), the end of a step taken at 0.58 V
    lowers the voltage by the coarse step, to 0.57 V, and prints no fine-mode
    message; the end of a step taken at a voltage at or below the threshold
    [0.55 + 0.02], and so at any voltage at or below 0.57 V, announces fine
    mode and lowers the voltage by exactly 0.001 V.  This is what [step_down]
    does, and what every iteration of the loop that ends normally has done
    to the voltage. *)
Theorem step_size_policy (st : locals) :
  let min_v := 0.55%float in
  let coarse_step := 0.01%float in
  let stepped := step_down min_v coarse_step st in
  let iterated := loop_body w job workload_name rail full_cmd min_v coarse_step st in
  let capped := if 500 <? step_count st + 1 then [Print SafetyLimitReached] else [] in
  (current_v st = 0.58%float ->
     current_v stepped.2 = 0.57%float
     /\ trace stepped.2 = trace st ++ capped
     /\ (iterated.1 = Normal tt -> current_v iterated.2 = 0.57%float))
  /\ ((current_v st <=? fine_threshold min_v)%float = true
      \/ (current_v st <=? 0.57)%float = true ->
      current_v stepped.2 = (current_v st - 0.001)%float
      /\ trace stepped.2 = trace st ++ Print FineModeActive :: capped
      /\ (iterated.1 = Normal tt ->
          current_v iterated.2 = (current_v st - 0.001)%float)).
Proof.
  intros min_v coarse_step stepped iterated capped.
  destruct (step_down_result min_v coarse_step st) as [Hv Htrace].
  destruct (loop_body_step w job workload_name rail full_cmd min_v coarse_step st)
    as (_ & _ & Hbody).
  cbv zeta in Hv, Htrace, Hbody. fold stepped in Hv, Htrace. fold iterated in Hbody.
  fold capped in Htrace.
  split.
  - intros H58. rewrite H58 in Hv, Htrace, Hbody.
    assert (Hnext : next_voltage min_v coarse_step 0.58 = 0.57%float)
      by (vm_compute; reflexivity).
    assert (Hcoarse : (0.58 <=? fine_threshold min_v)%float = false)
      by (vm_compute; reflexivity).
    rewrite Hnext in Hv, Hbody. rewrite Hcoarse in Htrace.
    split; [exact Hv|]. split; [exact Htrace|].
    intros Hn. apply (Hbody Hn).
  - intros Hfine.
    assert (Hthr : (current_v st <=? fine_threshold min_v)%float = true).
    { destruct Hfine as [H|H]; [exact H|]. now apply below_057_below_threshold. }
    assert (Hnext : next_voltage min_v coarse_step (current_v st)
                    = (current_v st - 0.001)%float).
    { unfold next_voltage, current_step. now rewrite Hthr. }
    rewrite Hnext in Hv, Hbody. rewrite Hthr in Htrace.
    split; [exact Hv|]. split; [exact Htrace|].
    intros Hn. apply (Hbody Hn).
Qed.

End StepPolicy.

Lemma step_size_policy_witness :
  let at_057 := Flow.mkLocals 0.57 28 0 (Some "SUCCESS") (Some 12.5%float) [] [] in
  let at_058 := Flow.mkLocals 0.58 27 0 (Some "SUCCESS") (Some 12.5%float) [] [] in
  let iterate := Sweep.loop_body Demo.calm Demo.squeezenet "SqueezeNet" "VCCINT"
                   "./run.sh squeezenet" 0.55 0.01 in
  ((iterate at_058).1 = Flow.Normal tt
   /\ Flow.current_v (iterate at_058).2 = 0.57%float)
  /\ ((iterate at_057).1 = Flow.Normal tt
      /\ Flow.current_v (iterate at_057).2 = (0.57 - 0.001)%float).
Proof.
  cbv zeta. split; (split; [vm_compute; reflexivity|]).
  - apply (proj1 (step_size_policy Demo.calm Demo.squeezenet "SqueezeNet" "VCCINT"
                    "./run.sh squeezenet"
                    (Flow.mkLocals 0.58 27 0 (Some "SUCCESS") (Some 12.5%float) [] []))
             eq_refl).
    vm_compute. reflexivity.
  - apply (proj2 (step_size_policy Demo.calm Demo.squeezenet "SqueezeNet" "VCCINT"
                    "./run.sh squeezenet"
                    (Flow.mkLocals 0.57 28 0 (Some "SUCCESS") (Some 12.5%float) [] []))
             (or_intror eq_refl)).
    vm_compute. reflexivity.
Defined.

(** X16. The [set_voltage] calls of a whole run of [run_workload_sweep]:
    either the run ends before the loop and makes none, or it commands, on
    the job's rail, the first [n] voltages of the schedule that starts at
    the nominal voltage - at most 501 of them, under the step numbers
    [0 .. n - 1] - and then the nominal voltage again.  No other rail and no
    other voltage is ever commanded, whatever the workload, the writes and
    the interrupts do. *)
Theorem run_workload_sweep_calls (hal : IterationFour.BoardHAL) (w : Sweep.world)
    (workload_name : string) (steps : Z) (step_size_v : float) (st : Flow.locals) :
  let r := Sweep.run_workload_sweep hal w workload_name steps step_size_v st in
  (Sweep.set_voltage_calls (Flow.trace r.2) = Sweep.set_voltage_calls (Flow.trace st)
   /\ Sweep.step_numbers (Flow.trace r.2) = Sweep.step_numbers (Flow.trace st))
  \/ exists (job : Config.WorkloadJob) (c : IterationFour.ctrl) (lim : Config.Limits)
            (n : nat),
       IterationFour.workloads hal !! workload_name = Some job
       /\ IterationFour.rails hal !! Config.get (Config.target_rail job) "VCCINT" = Some c
       /\ Config.limits (IterationFour.c_conf c) = Some lim
       /\ (n <= 501)%nat
       /\ let rail := Config.get (Config.target_rail job) "VCCINT" in
          let nominal_v :=
            Config.get (Config.nominal_voltage job)
              (Config.get (Config.lim_nominal lim) 0.85%float) in
          let min_v := Config.get (Config.lim_min lim) 0.55%float in
          Sweep.set_voltage_calls (Flow.trace r.2)
          = Sweep.set_voltage_calls (Flow.trace st)
            ++ Schedule.scheduled rail nominal_v min_v step_size_v 0 n
            ++ [(rail, nominal_v)]
          /\ Sweep.step_numbers (Flow.trace r.2)
             = Sweep.step_numbers (Flow.trace st) ++ map Z.of_nat (seq 0 n).
Proof.
  cbv zeta.
  unfold Sweep.run_workload_sweep, Sweep.nominal_of, Sweep.warm_up, Flow.key,
    Flow.bind, Flow.emit, Flow.return_, Flow.raise, Flow.ret.
  destruct (IterationFour.workloads hal !! workload_name) as [job|] eqn:Hjob; cbn;
    [|left; unfold Sweep.set_voltage_calls, Sweep.step_numbers;
      rewrite !omap_app; cbn; rewrite !app_nil_r; split; reflexivity].
  destruct (IterationFour.rails hal !! Config.get (Config.target_rail job) "VCCINT")
    as [c|] eqn:Hc;
    [destruct (Config.limits (IterationFour.c_conf c)) as [lim|] eqn:Hlim|];
    destruct (Config.nominal_voltage job) as [v|] eqn:Hnom;
    destruct (Config.executable job), (Config.args job), (Config.cwd job),
      (Sweep.warmup w); cbn;
    try (left; unfold Sweep.set_voltage_calls, Sweep.step_numbers;
         rewrite ?omap_app; cbn; rewrite ?app_nil_r; split; reflexivity).
  all: right; exists job, c, lim.
  all: match goal with
       | |- context [Sweep.guarded_sweep ?w ?j ?wn ?rl ?cmd ?nom ?mn ?sz ?s] =>
           destruct (guarded_sweep_schedule w j wn rl cmd nom mn sz s)
             as (n & Hn & Hcalls & Hnums)
       end.
  all: cbv zeta in *; exists n; rewrite Hnom;
       repeat (split; [first [reflexivity | assumption]|]).
  all: rewrite Hcalls, Hnums; unfold Sweep.set_voltage_calls, Sweep.step_numbers;
       cbn; rewrite !omap_app; cbn; rewrite !app_nil_r; split; reflexivity.
Qed.

(** X17. As long as each call it makes comes back - [set_voltage], the
    warm-up and the workload process return or raise, which is all a world
    of the model can do - a call of [run_workload_sweep] ends as a call does:
    it falls off its end, returns early, or raises.  The loop cannot go on
    for ever, since the step counter stops it, and no [break] leaves the
    function.  A workload that never exits is outside the model:
    [subprocess.run] is called without a timeout, and such a run blocks the
    sweep. *)
Theorem run_workload_sweep_ends (hal : IterationFour.BoardHAL) (w : Sweep.world)
    (workload_name : string) (steps : Z) (step_size_v : float) (st : Flow.locals) :
  let r := Sweep.run_workload_sweep hal w workload_name steps step_size_v st in
  r.1 = Flow.Normal tt \/ r.1 = Flow.Return \/ exists e, r.1 = Flow.Raise e.
Proof.
  cbv zeta.
  unfold Sweep.run_workload_sweep, Sweep.nominal_of, Sweep.warm_up, Flow.key,
    Flow.bind, Flow.emit, Flow.return_, Flow.raise, Flow.ret.
  destruct (IterationFour.workloads hal !! workload_name) as [job|]; cbn; [|auto].
  destruct (IterationFour.rails hal !! Config.get (Config.target_rail job) "VCCINT")
    as [c|];
    [destruct (Config.limits (IterationFour.c_conf c)) as [lim|]|];
    destruct (Config.nominal_voltage job) as [v|];
    destruct (Config.executable job), (Config.args job), (Config.cwd job),
      (Sweep.warmup w); cbn; eauto.
  all: unfold Sweep.guarded_sweep, Flow.try_finally, Flow.try_except.
  all: match goal with
       | |- context [Sweep.sweep_loop ?w ?j ?wn ?rl ?cmd ?nom ?mn ?sz ?s] =>
           destruct (sweep_loop_completes w j wn rl cmd nom mn sz s) as [Hfuel Hbreak];
           destruct (Sweep.sweep_loop w j wn rl cmd nom mn sz s) as [[[]| | |[]|] st1]
       end; cbn in *; eauto; congruence.
Qed.

(** ** Steps that do not succeed *)

Section FailedSteps.
Import Config Flow Sweep.
Variables (w : world) (job : WorkloadJob) (workload_name rail full_cmd : string).
Variables (min_v coarse_step : float).

Ltac run_step :=
  unfold loop_body, hal_set_voltage, settle, run_model, persist, step_down,
    _save_csv, update_master_summary, try_finally, try_except, local, key,
    bind, get_locals, emit, set_current_v, set_step_count,
    set_accuracy_found, set_status, set_duration, set_log_data, ret, raise,
    break;
  cbn [step_count current_v accuracy_found status duration log_data trace fst snd].

Ltac no_interrupt :=
  repeat match goal with
         | |- context [bool_decide (None = Some ?p)] =>
             rewrite (bool_decide_eq_false_2 (None = Some p)) by discriminate
         end.

(** X18. A voltage write that fails ends the loop at once: the step's
    workload is not run, nothing is saved, the voltage is not lowered any
    further, and the loop ends normally, so that the reset follows. *)
Theorem write_failure_ends_loop (fuel : nat) (st : locals) :
  loop_condition min_v st = true ->
  set_ok (steps w (step_count st)) = false ->
  interrupt (steps w (step_count st)) <> Some at_set_voltage ->
  while (S fuel) (loop_condition min_v)
    (loop_body w job workload_name rail full_cmd min_v coarse_step) st
  = (Normal tt,
     mkLocals (current_v st) (step_count st) 0 (status st) (duration st)
       (log_data st)
       (trace st ++ [Print (StepBanner (step_count st) (current_v st));
                     SetVoltage rail (current_v st);
                     Print AbortingSweep])).
Proof.
  intros Hcond Hset Hint. cbn [while]. rewrite Hcond.
  run_step. rewrite Hset. rewrite bool_decide_eq_false_2 by exact Hint.
  cbn. now rewrite <- !app_assoc.
Qed.

(** X19. A step whose workload cannot be started (the call raises), or
    during whose run Ctrl-C arrives, still goes through the inner [finally].
    With [status] or [duration] never assigned, the summary call raises
    [UnboundLocalError], which replaces the [break] or the interrupt and
    leaves no summary row; otherwise the row is written with the status an
    earlier step left behind, and the step ends by [break], or with the
    interrupt. *)
Theorem failed_run_outcome (st : locals) :
  set_ok (steps w (step_count st)) = true ->
  (interrupt (steps w (step_count st)) = None /\ run (steps w (step_count st)) = Failed)
  \/ interrupt (steps w (step_count st)) = Some at_run ->
  let r := loop_body w job workload_name rail full_cmd min_v coarse_step st in
  current_v r.2 = current_v st
  /\ match status st, duration st with
     | Some s, Some d =>
         r.1 = (if bool_decide (interrupt (steps w (step_count st)) = Some at_run)
                then Raise KeyboardInterrupt else Break)
         /\ summary_statuses (trace r.2) = summary_statuses (trace st) ++ [(current_v st, s)]
     | Some s, None =>
         r.1 = Raise (UnboundLocalError "duration")
         /\ summary_statuses (trace r.2) = summary_statuses (trace st)
     | None, _ =>
         r.1 = Raise (UnboundLocalError "status")
         /\ summary_statuses (trace r.2) = summary_statuses (trace st)
     end.
Proof.
  intros Hset Hrun. cbv zeta. run_step. rewrite Hset.
  destruct Hrun as [[Hint Hrun] | Hint]; rewrite Hint; [rewrite Hrun|].
  all: no_interrupt;
    repeat match goal with
           | |- context [bool_decide (Some ?p = Some ?q)] =>
               first [ rewrite (bool_decide_eq_true_2 (Some p = Some q)) by reflexivity
                     | rewrite (bool_decide_eq_false_2 (Some p = Some q)) by discriminate ]
           end;
    cbn [negb is_Exception fst snd step_count current_v accuracy_found status
           duration log_data trace].
  all: match goal with |- context [annotate ?a ?l] => destruct (annotate a l) end;
    cbn [fst snd step_count current_v accuracy_found status duration log_data trace].
  all: destruct (status st) as [s|], (duration st) as [d|];
    cbn [fst snd step_count current_v accuracy_found status duration log_data trace].
  all: split; [reflexivity|]; split; [reflexivity|].
  all: unfold summary_statuses; rewrite !omap_app; cbn [omap];
    rewrite ?app_nil_r; reflexivity.
Qed.

End FailedSteps.

Lemma write_failure_ends_loop_witness :
  let st := Flow.mkLocals 0.85 0 0 None None [] [] in
  Flow.while 1 (Sweep.loop_condition 0.55)
    (Sweep.loop_body (Demo.write_fails_at 0) Demo.squeezenet "SqueezeNet" "VCCINT"
       "./run.sh squeezenet" 0.55 0.01) st
  = (Flow.Normal tt,
     Flow.mkLocals 0.85 0 0 None None []
       [Flow.Print (Flow.StepBanner 0 0.85); Flow.SetVoltage "VCCINT" 0.85;
        Flow.Print Flow.AbortingSweep]).
Proof.
  apply (write_failure_ends_loop (Demo.write_fails_at 0) Demo.squeezenet "SqueezeNet"
           "VCCINT" "./run.sh squeezenet" 0.55 0.01 0
           (Flow.mkLocals 0.85 0 0 None None [] [])).
  - vm_compute. reflexivity.
  - reflexivity.
  - discriminate.
Defined.

Lemma failed_run_outcome_witness :
  let st := Flow.mkLocals 0.85 0 0 None None [] [] in
  let r := Sweep.loop_body (Demo.interrupted_at 0) Demo.squeezenet "SqueezeNet"
             "VCCINT" "./run.sh squeezenet" 0.55 0.01 st in
  r.1 = Flow.Raise (Flow.UnboundLocalError "status").
Proof.
  cbv zeta.
  apply (proj2 (failed_run_outcome (Demo.interrupted_at 0) Demo.squeezenet "SqueezeNet"
                  "VCCINT" "./run.sh squeezenet" 0.55 0.01
                  (Flow.mkLocals 0.85 0 0 None None [] []) eq_refl
                  (or_intror eq_refl))).
Defined.

(** ** The sampler thread *)

Section SamplerReads.
Import IO.
Variables (hw : hardware) (hal : IterationFour.BoardHAL) (rail_name : string).

Lemma read_telemetry_step (log : list io_event) :
  exists evs : list io_event,
    (IterationFour.read_telemetry hw hal rail_name log).2 = log ++ evs
    /\ forallb Access.is_read evs = true
    /\ (length evs <= 3)%nat.
Proof.
  unfold IterationFour.read_telemetry.
  destruct (IterationFour.rails hal !! rail_name) as [c|].
  - destruct (touches_read_telemetry_try hw c log) as (evs & Hlog & Hkind & Hlen).
    exists evs. unfold try_except, bind, ret.
    destruct (IterationFour.read_telemetry_try hw c log) as [[s|] log1];
      simpl in *; auto.
  - exists []. simpl. rewrite app_nil_r. repeat split. lia.
Qed.

(** X20. The sampler only reads: over any number of iterations it makes at
    most three accesses for each, all of them reads, and never a write.
    It keeps the rows already logged and appends at most one row for each
    iteration, stamped with clock readings in the order they were taken and
    carrying no accuracy yet. *)
Theorem monitor_loop_only_reads (ticks : list float) :
  forall (log_data : list Flow.row) (log : list io_event),
  exists (rows : list Flow.row) (evs : list io_event),
    Sampler._monitor_loop hw hal rail_name ticks log_data log
    = (log_data ++ rows, log ++ evs)
    /\ forallb Access.is_read evs = true
    /\ (length evs <= 3 * length ticks)%nat
    /\ map Flow.r_timestamp rows `sublist_of` ticks
    /\ Forall (fun r => Flow.r_accuracy r = None) rows.
Proof.
  induction ticks as [|now later IH]; intros log_data log; simpl.
  { exists [], []. rewrite !app_nil_r.
    split; [reflexivity|]. split; [reflexivity|]. split; [simpl; lia|].
    split; constructor. }
  destruct (read_telemetry_step log) as (evs1 & Hlog & Hkind & Hlen).
  destruct (IterationFour.read_telemetry hw hal rail_name log) as [[data|] log1];
    simpl in Hlog; subst log1.
  - destruct (IH (log_data ++ [Flow.mkRow data now None]) (log ++ evs1))
      as (rows & evs & Hrun & Hk & Hl & Hsub & Hacc).
    exists (Flow.mkRow data now None :: rows), (evs1 ++ evs).
    rewrite Hrun, <- !app_assoc. split; [reflexivity|].
    rewrite forallb_app, Hkind, Hk, length_app. simpl.
    split; [reflexivity|]. split; [lia|].
    split; [now apply sublist_skip | now constructor].
  - destruct (IH log_data (log ++ evs1)) as (rows & evs & Hrun & Hk & Hl & Hsub & Hacc).
    exists rows, (evs1 ++ evs).
    rewrite Hrun, <- !app_assoc. split; [reflexivity|].
    rewrite forallb_app, Hkind, Hk, length_app.
    split; [reflexivity|]. split; [lia|].
    split; [now apply sublist_cons | exact Hacc].
Qed.

(** X21. On a rail the HAL cannot read - a [raw_i2c] rail, or one whose
    handle is absent - the sampler touches no hardware and logs, for every
    iteration, a row of zero voltage, current and power; on a rail the HAL
    does not know it logs nothing. *)
Theorem monitor_loop_without_handle (ticks : list float) (log_data : list Flow.row)
    (log : list io_event) :
  match IterationFour.rails hal !! rail_name with
  | Some c =>
      IterationFour.c_type c = "raw_i2c" \/ IterationFour.handle_absent c = true
  | None => True
  end ->
  Sampler._monitor_loop hw hal rail_name ticks log_data log
  = (log_data
     ++ match IterationFour.rails hal !! rail_name with
        | Some _ =>
            map (fun now => Flow.mkRow (IterationFour.mkSample 0 0 0) now None) ticks
        | None => []
        end,
     log).
Proof.
  intros Hno. revert log_data.
  induction ticks as [|now later IH]; intros log_data; simpl.
  { destruct (IterationFour.rails hal !! rail_name); now rewrite app_nil_r. }
  unfold IterationFour.read_telemetry.
  destruct (IterationFour.rails hal !! rail_name) as [c|] eqn:Hc.
  - unfold try_except, bind. rewrite (read_telemetry_try_default hw c log Hno).
    simpl. rewrite IH, <- app_assoc. reflexivity.
  - rewrite IH. reflexivity.
Qed.

End SamplerReads.

Lemma monitor_loop_without_handle_witness :
  Sampler._monitor_loop Demo.quiet Demo.board4 "VCORE" [1000; 1000.25]%float [] []
  = ([Flow.mkRow (IterationFour.mkSample 0 0 0) 1000 None;
      Flow.mkRow (IterationFour.mkSample 0 0 0) 1000.25 None], []).
Proof.
  apply (monitor_loop_without_handle Demo.quiet Demo.board4 "VCORE"
           [1000; 1000.25]%float [] []).
  left. reflexivity.
Defined.

(** ** The console monitor *)

Section MonitorReads.
Import IO.
Variables (hw : hardware) (hal : IterationFour.BoardHAL).

Lemma show_all_reads (configured : list string) :
  forall log : list io_event,
  exists evs : list io_event,
    (Monitor.show_all hw hal configured log).2 = log ++ evs
    /\ forallb Access.is_read evs = true
    /\ (length evs <= 3 * length configured)%nat.
Proof.
  induction configured as [|rail others IH]; intros log; simpl.
  { exists []. rewrite app_nil_r. split; [reflexivity|]. split; [reflexivity | simpl; lia]. }
  destruct (read_telemetry_step hw hal rail log) as (evs1 & Hlog & Hkind & Hlen).
  destruct (IterationFour.read_telemetry hw hal rail log) as [data log1].
  simpl in Hlog. subst log1.
  destruct (IH (log ++ evs1)) as (evs & Hrun & Hk & Hl).
  destruct (Monitor.show_all hw hal others (log ++ evs1)) as [lines log2].
  simpl in *. subst log2. exists (evs1 ++ evs).
  rewrite <- app_assoc, forallb_app, Hkind, Hk, length_app.
  split; [reflexivity|]. split; [reflexivity | lia].
Qed.

(** X22. The console monitor only reads: in either mode, one rail or all
    configured rails, and over any number of rounds, every hardware access
    it makes is a read, at most three for each rail shown in each round. *)
Theorem monitor_only_reads (configured : list string)
    (target_rail : option string) (rounds : nat) (log : list io_event) :
  exists evs : list io_event,
    (Monitor.monitor_loop hw hal configured target_rail rounds log).2 = log ++ evs
    /\ forallb Access.is_read evs = true
    /\ (length evs <= rounds * (3 + 3 * length configured))%nat.
Proof.
  unfold Monitor.monitor_loop.
  assert (H : exists evs : list io_event,
             (Monitor.rounds_of hw hal configured target_rail rounds log).2 = log ++ evs
             /\ forallb Access.is_read evs = true
             /\ (length evs <= rounds * (3 + 3 * length configured))%nat).
  { revert log. induction rounds as [|rounds' IH]; intros log; simpl.
    { exists []. rewrite app_nil_r. split; [reflexivity|]. split; [reflexivity | simpl; lia]. }
    destruct (IterationFour.truthy target_rail) as [rail|].
    - destruct (read_telemetry_step hw hal rail log) as (evs1 & Hlog & Hkind & Hlen).
      destruct (IterationFour.read_telemetry hw hal rail log) as [[s|] log1];
        simpl in Hlog; subst log1.
      + destruct (IH (log ++ evs1)) as (evs & Hrun & Hk & Hl).
        destruct (Monitor.rounds_of hw hal configured target_rail rounds' (log ++ evs1))
          as [[interrupted lines] log2].
        simpl in *. subst log2. exists (evs1 ++ evs).
        rewrite <- app_assoc, forallb_app, Hkind, Hk, length_app.
        split; [reflexivity|]. split; [reflexivity | lia].
      + exists evs1. simpl. split; [reflexivity|]. split; [exact Hkind | lia].
    - destruct (show_all_reads configured log) as (evs1 & Hlog & Hkind & Hlen).
      destruct (Monitor.show_all hw hal configured log) as [block log1].
      simpl in Hlog. subst log1.
      destruct (IH (log ++ evs1)) as (evs & Hrun & Hk & Hl).
      destruct (Monitor.rounds_of hw hal configured target_rail rounds' (log ++ evs1))
        as [[interrupted lines] log2].
      simpl in *. subst log2. exists (evs1 ++ evs).
      rewrite <- app_assoc, forallb_app, Hkind, Hk, length_app.
      split; [reflexivity|]. split; [reflexivity | lia]. }
  destruct H as (evs & Hrun & Hk & Hl).
  destruct (Monitor.rounds_of hw hal configured target_rail rounds log)
    as [[interrupted lines] log1].
  exists evs. auto.
Qed.

(** X23. Asked for a rail the HAL does not know, the monitor stops by
    itself in its first round: it prints the banner and that the rail is
    unavailable, touches no hardware, and never waits for Ctrl-C. *)
Theorem monitor_unknown_rail (configured : list string) (rail : string)
    (rounds : nat) (log : list io_event) :
  rail <> "" ->
  IterationFour.rails hal !! rail = None ->
  Monitor.monitor_loop hw hal configured (Some rail) (S rounds) log
  = ([Monitor.Banner; Monitor.Unavailable rail], log).
Proof.
  intros Hname Hrail. unfold Monitor.monitor_loop. simpl.
  destruct rail as [|a rest]; [congruence|]. simpl.
  unfold IterationFour.read_telemetry. now rewrite Hrail.
Qed.

End MonitorReads.

Lemma monitor_unknown_rail_witness :
  Monitor.monitor_loop Demo.quiet Demo.board4 ["VCCINT"] (Some "VCCBRAM") 5 []
  = ([Monitor.Banner; Monitor.Unavailable "VCCBRAM"], []).
Proof.
  apply (monitor_unknown_rail Demo.quiet Demo.board4 ["VCCINT"] "VCCBRAM" 4 []).
  - discriminate.
  - reflexivity.
Defined.
